(** * Uniswap v3 liquidity-edge market maker: embedding and verification

    A shallow embedding of the Python sources (outlier_service.py,
    bin_service.py, parser.py, recommender_service.py, app.py) and the proofs
    of the properties claimed about them.

    Conventions of the embedding.
    - A Python [float] is the rational ([Q]) it denotes; comparisons are the
      decidable ones on [Q].  Where the code makes floats out of integers,
      in parser.py, what the doubles cannot do is modelled: the quotient of
      two integers is rounded to the nearest double and raises
      [OverflowError] beyond the doubles, an integer too large for a double
      raises [OverflowError] when an operation makes a float of it, and
      [1.0001 ** tick] raises [OverflowError] or vanishes outside the ticks
      the doubles can follow.  The other operations on floats ([+], [-], [*], [/], [max],
      [min]) are the exact ones: they stand for the rounded operations of
      the code, and nothing is proved of them that rounding would undo.
      NaN and the infinities have no counterpart; a quotient of floats
      beyond the doubles, an infinity in the code, is its exact value,
      which compares with every double as the infinity does.
    - A Python [int] is a [Z].
    - A dictionary with a fixed set of keys is a record; a key read with
      [.get] (possibly absent, possibly [None]) is an [option] field.
    - A dictionary used as a map is a [gmap].
    - Exceptions are values of [Exn]; a function that may raise returns a
      [result].
    - Dictionaries that are shared and updated in place (the bins held by the
      cache, their copies made by the recommender) live in a store of
      objects addressed by references; see the module [app]. *)

From Stdlib Require Import ZArith QArith Qabs Qpower Qround Lqa String Ascii List.
From Stdlib Require Import Permutation Sorted.
From stdpp Require Import base option list strings gmap pretty sorting.

Local Open Scope Q_scope.

(* ===================================================================== *)
(** * Part I: the embedding *)
(* ===================================================================== *)

(** ** Python primitives *)

(** [x < y] on floats. *)
Definition Qltb (x y : Q) : bool := negb (Qle_bool y x).

(** The built-in [max(a, b)]: the first of the largest arguments. *)
Definition py_max (a b : Q) : Q := if Qltb a b then b else a.

(** The built-in [min(a, b)]: the first of the smallest arguments. *)
Definition py_min (a b : Q) : Q := if Qltb b a then b else a.

(** [max(l)] and [min(l)] on a non-empty list; [None] stands for the
    [ValueError] raised on an empty one. *)
Definition py_max_list (l : list Q) : option Q :=
  match l with
  | [] => None
  | x :: l' => Some (foldl py_max x l')
  end.

Definition py_min_list (l : list Q) : option Q :=
  match l with
  | [] => None
  | x :: l' => Some (foldl py_min x l')
  end.

(** [x or 0.0] for a float [x]: a zero is replaced by the default. *)
Definition or_zero (x : Q) : Q := if Qeq_bool x 0 then 0 else x.

(** [d.get(k, 0.0) or 0.0] for a key holding a float or [None]. *)
Definition get_or_zero (x : option Q) : Q :=
  match x with
  | Some v => or_zero v
  | None => 0
  end.

(** [math.isnan] and [math.isinf]: no rational is either. *)
Definition math_isnan (x : Q) : bool := false.
Definition math_isinf (x : Q) : bool := false.

(** [sorted(l, key=...)] and [list.sort()]: a stable sort.  [le x y] tells
    that [x] may stay in front of [y]; an element is put in front of the
    first element it may stay in front of, so elements that compare equal
    keep their order. *)
Fixpoint insert_sorted {A : Type} (le : A -> A -> bool) (x : A) (l : list A) : list A :=
  match l with
  | [] => [x]
  | y :: l' => if le x y then x :: y :: l' else y :: insert_sorted le x l'
  end.

Fixpoint py_sorted {A : Type} (le : A -> A -> bool) (l : list A) : list A :=
  match l with
  | [] => []
  | x :: l' => insert_sorted le x (py_sorted le l')
  end.

(** [l[:n]] for an integer [n]: a negative [n] counts from the end. *)
Definition slice_to {A : Type} (n : Z) (l : list A) : list A :=
  if (n <? 0)%Z then take (Z.to_nat (Z.of_nat (length l) + n)) l
  else take (Z.to_nat n) l.

(** [int(len * 0.05)] and [int(len * 0.95)]: the integer part of the
    product. *)
Definition int_5_percent (len : nat) : nat := (len * 5 / 100)%nat.
Definition int_95_percent (len : nat) : nat := (len * 95 / 100)%nat.

(** [str.lower] on ASCII text. *)
Definition lower_ascii (c : ascii) : ascii :=
  let n := nat_of_ascii c in
  if (65 <=? n)%nat && (n <=? 90)%nat then ascii_of_nat (n + 32) else c.

Fixpoint py_lower (s : string) : string :=
  match s with
  | EmptyString => EmptyString
  | String c s' => String (lower_ascii c) (py_lower s')
  end.

(** [needle in haystack] on strings. *)
Fixpoint contains (needle haystack : string) : bool :=
  String.prefix needle haystack ||
  match haystack with
  | EmptyString => false
  | String _ rest => contains needle rest
  end.

(** Exceptions, by class, with the text [str(e)] gives. *)
Inductive Exn :=
| ValueError (msg : string)
| ZeroDivisionError (msg : string)
| IndexError (msg : string)
| KeyError (msg : string)
| AttributeError (msg : string)
| OverflowError (msg : string)
| ReferenceError (msg : string).

Definition py_str (e : Exn) : string :=
  match e with
  | ValueError msg | ZeroDivisionError msg | IndexError msg | KeyError msg
  | AttributeError msg | OverflowError msg | ReferenceError msg => msg
  end.

Inductive result (A : Type) :=
| Ok (a : A)
| Raise (e : Exn).
Arguments Ok {A} a.
Arguments Raise {A} e.

#[global] Instance result_ret : MRet result := fun A a => Ok a.
#[global] Instance result_bind : MBind result := fun A B f m =>
  match m with
  | Ok a => f a
  | Raise e => Raise e
  end.

(** [l[i]] for [0 <= i]. *)
Definition py_index {A : Type} (l : list A) (i : nat) : result A :=
  match l !! i with
  | Some x => Ok x
  | None => Raise (IndexError "list index out of range")
  end.

(** The text of an integer literal handed to [int()]: a decimal numeral, or
    anything [int()] rejects with a [ValueError]. *)
Inductive IntText :=
| IntLit (z : Z)
| BadLit (s : string).

Definition py_int (t : IntText) : result Z :=
  match t with
  | IntLit z => Ok z
  | BadLit s => Raise (ValueError ("invalid literal for int() with base 10: '" +:+ s +:+ "'"))
  end.

(** ** Floats made of integers *)

(** The doubles are the rationals [m * 2 ** e] with [|m| < 2 ** 53] and
    [-1074 <= e <= 971]. *)

(** [floor(log2(q))] for [0 < q]. *)
Definition Qlog2 (q : Q) : Z :=
  let e := (Z.log2 (Qnum q) - Z.log2 (Zpos (Qden q)))%Z in
  if Qle_bool (Qpower 2 e) q then e else (e - 1)%Z.

(** The integer nearest to [q]; of two that are as near, the even one. *)
Definition round_half_even (q : Q) : Z :=
  let f := Qfloor q in
  match Qcompare (q - inject_Z f) (1 # 2) with
  | Lt => f
  | Gt => (f + 1)%Z
  | Eq => if Z.even f then f else (f + 1)%Z
  end.

(** The nearest of the rationals [m * 2 ** e] with [|m| <= 2 ** 53] and
    [-1074 <= e], ties going to the even [m]: the double nearest to [q]
    when it is one. *)
Definition nearest_double (q : Q) : Q :=
  if Qeq_bool q 0 then 0
  else
    let e := Z.max (Qlog2 (Qabs q) - 52) (-1074) in
    inject_Z (round_half_even (q / Qpower 2 e)) * Qpower 2 e.

(** The largest double. *)
Definition MAX_DOUBLE : Q := inject_Z (2 ^ 53 - 1) * Qpower 2 971.

(** [a / b] for two integers: the double nearest to the quotient. *)
Definition py_truediv (a b : Z) : result Q :=
  if (b =? 0)%Z then Raise (ZeroDivisionError "division by zero")
  else
    let q := nearest_double (inject_Z a / inject_Z b) in
    if Qltb MAX_DOUBLE (Qabs q)
    then Raise (OverflowError "integer division result too large for a float")
    else Ok q.

(** An integer is made a float before a float operation takes it: from
    [FLOAT_INT_LIMIT] on, in absolute value, it would round to [2 ** 1024]
    and the conversion raises. *)
Definition FLOAT_INT_LIMIT : Z := 2 ^ 1024 - 2 ^ 970.

(** [1.0001 ** tick].  The power leaves the doubles at the tick
    [POW_OVERFLOW_TICK], from which on [**] raises, and is nearer to 0
    than to any other double from [POW_ZERO_TICK] down, where the result is
    [0.0]; in between the double is modelled by the exact power. *)
Definition POW_OVERFLOW_TICK : Z := 7098183.
Definition POW_ZERO_TICK : Z := -7451705.

Definition tick_power (tick : Z) : result Q :=
  if (FLOAT_INT_LIMIT <=? Z.abs tick)%Z
  then Raise (OverflowError "int too large to convert to float")
  else if (POW_OVERFLOW_TICK <=? tick)%Z
  then Raise (OverflowError "(34, 'Numerical result out of range')")
  else if (tick <=? POW_ZERO_TICK)%Z then Ok 0
  else Ok (Qpower (10001 # 10000) tick).

(** [x / (10 ** d)] for a float [x] and an integer [d].  For [0 <= d] the
    divisor is an integer, which is made a float first: [10 ** 309] is too
    large for one.  For [d < 0] it is the float [10.0 ** d], which is [0.0]
    from [10 ** -324] down. *)
Definition div_pow10 (x : Q) (d : Z) : result Q :=
  if (0 <=? d)%Z then
    if (309 <=? d)%Z then Raise (OverflowError "int too large to convert to float")
    else Ok (x / Qpower 10 d)
  else
    if (d <=? - FLOAT_INT_LIMIT)%Z
    then Raise (OverflowError "int too large to convert to float")
    else if (d <=? -324)%Z then Raise (ZeroDivisionError "float division by zero")
    else Ok (x / Qpower 10 d).

(** ** outlier_service.py *)

(** The position dictionaries handed to the outlier filter and to the
    binning engine: the entries of the final summary. *)
Module Summary.
Record t := mk {
  nft_id : option Z;
  create_time : string;
  number_of_positions : Z;
  price_lower_afterdecimals : option Q;
  price_upper_afterdecimals : option Q;
  amount_weth : option Q;
  amount_usdt : option Q
}.
End Summary.

Module outlier_service.

Definition MIN_REASONABLE_PRICE : Q := 100.
Definition MAX_REASONABLE_PRICE : Q := 100000.
Definition MAX_WETH : Q := 1000000.
Definition MAX_USDT : Q := 1000000000000.
Definition MIN_PRICE_THRESHOLD : Q := 1 # 10000000000.
Definition MAX_PRICE_THRESHOLD : Q := 10000000000.

(** The warnings printed when [nft_id] is given are not part of the result. *)
Definition validate_amounts (amount_weth amount_usdt : option Q) : bool :=
  if match amount_weth with
     | Some w => math_isnan w || math_isinf w || Qltb w 0 || Qltb MAX_WETH w
     | None => false
     end
  then false
  else if match amount_usdt with
          | Some u => math_isnan u || math_isinf u || Qltb u 0 || Qltb MAX_USDT u
          | None => false
          end
  then false
  else true.

Definition validate_position_prices (position : Summary.t)
    (min_reasonable max_reasonable : Q) : bool :=
  match Summary.price_lower_afterdecimals position,
        Summary.price_upper_afterdecimals position with
  | Some price_lower, Some price_upper =>
      if Qltb price_lower min_reasonable || Qltb max_reasonable price_upper then false
      else if Qle_bool price_upper price_lower then false
      else if Qltb price_lower MIN_PRICE_THRESHOLD || Qltb MAX_PRICE_THRESHOLD price_upper
      then false
      else if negb (validate_amounts (Summary.amount_weth position)
                                     (Summary.amount_usdt position))
      then false
      else true
  | _, _ => false
  end.

(** Returns [(valid_positions, invalid_positions)]. *)
Definition filter_valid_positions (positions : list Summary.t)
    (min_reasonable max_reasonable : Q) : list Summary.t * list Summary.t :=
  foldl (fun '(valid_positions, invalid_positions) position =>
           if validate_position_prices position min_reasonable max_reasonable
           then (valid_positions ++ [position], invalid_positions)
           else (valid_positions, invalid_positions ++ [position]))
        ([], []) positions.

(** The first loop of [find_price_range]: the present, positive bounds. *)
Definition collect_bounds (positions : list Summary.t) : list Q * list Q :=
  foldl (fun '(all_lowers, all_uppers) position =>
           let all_lowers :=
             match Summary.price_lower_afterdecimals position with
             | Some price_lower =>
                 if Qltb 0 price_lower then all_lowers ++ [price_lower] else all_lowers
             | None => all_lowers
             end in
           let all_uppers :=
             match Summary.price_upper_afterdecimals position with
             | Some price_upper =>
                 if Qltb 0 price_upper then all_uppers ++ [price_upper] else all_uppers
             | None => all_uppers
             end in
           (all_lowers, all_uppers))
        ([], []) positions.

(** [MIN_PRICE_THRESHOLD <= p <= MAX_PRICE_THRESHOLD]. *)
Definition reasonable (p : Q) : bool :=
  Qle_bool MIN_PRICE_THRESHOLD p && Qle_bool p MAX_PRICE_THRESHOLD.

Definition find_price_range (positions : list Summary.t) : result (Q * Q) :=
  let '(all_lowers, all_uppers) := collect_bounds positions in
  if bool_decide (all_lowers = []) || bool_decide (all_uppers = []) then
    Raise (ValueError "No valid price data found in positions")
  else
    let all_lowers := py_sorted Qle_bool all_lowers in
    let all_uppers := py_sorted Qle_bool all_uppers in
    let lower_percentile_idx := Nat.max 0 (int_5_percent (length all_lowers)) in
    let upper_percentile_idx :=
      Nat.min (length all_uppers - 1) (int_95_percent (length all_uppers)) in
    min_price ← py_index all_lowers lower_percentile_idx;
    max_price ← py_index all_uppers upper_percentile_idx;
    if Qltb min_price MIN_PRICE_THRESHOLD || Qltb MAX_PRICE_THRESHOLD max_price then
      median_lower ← py_index all_lowers (length all_lowers / 2);
      median_upper ← py_index all_uppers (length all_uppers / 2);
      if Qle_bool MIN_PRICE_THRESHOLD median_lower
         && Qle_bool median_upper MAX_PRICE_THRESHOLD
      then Ok (median_lower, median_upper)
      else
        let reasonable_lowers := filter (fun p => reasonable p = true) all_lowers in
        let reasonable_uppers := filter (fun p => reasonable p = true) all_uppers in
        match py_min_list reasonable_lowers, py_max_list reasonable_uppers with
        | Some min_price, Some max_price => Ok (min_price, max_price)
        | _, _ => Raise (ValueError "No reasonable price range found in positions")
        end
    else Ok (min_price, max_price).

End outlier_service.

(** ** config.py *)

Module config.
Definition NUM_BINS : Z := 50.
End config.

(** ** bin_service.py *)

(** A bin dictionary.  The first six keys are set by [create_bins]; the
    recommender adds [total_liquidity] and [trading_volume_24h] to its
    copies, so these two keys may be absent. *)
Module Bin.
Record t := mk {
  bin_index : Z;
  priceLower : Q;
  priceUpper : Q;
  amount_weth : Q;
  amount_usdt : Q;
  count_nfts : Z;
  total_liquidity : option Q;
  trading_volume_24h : option Q
}.
(** [bin["total_liquidity"] = v] and [bin["trading_volume_24h"] = v]. *)
Definition set_total_liquidity (v : option Q) (b : t) : t :=
  {| bin_index := bin_index b; priceLower := priceLower b; priceUpper := priceUpper b;
     amount_weth := amount_weth b; amount_usdt := amount_usdt b;
     count_nfts := count_nfts b; total_liquidity := v;
     trading_volume_24h := trading_volume_24h b |}.
Definition set_trading_volume_24h (v : option Q) (b : t) : t :=
  {| bin_index := bin_index b; priceLower := priceLower b; priceUpper := priceUpper b;
     amount_weth := amount_weth b; amount_usdt := amount_usdt b;
     count_nfts := count_nfts b; total_liquidity := total_liquidity b;
     trading_volume_24h := v |}.
End Bin.

Module bin_service.

Import outlier_service.

Definition create_bins (min_price max_price : Q) (num_bins : Z) : result (list Bin.t) :=
  if Qle_bool max_price min_price then
    Raise (ValueError "min_price must be less than max_price")
  else if (num_bins =? 0)%Z then
    Raise (ZeroDivisionError "float division by zero")
  else
    let bin_size := (max_price - min_price) / inject_Z num_bins in
    Ok (map (fun i =>
               let price_lower := min_price + inject_Z i * bin_size in
               let price_upper := min_price + inject_Z (i + 1) * bin_size in
               {| Bin.bin_index := i;
                  Bin.priceLower := price_lower;
                  Bin.priceUpper := price_upper;
                  Bin.amount_weth := 0;
                  Bin.amount_usdt := 0;
                  Bin.count_nfts := 0;
                  Bin.total_liquidity := None;
                  Bin.trading_volume_24h := None |})
            (seqZ 0 num_bins)).

Definition calculate_overlap (position_lower position_upper bin_lower bin_upper : Q) : Q :=
  let overlap_lower := py_max position_lower bin_lower in
  let overlap_upper := py_min position_upper bin_upper in
  if Qle_bool overlap_upper overlap_lower then 0
  else overlap_upper - overlap_lower.

(** The first loop of [distribute_position_to_bins]: the bins that overlap
    the position, each named by its place in [bins] and paired with its
    overlap, and the sum of the overlaps. *)
Definition find_overlapping (position_lower position_upper : Q) (bins : list Bin.t)
    : list (nat * Q) * Q :=
  foldl (fun '(overlapping_bins, total_overlap) '(i, bin) =>
           let overlap :=
             calculate_overlap position_lower position_upper
                               (Bin.priceLower bin) (Bin.priceUpper bin) in
           if Qltb 0 overlap
           then (overlapping_bins ++ [(i, overlap)], total_overlap + overlap)
           else (overlapping_bins, total_overlap))
        ([], 0) (imap pair bins).

(** The body of the second loop: the three in-place updates of one bin. *)
Definition add_to_bin (amount_weth amount_usdt position_range overlap : Q)
    (bin : Bin.t) : Bin.t :=
  let overlap_proportion := overlap / position_range in
  let bin_weth := amount_weth * overlap_proportion in
  let bin_usdt := amount_usdt * overlap_proportion in
  {| Bin.bin_index := Bin.bin_index bin;
     Bin.priceLower := Bin.priceLower bin;
     Bin.priceUpper := Bin.priceUpper bin;
     Bin.amount_weth := Bin.amount_weth bin + bin_weth;
     Bin.amount_usdt := Bin.amount_usdt bin + bin_usdt;
     Bin.count_nfts := Bin.count_nfts bin + 1;
     Bin.total_liquidity := Bin.total_liquidity bin;
     Bin.trading_volume_24h := Bin.trading_volume_24h bin |}.

(** [bins] is a list of distinct dictionaries, updated in place; the result
    is the list after the call. *)
Definition distribute_position_to_bins (position : Summary.t) (bins : list Bin.t)
    : list Bin.t :=
  let amount_weth := get_or_zero (Summary.amount_weth position) in
  let amount_usdt := get_or_zero (Summary.amount_usdt position) in
  match Summary.price_lower_afterdecimals position,
        Summary.price_upper_afterdecimals position with
  | Some position_lower, Some position_upper =>
      let '(overlapping_bins, total_overlap) :=
        find_overlapping position_lower position_upper bins in
      if Qeq_bool total_overlap 0 || (length overlapping_bins =? 0)%nat then bins
      else
        let position_range := position_upper - position_lower in
        if Qeq_bool position_range 0 then bins
        else
          foldl (fun bins '(i, overlap) =>
                   alter (add_to_bin amount_weth amount_usdt position_range overlap) i bins)
                bins overlapping_bins
  | _, _ => bins
  end.

(** [min_reasonable] and [max_reasonable] default to the constants of
    [outlier_service] when not given.  The test of [min_price] and
    [max_price] against the infinities has no counterpart: no rational is
    infinite. *)
Definition create_bins_from_data (positions : list Summary.t) (num_bins : Z)
    (min_reasonable max_reasonable : option Q) : result (list Bin.t) :=
  if bool_decide (positions = []) then Raise (ValueError "No positions provided")
  else
    let min_reasonable := default MIN_REASONABLE_PRICE min_reasonable in
    let max_reasonable := default MAX_REASONABLE_PRICE max_reasonable in
    let '(valid_positions, invalid_positions) :=
      filter_valid_positions positions min_reasonable max_reasonable in
    if bool_decide (valid_positions = []) then
      Raise (ValueError "No valid positions after filtering")
    else
      '(min_price, max_price) ← find_price_range valid_positions;
      bins ← create_bins min_price max_price num_bins;
      Ok (foldl (fun bins position => distribute_position_to_bins position bins)
                bins valid_positions).

End bin_service.

(** ** parser.py *)

(** The [Value] object of an argument or return value: the service fills
    the key that fits the ABI type of the value. *)
Module AbiValue.
Record t := mk {
  address : option string;
  bigInteger : option IntText
}.
End AbiValue.

Module Arg.
Record t := mk {
  Index : option Z;
  Value : AbiValue.t
}.
End Arg.

Module Ret.
Record t := mk {
  Name : string;
  Value : AbiValue.t
}.
End Ret.

(** A call record of the service.  [Signature_Name] is
    [Call.Signature.Name], [Block_Time] and [Transaction_Time] are the
    [Time] keys of [Block] and [Transaction], [None] when the object or the
    key is absent; [Log] tells whether the record has a [Log] key, as event
    records do. *)
Module Call.
Record t := mk {
  Arguments : list Arg.t;
  Returns : list Ret.t;
  Signature_Name : string;
  Block_Time : option string;
  Transaction_Time : option string;
  Log : bool
}.
End Call.

(** The decoded answer of the service: the object
    [{"data": {"EVM": {"Events": ..., "Calls": ...}}}], an absent list being
    empty, or a bare list of records. *)
Inductive ResponseData :=
| RespDict (Events Calls : list Call.t)
| RespList (records : list Call.t).

(** The dictionary built by [extract_position_data]. *)
Module Mint.
Record t := mk {
  nft_id : Z;
  tick_lower : Z;
  tick_upper : Z;
  timestamp : string;
  token0 : option string;
  token1 : option string;
  price_lower : Q;
  price_upper : Q;
  price_lower_afterdecimals : Q;
  price_upper_afterdecimals : Q;
  amount0 : option Z;
  amount1 : option Z;
  amount0_afterdecimals : option Q;
  amount1_afterdecimals : option Q;
  amount_weth : option Q;
  amount_usdt : option Q
}.
End Mint.

(** The value kept per identifier by [parse_liquidity_events]. *)
Module Delta.
Record t := mk {
  count : Z;
  total_amount0 : Z;
  total_amount1 : Z
}.
End Delta.

(** The text of a number handed to [float()]. *)
Inductive FloatText :=
| FloatLit (q : Q)
| BadFloat (s : string).

Definition py_float (t : FloatText) : result Q :=
  match t with
  | FloatLit q => Ok q
  | BadFloat s => Raise (ValueError ("could not convert string to float: '" +:+ s +:+ "'"))
  end.

(** The answer to a trade-volume query: the rows of
    [data.EVM.DEXTradeByTokens], each with its [volume] key. *)
Module VolumeResponse.
Record t := mk {
  DEXTradeByTokens : list (option FloatText)
}.
End VolumeResponse.

(** A loop whose body may raise. *)
Fixpoint foldl_result {A B : Type} (f : A -> B -> result A) (a : A) (l : list B)
    : result A :=
  match l with
  | [] => Ok a
  | x :: l' => a' ← f a x; foldl_result f a' l'
  end.

Module parser.

Import outlier_service.

Definition WETH_ADDRESS : string := "0xc02aaa39b223fe8d0a0e5c4f27ead9083c756cc2".
Definition USDT_ADDRESS : string := "0xdac17f958d2ee523a2206206994597c13d831ec7".

Definition WETH_DECIMALS : Z := 18.
Definition USDT_DECIMALS : Z := 6.

Definition normalize_address (address : string) : string :=
  if bool_decide (address = "") then "" else py_lower address.

Definition calculate_price_from_tick (tick : Z) : result Q :=
  tick_power tick.

Definition calculate_price_with_decimals (tick decimal0 decimal1 : Z) : result Q :=
  price_base ← tick_power tick;
  let decimal_diff := (decimal1 - decimal0)%Z in
  div_pow10 price_base decimal_diff.

(** [amount / (10 ** decimals)] under [if amount is not None]. *)
Definition after_decimals (amount : option Z) (decimals : Z) : result (option Q) :=
  match amount with
  | Some amount => q ← py_truediv amount (10 ^ decimals); Ok (Some q)
  | None => Ok None
  end.

(** The loop over [arguments[:2]]: the two token addresses. *)
Definition scan_tokens (arguments : list Arg.t) : option string * option string :=
  foldl (fun '(token0_address, token1_address) arg =>
           if bool_decide (Arg.Index arg = Some 0%Z) then
             match AbiValue.address (Arg.Value arg) with
             | Some a => (Some (normalize_address a), token1_address)
             | None => (token0_address, token1_address)
             end
           else if bool_decide (Arg.Index arg = Some 1%Z) then
             match AbiValue.address (Arg.Value arg) with
             | Some a => (token0_address, Some (normalize_address a))
             | None => (token0_address, token1_address)
             end
           else (token0_address, token1_address))
        (None, None) (take 2 arguments).

(** The loop over [arguments]: [tickLower] (index 3), [tickUpper] (index 4). *)
Definition scan_ticks (arguments : list Arg.t) : result (option Z * option Z) :=
  foldl_result (fun '(tick_lower, tick_upper) arg =>
                  if bool_decide (Arg.Index arg = Some 3%Z) then
                    match AbiValue.bigInteger (Arg.Value arg) with
                    | Some text => tick ← py_int text; Ok (Some tick, tick_upper)
                    | None => Ok (tick_lower, tick_upper)
                    end
                  else if bool_decide (Arg.Index arg = Some 4%Z) then
                    match AbiValue.bigInteger (Arg.Value arg) with
                    | Some text => tick ← py_int text; Ok (tick_lower, Some tick)
                    | None => Ok (tick_lower, tick_upper)
                    end
                  else Ok (tick_lower, tick_upper))
               (None, None) arguments.

(** The loop over [returns]: [tokenId], [amount0], [amount1] by name. *)
Definition scan_returns_by_name (returns : list Ret.t)
    : result (option Z * option Z * option Z) :=
  foldl_result (fun '(nft_id, amount0, amount1) ret =>
                  let name := Ret.Name ret in
                  let value := Ret.Value ret in
                  if bool_decide (name = "tokenId") then
                    match AbiValue.bigInteger value with
                    | Some text => n ← py_int text; Ok (Some n, amount0, amount1)
                    | None => Ok (nft_id, amount0, amount1)
                    end
                  else if bool_decide (name = "amount0") then
                    match AbiValue.bigInteger value with
                    | Some text => n ← py_int text; Ok (nft_id, Some n, amount1)
                    | None => Ok (nft_id, amount0, amount1)
                    end
                  else if bool_decide (name = "amount1") then
                    match AbiValue.bigInteger value with
                    | Some text => n ← py_int text; Ok (nft_id, amount0, Some n)
                    | None => Ok (nft_id, amount0, amount1)
                    end
                  else Ok (nft_id, amount0, amount1))
               (None, None, None) returns.

(** The loop over [enumerate(returns)]: [amount0] at place [i0], [amount1]
    at place [i1]. *)
Definition scan_returns_by_index (i0 i1 : nat) (amount0 amount1 : option Z)
    (returns : list Ret.t) : result (option Z * option Z) :=
  foldl_result (fun '(amount0, amount1) '(i, ret) =>
                  match AbiValue.bigInteger (Ret.Value ret) with
                  | Some text =>
                      if (i =? i0)%nat then n ← py_int text; Ok (Some n, amount1)
                      else if (i =? i1)%nat then n ← py_int text; Ok (amount0, Some n)
                      else Ok (amount0, amount1)
                  | None => Ok (amount0, amount1)
                  end)
               (amount0, amount1) (imap pair returns).

(** The body of the [try] block. *)
Definition extract_position_data_body (position : Call.t) : result (option Mint.t) :=
  let arguments := Call.Arguments position in
  if (length arguments <? 2)%nat then Ok None
  else
    let '(token0_address, token1_address) := scan_tokens arguments in
    let weth_normalized := normalize_address WETH_ADDRESS in
    let usdt_normalized := normalize_address USDT_ADDRESS in
    let has_weth := bool_decide (token0_address = Some weth_normalized)
                    || bool_decide (token1_address = Some weth_normalized) in
    let has_usdt := bool_decide (token0_address = Some usdt_normalized)
                    || bool_decide (token1_address = Some usdt_normalized) in
    if negb (has_weth && has_usdt) then Ok None
    else
      '(tick_lower, tick_upper) ← scan_ticks arguments;
      let returns := Call.Returns position in
      '(nft_id, amount0, amount1) ← scan_returns_by_name returns;
      '(amount0, amount1) ←
        (if bool_decide (amount0 = None) || bool_decide (amount1 = None)
         then scan_returns_by_index 2 3 amount0 amount1 returns
         else Ok (amount0, amount1));
      let timestamp :=
        match Call.Block_Time position with
        | Some time => Some time
        | None => Call.Transaction_Time position
        end in
      match tick_lower, tick_upper, nft_id, timestamp with
      | Some tick_lower, Some tick_upper, Some nft_id, Some timestamp =>
          let is_weth_token0 := bool_decide (token0_address = Some weth_normalized) in
          let is_usdt_token0 := bool_decide (token0_address = Some usdt_normalized) in
          let '(decimal0, decimal1) :=
            if is_weth_token0 then (WETH_DECIMALS, USDT_DECIMALS)
            else if is_usdt_token0 then (USDT_DECIMALS, WETH_DECIMALS)
            else (18%Z, 6%Z) in
          price_lower_base ← calculate_price_from_tick tick_lower;
          price_upper_base ← calculate_price_from_tick tick_upper;
          price_lower_afterdecimals ←
            calculate_price_with_decimals tick_lower decimal0 decimal1;
          price_upper_afterdecimals ←
            calculate_price_with_decimals tick_upper decimal0 decimal1;
          amount0_afterdecimals ← after_decimals amount0 decimal0;
          amount1_afterdecimals ← after_decimals amount1 decimal1;
          let '(amount_weth, amount_usdt) :=
            if is_weth_token0 then (amount0_afterdecimals, amount1_afterdecimals)
            else if is_usdt_token0 then (amount1_afterdecimals, amount0_afterdecimals)
            else (None, None) in
          Ok (Some {| Mint.nft_id := nft_id;
                      Mint.tick_lower := tick_lower;
                      Mint.tick_upper := tick_upper;
                      Mint.timestamp := timestamp;
                      Mint.token0 := token0_address;
                      Mint.token1 := token1_address;
                      Mint.price_lower := price_lower_base;
                      Mint.price_upper := price_upper_base;
                      Mint.price_lower_afterdecimals := price_lower_afterdecimals;
                      Mint.price_upper_afterdecimals := price_upper_afterdecimals;
                      Mint.amount0 := amount0;
                      Mint.amount1 := amount1;
                      Mint.amount0_afterdecimals := amount0_afterdecimals;
                      Mint.amount1_afterdecimals := amount1_afterdecimals;
                      Mint.amount_weth := amount_weth;
                      Mint.amount_usdt := amount_usdt |})
      | _, _, _, _ => Ok None
      end.

(** [except (KeyError, ValueError, TypeError)]: the record is dropped.
    An [OverflowError] of the float operations is not caught. *)
Definition extract_position_data (position : Call.t) : result (option Mint.t) :=
  match extract_position_data_body position with
  | Ok parsed => Ok parsed
  | Raise (KeyError _) | Raise (ValueError _) => Ok None
  | Raise e => Raise e
  end.

(** The records under [data.EVM.Calls], or the bare list. *)
Definition calls_of (response_data : ResponseData) : list Call.t :=
  match response_data with
  | RespDict _ calls => calls
  | RespList records => records
  end.

Definition parse_positions (response_data : ResponseData) : result (list Mint.t) :=
  foldl_result (fun positions position =>
                  parsed ← extract_position_data position;
                  match parsed with
                  | Some parsed => Ok (positions ++ [parsed])
                  | None => Ok positions
                  end)
               [] (calls_of response_data).

(** [nft_data[nft_id]] initialised when absent. *)
Definition delta_of (nft_data : gmap Z Delta.t) (nft_id : Z) : Delta.t :=
  default {| Delta.count := 0; Delta.total_amount0 := 0; Delta.total_amount1 := 0 |}
          (nft_data !! nft_id).

(** The body of the loop over the events: the first argument with index 0
    names the position. *)
Definition process_event (nft_data : gmap Z Delta.t) (event : Call.t)
    : result (gmap Z Delta.t) :=
  match List.find (fun arg => bool_decide (Arg.Index arg = Some 0%Z))
                  (Call.Arguments event) with
  | Some arg =>
      match AbiValue.bigInteger (Arg.Value arg) with
      | Some text =>
          nft_id ← py_int text;
          let d := delta_of nft_data nft_id in
          Ok (<[nft_id :=
                 {| Delta.count := Delta.count d + 1;
                    Delta.total_amount0 := Delta.total_amount0 d;
                    Delta.total_amount1 := Delta.total_amount1 d |}]> nft_data)
      | None => Ok nft_data
      end
  | None => Ok nft_data
  end.

(** The amounts of a call, by name. *)
Definition scan_amounts_by_name (returns : list Ret.t) : result (option Z * option Z) :=
  foldl_result (fun '(amount0, amount1) ret =>
                  let name := Ret.Name ret in
                  let value := Ret.Value ret in
                  match AbiValue.bigInteger value with
                  | Some text =>
                      if bool_decide (name = "amount0") then
                        n ← py_int text; Ok (Some n, amount1)
                      else if bool_decide (name = "amount1") then
                        n ← py_int text; Ok (amount0, Some n)
                      else Ok (amount0, amount1)
                  | None => Ok (amount0, amount1)
                  end)
               (None, None) returns.

(** The body of the loop over the calls. *)
Definition process_call (nft_data : gmap Z Delta.t) (call : Call.t)
    : result (gmap Z Delta.t) :=
  let signature_name := Call.Signature_Name call in
  if negb (bool_decide (signature_name = "increaseLiquidity")
           || bool_decide (signature_name = "decreaseLiquidity"))
  then Ok nft_data
  else
    let is_decrease := bool_decide (signature_name = "decreaseLiquidity") in
    let arguments := Call.Arguments call in
    let returns := Call.Returns call in
    match List.find (fun arg => bool_decide (Arg.Index arg = Some 0%Z)
                                && bool_decide (is_Some (AbiValue.bigInteger (Arg.Value arg))))
                    arguments with
    | None => Ok nft_data
    | Some arg =>
        match AbiValue.bigInteger (Arg.Value arg) with
        | None => Ok nft_data
        | Some text =>
            nft_id ← py_int text;
            '(amount0, amount1) ← scan_amounts_by_name returns;
            '(amount0, amount1) ←
              (if bool_decide (amount0 = None) || bool_decide (amount1 = None)
               then scan_returns_by_index 1 2 amount0 amount1 returns
               else Ok (amount0, amount1));
            let d := delta_of nft_data nft_id in
            if is_decrease then
              Ok (<[nft_id :=
                     {| Delta.count := Delta.count d + 1;
                        Delta.total_amount0 := Delta.total_amount0 d - default 0%Z amount0;
                        Delta.total_amount1 := Delta.total_amount1 d - default 0%Z amount1 |}]>
                    nft_data)
            else
              Ok (<[nft_id :=
                     {| Delta.count := Delta.count d + 1;
                        Delta.total_amount0 := Delta.total_amount0 d + default 0%Z amount0;
                        Delta.total_amount1 := Delta.total_amount1 d + default 0%Z amount1 |}]>
                    nft_data)
        end
    end.

(** The events and the calls of an answer.  A bare list is taken for events
    when its first record has a [Log] key, for calls otherwise. *)
Definition events_and_calls (response_data : ResponseData) : list Call.t * list Call.t :=
  match response_data with
  | RespDict events calls => (events, calls)
  | RespList records =>
      match records with
      | first :: _ => if Call.Log first then (records, []) else ([], records)
      | [] => ([], records)
      end
  end.

Definition parse_liquidity_events (response_data : ResponseData)
    : result (gmap Z Delta.t) :=
  let '(events, calls) := events_and_calls response_data in
  nft_data ← foldl_result process_event ∅ events;
  foldl_result process_call nft_data calls.

(** [x or 0] for an integer or [None]. *)
Definition int_or_zero (x : option Z) : Z := default 0%Z x.

Definition create_final_summary (mint_positions : list Mint.t)
    (liquidity_data : gmap Z Delta.t) : result (list Summary.t) :=
  foldl_result (fun summary position =>
           let nft_id := Mint.nft_id position in
           let liquidity_info := delta_of liquidity_data nft_id in
           let increase_count := Delta.count liquidity_info in
           let total_positions := (1 + increase_count)%Z in
           let token0_address := default "" (Mint.token0 position) in
           let is_weth_token0 :=
             bool_decide (normalize_address token0_address = normalize_address WETH_ADDRESS) in
           let '(decimal0, decimal1) :=
             if is_weth_token0 then (WETH_DECIMALS, USDT_DECIMALS)
             else (USDT_DECIMALS, WETH_DECIMALS) in
           let mint_amount0 := int_or_zero (Mint.amount0 position) in
           let mint_amount1 := int_or_zero (Mint.amount1 position) in
           let net_liquidity_amount0 := Delta.total_amount0 liquidity_info in
           let net_liquidity_amount1 := Delta.total_amount1 liquidity_info in
           let total_amount0 := (mint_amount0 + net_liquidity_amount0)%Z in
           let total_amount1 := (mint_amount1 + net_liquidity_amount1)%Z in
           total_amount0_afterdecimals ← py_truediv total_amount0 (10 ^ decimal0);
           total_amount1_afterdecimals ← py_truediv total_amount1 (10 ^ decimal1);
           let '(total_amount_weth, total_amount_usdt) :=
             if is_weth_token0
             then (total_amount0_afterdecimals, total_amount1_afterdecimals)
             else (total_amount1_afterdecimals, total_amount0_afterdecimals) in
           if negb (validate_amounts (Some total_amount_weth) (Some total_amount_usdt))
           then Ok summary
           else
             let summary_item :=
               {| Summary.nft_id := Some nft_id;
                  Summary.create_time := Mint.timestamp position;
                  Summary.number_of_positions := total_positions;
                  Summary.price_lower_afterdecimals :=
                    Some (Mint.price_lower_afterdecimals position);
                  Summary.price_upper_afterdecimals :=
                    Some (Mint.price_upper_afterdecimals position);
                  Summary.amount_weth := Some total_amount_weth;
                  Summary.amount_usdt := Some total_amount_usdt |} in
             if negb (validate_position_prices summary_item
                        MIN_REASONABLE_PRICE MAX_REASONABLE_PRICE)
             then Ok summary
             else Ok (summary ++ [summary_item]))
        [] mint_positions.

(** [float(volume)] of the first row; [0.0] when there is none, when its
    [volume] is absent, or when the text is not a number. *)
Definition parse_trading_volume (response_data : VolumeResponse.t) : Q :=
  match VolumeResponse.DEXTradeByTokens response_data with
  | [] => 0
  | volume_data :: _ =>
      match volume_data with
      | None => 0
      | Some volume =>
          match py_float volume with
          | Ok v => v
          | Raise _ => 0
          end
      end
  end.

End parser.

(** ** The object store and the effects of a request *)

(** References to bin dictionaries, and instants in seconds. *)
Definition loc : Type := positive.
Definition Time : Type := Q.

Module Metadata.
Record t := mk {
  total_positions : Z;
  total_bins : Z;
  bins_with_positions : Z;
  analysis_date : Time;
  time_range_hours : Z;
  cache_timestamp : Time;
  price_filter_lower : option Q;
  price_filter_upper : option Q
}.
End Metadata.

(** The dictionary built by [recommend_top_bands], to which the application
    adds the key [metadata]. *)
Module Recommendations.
Record t := mk {
  top_liquidity_bands : list loc;
  metadata : option Metadata.t
}.
End Recommendations.

(** What [get_recommendations_data] returns: [{'error': ...}] or the
    recommendations. *)
Inductive ResultDict :=
| ErrorDict (error : string)
| Recommended (recommendations : Recommendations.t).

(** The module-level [cache] dictionary of app.py.  The key
    [total_positions] is absent until the first refresh. *)
Module Cache.
Record t := mk {
  bins : option (list loc);
  data : option Recommendations.t;
  timestamp : option Time;
  total_positions : option Z
}.
Definition empty : t :=
  {| bins := None; data := None; timestamp := None; total_positions := None |}.
Definition set_bins (v : option (list loc)) (c : t) : t :=
  {| bins := v; data := data c; timestamp := timestamp c;
     total_positions := total_positions c |}.
Definition set_data (v : option Recommendations.t) (c : t) : t :=
  {| bins := bins c; data := v; timestamp := timestamp c;
     total_positions := total_positions c |}.
Definition set_timestamp (v : option Time) (c : t) : t :=
  {| bins := bins c; data := data c; timestamp := v;
     total_positions := total_positions c |}.
Definition set_total_positions (v : option Z) (c : t) : t :=
  {| bins := bins c; data := data c; timestamp := timestamp c;
     total_positions := v |}.
End Cache.

(** The queries sent to the upstream service. *)
Inductive Request :=
| MintRequest (start_date end_date : Time)
| LiquidityRequest (nft_ids : list string) (start_date end_date : Time)
| VolumeRequest (price_low price_high : Q) (start_date end_date : Time).

Module Http.
Record response (A : Type) := mk {
  status_code : Z;
  json : A
}.
Arguments mk {A} status_code json.
Arguments status_code {A} r.
Arguments json {A} r.
End Http.

(** The world outside the program: the answer of the upstream service to a
    query, given all the queries sent so far (the last one being the query
    answered), and the successive readings of the wall clock. *)
Module Upstream.
Record t := mk {
  post_mint : list Request -> Http.response ResponseData;
  post_liquidity : list Request -> Http.response ResponseData;
  post_volume : list Request -> Http.response VolumeResponse.t;
  clock : nat -> Time
}.
End Upstream.

(** The state a request runs in: the world outside, which the program
    never changes, the bin dictionaries, the cache, the queries sent so far,
    and the number of clock readings so far. *)
Module World.
Record t := mk {
  upstream : Upstream.t;
  heap : gmap loc Bin.t;
  cache : Cache.t;
  trace : list Request;
  ticks : nat
}.
Definition set_heap (v : gmap loc Bin.t) (w : t) : t :=
  {| upstream := upstream w; heap := v; cache := cache w;
     trace := trace w; ticks := ticks w |}.
Definition set_cache (v : Cache.t) (w : t) : t :=
  {| upstream := upstream w; heap := heap w; cache := v;
     trace := trace w; ticks := ticks w |}.
Definition set_trace (v : list Request) (w : t) : t :=
  {| upstream := upstream w; heap := heap w; cache := cache w;
     trace := v; ticks := ticks w |}.
Definition set_ticks (v : nat) (w : t) : t :=
  {| upstream := upstream w; heap := heap w; cache := cache w;
     trace := trace w; ticks := v |}.
End World.

(** A computation that reads and updates the world and may raise. *)
Definition M (A : Type) : Type := World.t -> World.t * result A.

#[global] Instance M_ret : MRet M := fun A a w => (w, Ok a).
#[global] Instance M_bind : MBind M := fun A B f m w =>
  match m w with
  | (w', Ok a) => f a w'
  | (w', Raise e) => (w', Raise e)
  end.

Definition raise {A : Type} (e : Exn) : M A := fun w => (w, Raise e).

(** [try: m except Exception as e: handler(e)]. *)
Definition try_except {A : Type} (m : M A) (handler : Exn -> M A) : M A := fun w =>
  match m w with
  | (w', Ok a) => (w', Ok a)
  | (w', Raise e) => handler e w'
  end.

(** The result of a function that neither reads nor updates the world. *)
Definition lift {A : Type} (r : result A) : M A := fun w => (w, r).

(** [for x in l: body(x)]. *)
Fixpoint for_each {A : Type} (l : list A) (body : A -> M unit) : M unit :=
  match l with
  | [] => mret tt
  | x :: l' => _ ← body x; for_each l' body
  end.

Bind Scope Q_scope with Time.

(** Reading a dictionary through a reference.  Python has no dangling
    reference; one is reported as an error to keep the function total. *)
Definition load (l : loc) : M Bin.t := fun w =>
  match World.heap w !! l with
  | Some b => (w, Ok b)
  | None => (w, Raise (ReferenceError "no such object"))
  end.

(** A new dictionary. *)
Definition alloc (b : Bin.t) : M loc := fun w =>
  let l := fresh (dom (World.heap w)) in
  (World.set_heap (<[l := b]> (World.heap w)) w, Ok l).

(** An update in place of the dictionary behind a reference. *)
Definition update (l : loc) (f : Bin.t -> Bin.t) : M unit := fun w =>
  match World.heap w !! l with
  | Some b => (World.set_heap (<[l := f b]> (World.heap w)) w, Ok tt)
  | None => (w, Raise (ReferenceError "no such object"))
  end.

(** New dictionaries for the bins built by a function that shares them with
    nobody before it returns them. *)
Definition alloc_all (bins : list Bin.t) : M (list loc) := mapM alloc bins.

(** [datetime.now()], with or without a time zone: the next reading of
    the clock. *)
Definition now : M Time := fun w =>
  (World.set_ticks (S (World.ticks w)) w,
   Ok (Upstream.clock (World.upstream w) (World.ticks w))).

(** Reading and updating the keys of [cache]. *)
Definition get_cache : M Cache.t := fun w => (w, Ok (World.cache w)).

Definition update_cache (f : Cache.t -> Cache.t) : M unit := fun w =>
  (World.set_cache (f (World.cache w)) w, Ok tt).

(** Sending a query: it joins the queries sent so far, and the world outside
    answers. *)
Definition post {A : Type} (request : Request)
    (service : Upstream.t -> list Request -> Http.response A) : M (Http.response A) := fun w =>
  let sent := World.trace w ++ [request] in
  (World.set_trace sent w, Ok (service (World.upstream w) sent)).

(** ** bitquery_service.py *)

Module bitquery_service.

Definition fetch_trading_volume (price_low price_high : Q) (start_date end_date : Time)
    : M (option VolumeResponse.t) :=
  response ← post (VolumeRequest price_low price_high start_date end_date)
                  Upstream.post_volume;
  if (Http.status_code response =? 200)%Z then mret (Some (Http.json response))
  else mret None.

Definition fetch_mint_positions (start_date end_date : Time)
    : M (option ResponseData * Z) :=
  response ← post (MintRequest start_date end_date) Upstream.post_mint;
  if (Http.status_code response =? 200)%Z
  then mret (Some (Http.json response), Http.status_code response)
  else mret (None, Http.status_code response).

Definition fetch_liquidity_events (nft_ids : list string) (start_date end_date : Time)
    : M (option ResponseData * Z) :=
  liquidity_response ← post (LiquidityRequest nft_ids start_date end_date)
                            Upstream.post_liquidity;
  if (Http.status_code liquidity_response =? 200)%Z
  then mret (Some (Http.json liquidity_response), Http.status_code liquidity_response)
  else mret (None, Http.status_code liquidity_response).

End bitquery_service.

(** ** recommender_service.py *)

Module recommender_service.

(** [bin] is the content of the dictionary, which the function only reads. *)
Definition calculate_total_liquidity (bin : Bin.t) : Q :=
  let amount_weth := or_zero (Bin.amount_weth bin) in
  let amount_usdt := or_zero (Bin.amount_usdt bin) in
  let price_lower := Bin.priceLower bin in
  let price_upper := Bin.priceUpper bin in
  let mid_price :=
    if Qltb 0 price_lower && Qltb 0 price_upper
    then (price_lower + price_upper) / 2
    else 0 in
  let total_liquidity := amount_usdt + amount_weth * mid_price in
  total_liquidity.

(** [bin.copy()] followed by [bin_copy["total_liquidity"] = ...]. *)
Definition copy_with_liquidity (bin : loc) : M loc :=
  b ← load bin;
  let total_liquidity := calculate_total_liquidity b in
  bin_copy ← alloc b;
  _ ← update bin_copy (Bin.set_total_liquidity (Some total_liquidity));
  mret bin_copy.

(** [x["total_liquidity"]], the key of the sort, paired with [x]. *)
Definition total_liquidity_key (x : loc) : M (Q * loc) :=
  b ← load x;
  match Bin.total_liquidity b with
  | Some key => mret (key, x)
  | None => raise (KeyError "'total_liquidity'")
  end.

Definition get_top_liquidity_bands (bins : list loc) (top_n : Z) : M (list loc) :=
  bins_with_liquidity ← mapM copy_with_liquidity bins;
  keyed ← mapM total_liquidity_key bins_with_liquidity;
  let sorted_bins := (py_sorted (fun x y => Qle_bool y.1 x.1) keyed).*2 in
  mret (slice_to top_n sorted_bins).

(** The body of the loop over the selected bands. *)
Definition attach_volume
    (fetch_volume_func : Q -> Q -> Time -> Time -> M (option VolumeResponse.t))
    (start_date end_date : Time) (band : loc) : M unit :=
  b ← load band;
  let price_low := Bin.priceLower b in
  let price_high := Bin.priceUpper b in
  if Qltb 0 price_low && Qltb 0 price_high then
    volume_response ← fetch_volume_func price_low price_high start_date end_date;
    match volume_response with
    | Some volume_response =>
        let volume := parser.parse_trading_volume volume_response in
        update band (Bin.set_trading_volume_24h (Some volume))
    | None => update band (Bin.set_trading_volume_24h (Some 0))
    end
  else update band (Bin.set_trading_volume_24h (Some 0)).

(** [fetch_volume_func] is [None] or the function that fetches a volume. *)
Definition recommend_top_bands (bins : list loc) (top_n : Z)
    (fetch_volume_func : option (Q -> Q -> Time -> Time -> M (option VolumeResponse.t)))
    : M Recommendations.t :=
  top_liquidity ← get_top_liquidity_bands bins top_n;
  _ ← match fetch_volume_func with
      | Some fetch_volume_func =>
          end_date ← now;
          let start_date := end_date - 24 * 3600 in
          for_each top_liquidity (attach_volume fetch_volume_func start_date end_date)
      | None => mret tt
      end;
  mret {| Recommendations.top_liquidity_bands := top_liquidity;
          Recommendations.metadata := None |}.

End recommender_service.

(** ** app.py *)

(** The arguments of a query to [/api/recommendations]: the text given for
    a key, [None] when the key is absent or its text empty. *)
Module Args.
Record t := mk {
  price_lower : option FloatText;
  price_upper : option FloatText;
  refresh : option string
}.
End Args.

(** The answer to it: what [jsonify] is given, and the status. *)
Module Reply.
Record t := mk {
  body : ResultDict;
  status : Z
}.
End Reply.

Module app.

Import bitquery_service recommender_service.

Definition CACHE_EXPIRATION_MINUTES : Q := 10.

(** Whether a bin with the given bounds is kept by the price filter. *)
Definition overlaps_price_range (price_lower price_upper : option Q)
    (bin_lower bin_upper : Q) : bool :=
  match price_lower, price_upper with
  | Some price_lower, Some price_upper =>
      Qle_bool bin_lower price_upper && Qle_bool price_lower bin_upper
  | Some price_lower, None => Qle_bool price_lower bin_upper
  | None, Some price_upper => Qle_bool bin_lower price_upper
  | None, None => false
  end.

Definition filter_bins_by_price_range (bins : list loc) (price_lower price_upper : option Q)
    : M (list loc) :=
  if negb (bool_decide (is_Some price_lower)) && negb (bool_decide (is_Some price_upper))
  then mret bins
  else
    foldl (fun filtered_bins bin =>
             filtered_bins ← filtered_bins;
             b ← load bin;
             let bin_lower := Bin.priceLower b in
             let bin_upper := Bin.priceUpper b in
             if overlaps_price_range price_lower price_upper bin_lower bin_upper
             then mret (filtered_bins ++ [bin])
             else mret filtered_bins)
          (mret []) bins.

(** [len([b for b in bins if b['count_nfts'] > 0])]. *)
Definition count_bins_with_positions (bins : list loc) : M Z :=
  contents ← mapM load bins;
  mret (Z.of_nat (length (filter (fun b => (0 < Bin.count_nfts b)%Z) contents))).

(** The part of [get_recommendations_data] inside [try]. *)
Definition refresh (price_lower price_upper : option Q) : M ResultDict :=
  let has_price_filters :=
    bool_decide (is_Some price_lower) || bool_decide (is_Some price_upper) in
  end_date ← now;
  let start_date := end_date - 240 * 3600 in
  fetch_start ← now;
  '(response_data, status_code) ← fetch_mint_positions start_date end_date;
  _ ← now;
  if negb (status_code =? 200)%Z then
    let error_msg := "Error fetching mint positions: " +:+ pretty status_code in
    let error_msg :=
      if negb (bool_decide (is_Some response_data)) then "Failed to fetch mint positions"
      else error_msg in
    mret (ErrorDict error_msg)
  else
    parse_start ← now;
    mint_positions ← lift (match response_data with
                           | Some response_data => parser.parse_positions response_data
                           | None => Ok []
                           end);
    _ ← now;
    if bool_decide (mint_positions = []) then mret (ErrorDict "No mint positions found")
    else
      let nft_ids := map (fun pos => pretty (Mint.nft_id pos)) mint_positions in
      liquidity_start ← now;
      '(liquidity_data, liquidity_status_code) ←
        fetch_liquidity_events nft_ids start_date end_date;
      _ ← now;
      liquidity_event_counts ←
        (if (liquidity_status_code =? 200)%Z
         then lift (match liquidity_data with
                    | Some liquidity_data => parser.parse_liquidity_events liquidity_data
                    | None => Ok ∅
                    end)
         else mret ∅);
      summary_start ← now;
      final_summary ←
        lift (parser.create_final_summary mint_positions liquidity_event_counts);
      _ ← now;
      bin_start ← now;
      new_bins ← lift (bin_service.create_bins_from_data final_summary config.NUM_BINS None None);
      bins ← alloc_all new_bins;
      _ ← now;
      bins_with_positions ← count_bins_with_positions bins;
      _ ← update_cache (Cache.set_bins (Some bins));
      _ ← update_cache (Cache.set_total_positions (Some (Z.of_nat (length mint_positions))));
      filtered_bins ←
        (if has_price_filters then filter_bins_by_price_range bins price_lower price_upper
         else mret bins);
      let top_n := if has_price_filters then 3%Z else 5%Z in
      rec_start ← now;
      recommendations ← recommend_top_bands filtered_bins top_n (Some fetch_trading_volume);
      _ ← now;
      bins_with_positions ← count_bins_with_positions filtered_bins;
      analysis_date ← now;
      cache_timestamp ← now;
      let recommendations :=
        {| Recommendations.top_liquidity_bands :=
             Recommendations.top_liquidity_bands recommendations;
           Recommendations.metadata :=
             Some {| Metadata.total_positions := Z.of_nat (length mint_positions);
                     Metadata.total_bins := Z.of_nat (length filtered_bins);
                     Metadata.bins_with_positions := bins_with_positions;
                     Metadata.analysis_date := analysis_date;
                     Metadata.time_range_hours := 240;
                     Metadata.cache_timestamp := cache_timestamp;
                     Metadata.price_filter_lower := price_lower;
                     Metadata.price_filter_upper := price_upper |} |} in
      _ ← now;
      timestamp ← now;
      _ ← update_cache (Cache.set_timestamp (Some timestamp));
      _ ← (if negb has_price_filters
           then update_cache (Cache.set_data (Some recommendations))
           else mret tt);
      mret (Recommended recommendations).

(** Whether the cache, stamped at [timestamp], is younger than
    [CACHE_EXPIRATION_MINUTES] at the instant [current]. *)
Definition cache_is_fresh (current timestamp : Time) : bool :=
  let cache_age := (current - timestamp) / 60 in
  Qltb cache_age CACHE_EXPIRATION_MINUTES.

(** The answer made from the cached bins, filtered by the price range. *)
Definition recommend_from_cached_bins (cached_bins : list loc)
    (price_lower price_upper : option Q) : M ResultDict :=
  let bins := cached_bins in
  bins ← filter_bins_by_price_range bins price_lower price_upper;
  let top_n := 3%Z in
  recommendations ← recommend_top_bands bins top_n (Some fetch_trading_volume);
  cache ← get_cache;
  bins_with_positions ← count_bins_with_positions bins;
  analysis_date ← now;
  match Cache.timestamp cache with
  | Some cache_timestamp =>
      mret (Recommended
              {| Recommendations.top_liquidity_bands :=
                   Recommendations.top_liquidity_bands recommendations;
                 Recommendations.metadata :=
                   Some {| Metadata.total_positions :=
                             default 0%Z (Cache.total_positions cache);
                           Metadata.total_bins := Z.of_nat (length bins);
                           Metadata.bins_with_positions := bins_with_positions;
                           Metadata.analysis_date := analysis_date;
                           Metadata.time_range_hours := 240;
                           Metadata.cache_timestamp := cache_timestamp;
                           Metadata.price_filter_lower := price_lower;
                           Metadata.price_filter_upper := price_upper |} |})
  | None => raise (AttributeError "'NoneType' object has no attribute 'isoformat'")
  end.

(** The refresh, with its timer and its [except Exception] clause. *)
Definition fetch_new_data (price_lower price_upper : option Q) : M ResultDict :=
  start_time ← now;
  try_except (refresh price_lower price_upper)
             (fun e => _ ← now; mret (ErrorDict (py_str e))).

Definition get_recommendations_data (use_cache : bool) (price_lower price_upper : option Q)
    : M ResultDict :=
  let has_price_filters :=
    bool_decide (is_Some price_lower) || bool_decide (is_Some price_upper) in
  if has_price_filters then
    cache ← get_cache;
    match Cache.bins cache, Cache.timestamp cache with
    | Some cached_bins, Some timestamp =>
        current ← now;
        if cache_is_fresh current timestamp
        then recommend_from_cached_bins cached_bins price_lower price_upper
        else fetch_new_data price_lower price_upper
    | _, _ => fetch_new_data price_lower price_upper
    end
  else if use_cache then
    cache ← get_cache;
    match Cache.data cache, Cache.timestamp cache with
    | Some data, Some timestamp =>
        current ← now;
        if cache_is_fresh current timestamp then mret (Recommended data)
        else fetch_new_data price_lower price_upper
    | _, _ => fetch_new_data price_lower price_upper
    end
  else fetch_new_data price_lower price_upper.

(** [float(request.args.get(key))] under [try], for a key that is given. *)
Definition price_filter (text : option FloatText) : option Q :=
  match text with
  | Some text =>
      match py_float text with
      | Ok price => Some price
      | Raise _ => None
      end
  | None => None
  end.

Definition api_recommendations (args : Args.t) : M Reply.t :=
  start_time ← now;
  let price_lower := price_filter (Args.price_lower args) in
  let price_upper := price_filter (Args.price_upper args) in
  if match price_lower, price_upper with
     | Some lower, Some upper => Qltb upper lower
     | _, _ => false
     end
  then
    mret {| Reply.body :=
              ErrorDict "Invalid price range: lower price must be less than or equal to upper price";
            Reply.status := 400 |}
  else
    let use_cache := negb (bool_decide (Args.refresh args = Some "true")) in
    try_except
      (result ← get_recommendations_data use_cache price_lower price_upper;
       match result with
       | ErrorDict error =>
           let error_code := if contains "fetching" (py_lower error) then 500%Z else 404%Z in
           mret {| Reply.body := ErrorDict error; Reply.status := error_code |}
       | Recommended _ =>
           _ ← now;
           mret {| Reply.body := result; Reply.status := 200 |}
       end)
      (fun e =>
         _ ← now;
         mret {| Reply.body := ErrorDict (py_str e); Reply.status := 500 |}).

End app.


(* ===================================================================== *)
(** * Part II: the verification *)
(* ===================================================================== *)

(** ** Comparisons on floats *)

Lemma Qltb_lt (x y : Q) : Qltb x y = true <-> x < y.
Proof.
  unfold Qltb. rewrite negb_true_iff, <- not_true_iff_false, Qle_bool_iff.
  split; [apply Qnot_le_lt | apply Qlt_not_le].
Qed.

Lemma Qltb_ge (x y : Q) : Qltb x y = false <-> y <= x.
Proof.
  unfold Qltb. rewrite negb_false_iff. apply Qle_bool_iff.
Qed.

Lemma Qle_bool_gt (x y : Q) : Qle_bool x y = false <-> y < x.
Proof.
  rewrite <- not_true_iff_false, Qle_bool_iff.
  split; [apply Qnot_le_lt | apply Qlt_not_le].
Qed.

Lemma Qeq_bool_false_iff (x y : Q) : Qeq_bool x y = false <-> ~ x == y.
Proof. rewrite <- not_true_iff_false, Qeq_bool_iff. reflexivity. Qed.

(** Case analysis on every float comparison in sight, leaving the facts
    about the order in the context. *)
Ltac q_cases :=
  repeat match goal with
    | |- context [Qltb ?a ?b] =>
        let H := fresh "Hlt" in
        destruct (Qltb a b) eqn:H;
        [apply Qltb_lt in H | apply Qltb_ge in H]
    | |- context [Qle_bool ?a ?b] =>
        let H := fresh "Hle" in
        destruct (Qle_bool a b) eqn:H;
        [apply Qle_bool_iff in H | apply Qle_bool_gt in H]
    | |- context [Qeq_bool ?a ?b] =>
        let H := fresh "Heq" in
        destruct (Qeq_bool a b) eqn:H;
        [apply Qeq_bool_iff in H | apply Qeq_bool_false_iff in H]
    end; simpl.

Section outlier_filter.
Import outlier_service.

Definition out_of_guard_band (p : Q) : Prop :=
  p < MIN_PRICE_THRESHOLD \/ MAX_PRICE_THRESHOLD < p.

(** C4. [validate_position_prices] answers [False] exactly when a bound is
    missing, or [lower >= upper], or [lower < min_reasonable], or
    [upper > max_reasonable], or a bound lies outside the fixed guard-band
    [[1e-10, 1e10]], or the amounts fail [validate_amounts]; in every other
    case it answers [True]. *)
Theorem validate_position_prices_rejects_iff
    (position : Summary.t) (min_reasonable max_reasonable : Q) :
  let lower := Summary.price_lower_afterdecimals position in
  let upper := Summary.price_upper_afterdecimals position in
  validate_position_prices position min_reasonable max_reasonable = false <->
    lower = None \/ upper = None \/
    exists lo hi, lower = Some lo /\ upper = Some hi /\
      (hi <= lo \/ lo < min_reasonable \/ max_reasonable < hi \/
       out_of_guard_band lo \/ out_of_guard_band hi \/
       validate_amounts (Summary.amount_weth position)
                        (Summary.amount_usdt position) = false).
Proof.
  intros lower upper.
  unfold validate_position_prices. subst lower upper.
  destruct (Summary.price_lower_afterdecimals position) as [lo|];
    [| split; auto].
  destruct (Summary.price_upper_afterdecimals position) as [hi|];
    [| split; auto].
  unfold out_of_guard_band.
  split.
  - intros E. right; right. exists lo, hi.
    split; [reflexivity|]. split; [reflexivity|].
    revert E.
    destruct (validate_amounts _ _) eqn:Hamounts; q_cases; intros E;
      try discriminate E; lra || tauto.
  - intros [E|[E|(lo' & hi' & E1 & E2 & E)]]; try discriminate E.
    injection E1 as <-; injection E2 as <-.
    destruct (validate_amounts _ _) eqn:Hamounts; q_cases; try reflexivity;
      unfold MIN_PRICE_THRESHOLD, MAX_PRICE_THRESHOLD in *;
      exfalso; intuition (try discriminate; lra).
Qed.

End outlier_filter.

(** ** The stable sort *)

Section stable_sort.
Context {A : Type} (le : A -> A -> bool).

Lemma insert_sorted_perm (x : A) (l : list A) : Permutation (insert_sorted le x l) (x :: l).
Proof.
  induction l as [|y l IH]; simpl; [reflexivity|].
  destruct (le x y); [reflexivity|].
  rewrite IH. apply perm_swap.
Qed.

Lemma py_sorted_perm (l : list A) : Permutation (py_sorted le l) l.
Proof.
  induction l as [|x l IH]; simpl; [reflexivity|].
  rewrite insert_sorted_perm. constructor. exact IH.
Qed.

Lemma py_sorted_length (l : list A) : length (py_sorted le l) = length l.
Proof. apply Permutation_length, py_sorted_perm. Qed.

Lemma insert_sorted_fmap {B : Type} (g : B -> A) (x : B) (l : list B) :
  insert_sorted le (g x) (g <$> l)
  = g <$> insert_sorted (fun a b => le (g a) (g b)) x l.
Proof.
  induction l as [|y l IH]; [reflexivity|].
  rewrite fmap_cons. cbn [insert_sorted].
  destruct (le (g x) (g y)); [reflexivity|].
  rewrite IH, fmap_cons. reflexivity.
Qed.

(** Sorting by a key is sorting the keys. *)
Lemma py_sorted_fmap {B : Type} (g : B -> A) (l : list B) :
  py_sorted le (g <$> l) = g <$> py_sorted (fun a b => le (g a) (g b)) l.
Proof.
  induction l as [|x l IH]; [reflexivity|].
  rewrite fmap_cons. cbn [py_sorted].
  rewrite IH. apply insert_sorted_fmap.
Qed.

Hypothesis le_total : forall x y, le x y = true \/ le y x = true.
Hypothesis le_trans : forall x y z, le x y = true -> le y z = true -> le x z = true.

Lemma insert_sorted_sorted (x : A) (l : list A) :
  StronglySorted (fun a b => le a b = true) l ->
  StronglySorted (fun a b => le a b = true) (insert_sorted le x l).
Proof.
  induction 1 as [|y l Hsorted IH Hall]; simpl.
  - repeat constructor.
  - destruct (le x y) eqn:Hxy.
    + constructor; [constructor; assumption|].
      constructor; [exact Hxy|].
      eapply Forall_impl; [exact Hall|]. intros z Hz. eauto.
    + constructor; [exact IH|].
      rewrite insert_sorted_perm. constructor; [|exact Hall].
      destruct (le_total x y); congruence.
Qed.

Lemma py_sorted_sorted (l : list A) :
  StronglySorted (fun a b => le a b = true) (py_sorted le l).
Proof.
  induction l as [|x l IH]; simpl; [constructor|].
  apply insert_sorted_sorted, IH.
Qed.

(** Stability: the elements picked by [P], any two of which may stay in
    either order, come out in the order they went in. *)
Lemma insert_sorted_filter (P : A -> Prop) `{!forall a, Decision (P a)} (x : A) (l : list A) :
  (forall a b, P a -> P b -> le a b = true) ->
  filter P (insert_sorted le x l) = filter P (x :: l).
Proof.
  intros Hclass. induction l as [|y l IH]; simpl; [reflexivity|].
  destruct (le x y) eqn:Hxy; [reflexivity|].
  rewrite (filter_cons P y), IH, !(filter_cons P).
  destruct (decide (P y)) as [Hy|]; [|reflexivity].
  destruct (decide (P x)) as [Hx|]; [|reflexivity].
  rewrite Hclass in Hxy by assumption. discriminate.
Qed.

Lemma py_sorted_stable (P : A -> Prop) `{!forall a, Decision (P a)} (l : list A) :
  (forall a b, P a -> P b -> le a b = true) ->
  filter P (py_sorted le l) = filter P l.
Proof.
  intros Hclass. induction l as [|x l IH]; simpl; [reflexivity|].
  rewrite insert_sorted_filter by assumption.
  rewrite !(filter_cons P), IH. reflexivity.
Qed.

End stable_sort.

Lemma StronglySorted_weaken {A : Type} (R1 R2 : A -> A -> Prop) (l : list A) :
  (forall x y, R1 x y -> R2 x y) -> StronglySorted R1 l -> StronglySorted R2 l.
Proof.
  intros Himpl. induction 1 as [|x l _ IH Hall]; constructor; [exact IH|].
  eapply Forall_impl; [exact Hall|]. intros y. apply Himpl.
Qed.

Lemma py_sorted_Qle (l : list Q) : StronglySorted Qle (py_sorted Qle_bool l).
Proof.
  apply (StronglySorted_weaken (fun a b => Qle_bool a b = true)).
  - intros x y. apply Qle_bool_iff.
  - apply py_sorted_sorted.
    + intros x y. rewrite !Qle_bool_iff. destruct (Qlt_le_dec x y); [left; lra | right; lra].
    + intros x y z. rewrite !Qle_bool_iff. lra.
Qed.

Section binning.
Import bin_service.

(** Two intervals share a stretch of positive length. *)
Definition positive_overlap (a_lower a_upper b_lower b_upper : Q) : Prop :=
  a_lower < a_upper /\ b_lower < b_upper /\ a_lower < b_upper /\ b_lower < a_upper.



Lemma calculate_overlap_degenerate (pl pu bl bu : Q) :
  pu == pl -> calculate_overlap pl pu bl bu = 0.
Proof.
  intros E. unfold calculate_overlap, py_max, py_min. q_cases; try reflexivity; lra.
Qed.

(** Intervals that only touch do not overlap. *)
Example calculate_overlap_touching : calculate_overlap 1 2 2 3 = 0.
Proof. reflexivity. Qed.

Example calculate_overlap_inside : calculate_overlap 1500 2500 1000 2000 = 2000 - 1500.
Proof. reflexivity. Qed.

(** What one position does to one bin. *)
Definition distribute_to_bin (amount_weth amount_usdt position_lower position_upper : Q)
    (bin : Bin.t) : Bin.t :=
  let overlap :=
    calculate_overlap position_lower position_upper
                      (Bin.priceLower bin) (Bin.priceUpper bin) in
  if Qltb 0 overlap
  then add_to_bin amount_weth amount_usdt (position_upper - position_lower) overlap bin
  else bin.

Lemma find_overlapping_snoc (pl pu : Q) (bins : list Bin.t) (bin : Bin.t) :
  find_overlapping pl pu (bins ++ [bin]) =
    let '(overlapping_bins, total_overlap) := find_overlapping pl pu bins in
    let overlap := calculate_overlap pl pu (Bin.priceLower bin) (Bin.priceUpper bin) in
    if Qltb 0 overlap
    then (overlapping_bins ++ [(length bins, overlap)], total_overlap + overlap)
    else (overlapping_bins, total_overlap).
Proof.
  unfold find_overlapping. rewrite imap_app, foldl_app. simpl.
  rewrite Nat.add_0_r.
  destruct (foldl _ _ _) as [acc total]. reflexivity.
Qed.

(** The sum of the overlaps is positive as soon as one bin was kept. *)
Lemma find_overlapping_total (pl pu : Q) (bins : list Bin.t) :
  let '(overlapping_bins, total_overlap) := find_overlapping pl pu bins in
  0 <= total_overlap /\ (overlapping_bins <> [] -> 0 < total_overlap).
Proof.
  induction bins as [|bin bins IH] using rev_ind.
  - simpl. split; [lra | congruence].
  - rewrite find_overlapping_snoc.
    destruct (find_overlapping pl pu bins) as [acc total]. simpl.
    destruct IH as [IH1 IH2].
    destruct (Qltb 0 _) eqn:Hpos; [apply Qltb_lt in Hpos | auto].
    split; [lra | intros _; lra].
Qed.

(** The second loop, run on the bins kept by the first, updates each bin on
    its own. *)
Lemma distribute_loops (aw au pl pu : Q) (bins rest : list Bin.t) :
  foldl (fun bins '(i, overlap) => alter (add_to_bin aw au (pu - pl) overlap) i bins)
        (bins ++ rest) (find_overlapping pl pu bins).1
  = map (distribute_to_bin aw au pl pu) bins ++ rest.
Proof.
  revert rest. induction bins as [|bin bins IH] using rev_ind; intros rest.
  - reflexivity.
  - rewrite find_overlapping_snoc.
    destruct (find_overlapping pl pu bins) as [acc total] eqn:Hfind. simpl in IH |- *.
    rewrite map_app, <- !app_assoc. simpl.
    unfold distribute_to_bin at 2.
    destruct (Qltb 0 _) eqn:Hpos; simpl.
    + rewrite foldl_app. simpl. rewrite IH.
      rewrite <- (length_map (distribute_to_bin aw au pl pu) bins) at 1.
      rewrite alter_app_r_alt by lia.
      rewrite Nat.sub_diag. reflexivity.
    + apply IH.
Qed.

Lemma distribute_position_to_bins_map (position : Summary.t) (bins : list Bin.t)
    (pl pu : Q) :
  Summary.price_lower_afterdecimals position = Some pl ->
  Summary.price_upper_afterdecimals position = Some pu ->
  ~ pu - pl == 0 ->
  distribute_position_to_bins position bins =
    map (distribute_to_bin (get_or_zero (Summary.amount_weth position))
                           (get_or_zero (Summary.amount_usdt position)) pl pu) bins.
Proof.
  intros Hl Hu Hrange. unfold distribute_position_to_bins. rewrite Hl, Hu.
  pose proof (distribute_loops (get_or_zero (Summary.amount_weth position))
                (get_or_zero (Summary.amount_usdt position)) pl pu bins []) as Hloops.
  pose proof (find_overlapping_total pl pu bins) as Htotal.
  destruct (find_overlapping pl pu bins) as [acc total]. simpl in Hloops.
  rewrite !app_nil_r in Hloops. destruct Htotal as [_ Htotal].
  destruct acc as [|x acc].
  - simpl in Hloops. rewrite orb_true_r. exact Hloops.
  - assert (0 < total) as Hpos by (apply Htotal; discriminate).
    replace (Qeq_bool total 0) with false
      by (symmetry; apply Qeq_bool_false_iff; lra).
    simpl. replace (Qeq_bool (pu - pl) 0) with false
      by (symmetry; apply Qeq_bool_false_iff; exact Hrange).
    exact Hloops.
Qed.






End binning.

Section price_range.
Import outlier_service.

(** A bound that is present and positive. *)
Definition positive_bound (bound : option Q) : option Q :=
  match bound with
  | Some p => if Qltb 0 p then Some p else None
  | None => None
  end.

Definition positive_lowers (positions : list Summary.t) : list Q :=
  omap (fun position => positive_bound (Summary.price_lower_afterdecimals position)) positions.

Definition positive_uppers (positions : list Summary.t) : list Q :=
  omap (fun position => positive_bound (Summary.price_upper_afterdecimals position)) positions.

Lemma collect_bounds_spec (positions : list Summary.t) :
  collect_bounds positions = (positive_lowers positions, positive_uppers positions).
Proof.
  unfold collect_bounds, positive_lowers, positive_uppers.
  induction positions as [|position positions IH] using rev_ind; [reflexivity|].
  rewrite foldl_app, IH, !omap_app. simpl. unfold positive_bound.
  destruct (Summary.price_lower_afterdecimals position) as [lo|],
           (Summary.price_upper_afterdecimals position) as [hi|]; simpl;
    repeat match goal with |- context [Qltb 0 ?p] => destruct (Qltb 0 p) end;
    simpl; rewrite ?app_nil_r; reflexivity.
Qed.

Lemma foldl_py_min (x : Q) (l : list Q) :
  foldl py_min x l ∈ x :: l /\ forall y, y ∈ x :: l -> foldl py_min x l <= y.
Proof.
  revert x. induction l as [|z l IH]; intros x; simpl.
  - split; [left|]. intros y Hy. apply list_elem_of_singleton in Hy as ->. lra.
  - destruct (IH (py_min x z)) as [Hin Hle]. split.
    + apply elem_of_cons in Hin as [->|Hin].
      * unfold py_min. destruct (Qltb z x); [right; left | left].
      * right; right; exact Hin.
    + intros y Hy.
      assert (foldl py_min (py_min x z) l <= py_min x z) as Hm by (apply Hle; left).
      apply elem_of_cons in Hy as [->|Hy]; [|apply elem_of_cons in Hy as [->|Hy]].
      * revert Hm. unfold py_min. q_cases; lra.
      * revert Hm. unfold py_min. q_cases; lra.
      * apply Hle. right. exact Hy.
Qed.

Lemma foldl_py_max (x : Q) (l : list Q) :
  foldl py_max x l ∈ x :: l /\ forall y, y ∈ x :: l -> y <= foldl py_max x l.
Proof.
  revert x. induction l as [|z l IH]; intros x; simpl.
  - split; [left|]. intros y Hy. apply list_elem_of_singleton in Hy as ->. lra.
  - destruct (IH (py_max x z)) as [Hin Hle]. split.
    + apply elem_of_cons in Hin as [->|Hin].
      * unfold py_max. destruct (Qltb x z); [right; left | left].
      * right; right; exact Hin.
    + intros y Hy.
      assert (py_max x z <= foldl py_max (py_max x z) l) as Hm by (apply Hle; left).
      apply elem_of_cons in Hy as [->|Hy]; [|apply elem_of_cons in Hy as [->|Hy]].
      * revert Hm. unfold py_max. q_cases; lra.
      * revert Hm. unfold py_max. q_cases; lra.
      * apply Hle. right. exact Hy.
Qed.

Lemma py_min_list_spec (l : list Q) :
  l <> [] -> exists a, py_min_list l = Some a /\ a ∈ l /\ forall y, y ∈ l -> a <= y.
Proof.
  destruct l as [|x l]; [congruence|]. intros _.
  exists (foldl py_min x l). split; [reflexivity|]. apply foldl_py_min.
Qed.

Lemma py_max_list_spec (l : list Q) :
  l <> [] -> exists b, py_max_list l = Some b /\ b ∈ l /\ forall y, y ∈ l -> y <= b.
Proof.
  destruct l as [|x l]; [congruence|]. intros _.
  exists (foldl py_max x l). split; [reflexivity|]. apply foldl_py_max.
Qed.

Lemma py_index_lt {A : Type} (l : list A) (i : nat) :
  (i < length l)%nat -> exists x, l !! i = Some x /\ py_index l i = Ok x.
Proof.
  intros Hi. destruct (lookup_lt_is_Some_2 l i Hi) as [x Hx].
  exists x. unfold py_index. rewrite Hx. auto.
Qed.

(** The integer part of [0.05 * n] and of [0.95 * n]. *)
Lemma int_5_percent_floor (n : nat) :
  (100 * int_5_percent n <= 5 * n < 100 * (int_5_percent n + 1))%nat.
Proof.
  unfold int_5_percent.
  pose proof (Nat.div_mod_eq (n * 5) 100).
  pose proof (Nat.mod_upper_bound (n * 5) 100). lia.
Qed.

Lemma int_95_percent_floor (n : nat) :
  (100 * int_95_percent n <= 95 * n < 100 * (int_95_percent n + 1))%nat.
Proof.
  unfold int_95_percent.
  pose proof (Nat.div_mod_eq (n * 95) 100).
  pose proof (Nat.mod_upper_bound (n * 95) 100). lia.
Qed.

(** C2, as the code has it.  When a positive lower bound and a positive
    upper bound are present, [find_price_range] sorts the two collections
    independently and picks the lower value at index [floor(0.05 n)] and the
    upper value at index [min(n - 1, floor(0.95 n))].  The picks are
    returned unless the lower pick is below [1e-10] or the upper pick is
    above [1e10]; in that case the two medians are returned when the lower
    median is at least [1e-10] and the upper median at most [1e10];
    otherwise the least lower bound and the greatest upper bound inside
    [[1e-10, 1e10]] are returned, and the call raises when one of the two
    collections has no value inside it.  Nothing else makes it raise. *)
Theorem find_price_range_spec (positions : list Summary.t) :
  positive_lowers positions <> [] ->
  positive_uppers positions <> [] ->
  let lowers := py_sorted Qle_bool (positive_lowers positions) in
  let uppers := py_sorted Qle_bool (positive_uppers positions) in
  Permutation lowers (positive_lowers positions) /\ StronglySorted Qle lowers /\
  Permutation uppers (positive_uppers positions) /\ StronglySorted Qle uppers /\
  exists pick_lower pick_upper median_lower median_upper,
    lowers !! int_5_percent (length lowers) = Some pick_lower /\
    uppers !! Nat.min (length uppers - 1) (int_95_percent (length uppers))
      = Some pick_upper /\
    lowers !! (length lowers / 2)%nat = Some median_lower /\
    uppers !! (length uppers / 2)%nat = Some median_upper /\
    (MIN_PRICE_THRESHOLD <= pick_lower /\ pick_upper <= MAX_PRICE_THRESHOLD ->
       find_price_range positions = Ok (pick_lower, pick_upper)) /\
    (pick_lower < MIN_PRICE_THRESHOLD \/ MAX_PRICE_THRESHOLD < pick_upper ->
       (MIN_PRICE_THRESHOLD <= median_lower /\ median_upper <= MAX_PRICE_THRESHOLD ->
          find_price_range positions = Ok (median_lower, median_upper)) /\
       (median_lower < MIN_PRICE_THRESHOLD \/ MAX_PRICE_THRESHOLD < median_upper ->
          let reasonable_lowers := filter (fun p => reasonable p = true) lowers in
          let reasonable_uppers := filter (fun p => reasonable p = true) uppers in
          (reasonable_lowers <> [] /\ reasonable_uppers <> [] ->
             exists min_price max_price,
               find_price_range positions = Ok (min_price, max_price) /\
               min_price ∈ reasonable_lowers /\
               (forall p, p ∈ reasonable_lowers -> min_price <= p) /\
               max_price ∈ reasonable_uppers /\
               (forall p, p ∈ reasonable_uppers -> p <= max_price)) /\
          (reasonable_lowers = [] \/ reasonable_uppers = [] ->
             find_price_range positions =
               Raise (ValueError "No reasonable price range found in positions")))).
Proof.
  intros Hlowers Huppers lowers uppers.
  split; [apply py_sorted_perm|]. split; [apply py_sorted_Qle|].
  split; [apply py_sorted_perm|]. split; [apply py_sorted_Qle|].
  assert (0 < length lowers)%nat as Hnl.
  { subst lowers. rewrite py_sorted_length.
    destruct (positive_lowers positions); [congruence | simpl; lia]. }
  assert (0 < length uppers)%nat as Hnu.
  { subst uppers. rewrite py_sorted_length.
    destruct (positive_uppers positions); [congruence | simpl; lia]. }
  destruct (py_index_lt lowers (int_5_percent (length lowers)))
    as (pick_lower & Hpl & Hpl');
    [pose proof (int_5_percent_floor (length lowers)); lia|].
  destruct (py_index_lt uppers (Nat.min (length uppers - 1) (int_95_percent (length uppers))))
    as (pick_upper & Hpu & Hpu'); [lia|].
  destruct (py_index_lt lowers (length lowers / 2))
    as (median_lower & Hml & Hml'); [apply Nat.div_lt; lia|].
  destruct (py_index_lt uppers (length uppers / 2))
    as (median_upper & Hmu & Hmu'); [apply Nat.div_lt; lia|].
  exists pick_lower, pick_upper, median_lower, median_upper.
  do 4 (split; [assumption|]).
  assert (forall r,
    (if Qltb pick_lower MIN_PRICE_THRESHOLD || Qltb MAX_PRICE_THRESHOLD pick_upper
     then
       if Qle_bool MIN_PRICE_THRESHOLD median_lower
          && Qle_bool median_upper MAX_PRICE_THRESHOLD
       then Ok (median_lower, median_upper)
       else
         match py_min_list (filter (fun p => reasonable p = true) lowers),
               py_max_list (filter (fun p => reasonable p = true) uppers) with
         | Some min_price, Some max_price => Ok (min_price, max_price)
         | _, _ => Raise (ValueError "No reasonable price range found in positions")
         end
     else Ok (pick_lower, pick_upper)) = r ->
    find_price_range positions = r) as Hrun.
  { intros r <-. unfold find_price_range. rewrite collect_bounds_spec.
    rewrite !bool_decide_eq_false_2 by assumption. cbv zeta. cbn [orb].
    fold lowers uppers. rewrite Nat.max_0_l.
    rewrite Hpl'. cbn [mbind result_bind]. rewrite Hpu'. cbn [mbind result_bind].
    destruct (Qltb pick_lower _ || Qltb _ pick_upper); [|reflexivity].
    rewrite Hml'. cbn [mbind result_bind]. rewrite Hmu'. reflexivity. }
  split.
  - intros [H1 H2]. apply Hrun.
    apply Qltb_ge in H1, H2. rewrite H1, H2. reflexivity.
  - intros Hpick.
    assert (Qltb pick_lower MIN_PRICE_THRESHOLD || Qltb MAX_PRICE_THRESHOLD pick_upper = true)
      as Hguard.
    { apply orb_true_iff. rewrite !Qltb_lt. exact Hpick. }
    split.
    + intros [H1 H2]. apply Hrun. rewrite Hguard.
      apply Qle_bool_iff in H1, H2. rewrite H1, H2. reflexivity.
    + intros Hmedian reasonable_lowers reasonable_uppers.
      assert (Qle_bool MIN_PRICE_THRESHOLD median_lower
              && Qle_bool median_upper MAX_PRICE_THRESHOLD = false) as Hmed.
      { apply andb_false_iff. rewrite !Qle_bool_gt. exact Hmedian. }
      split.
      * intros [Hrl Hru].
        destruct (py_min_list_spec _ Hrl) as (a & Ha & Hain & Hamin).
        destruct (py_max_list_spec _ Hru) as (b & Hb & Hbin & Hbmax).
        exists a, b. split; [|auto].
        apply Hrun. rewrite Hguard, Hmed.
        fold reasonable_lowers reasonable_uppers. rewrite Ha, Hb. reflexivity.
      * intros Hnone. apply Hrun. rewrite Hguard, Hmed.
        fold reasonable_lowers reasonable_uppers.
        destruct Hnone as [-> | ->]; simpl; [reflexivity|].
        destruct (py_min_list reasonable_lowers); reflexivity.
Qed.

Definition priced (lower upper : Q) : Summary.t :=
  {| Summary.nft_id := None;
     Summary.create_time := "";
     Summary.number_of_positions := 1;
     Summary.price_lower_afterdecimals := Some lower;
     Summary.price_upper_afterdecimals := Some upper;
     Summary.amount_weth := None;
     Summary.amount_usdt := None |}.

Example validate_position_prices_accepts :
  validate_position_prices (priced 1000 1100) MIN_REASONABLE_PRICE MAX_REASONABLE_PRICE = true.
Proof. reflexivity. Qed.

Example validate_position_prices_inverted :
  validate_position_prices (priced 1100 1000) MIN_REASONABLE_PRICE MAX_REASONABLE_PRICE = false.
Proof. reflexivity. Qed.

Lemma find_price_range_spec_witness :
  find_price_range [priced 1000 1100; priced 1050 1150; priced 2000 2100]
    = Ok (1000, 2100).
Proof.
  destruct (find_price_range_spec [priced 1000 1100; priced 1050 1150; priced 2000 2100])
    as (_ & _ & _ & _ & pl & pu & ml & mu & Hpl & Hpu & _ & _ & Hpick & _);
    [discriminate | discriminate |].
  injection Hpl as <-. injection Hpu as <-.
  apply Hpick. split; discriminate.
Defined.

(** C2, as it was stated, fails: a lower pick above [1e10] is outside the
    guard-band, both lower bounds are outside it, so that neither the median
    nor the last resort has a lower bound to offer, and still the picks are
    returned. *)
Lemma find_price_range_high_lower_counterexample :
  let positions := [priced 20000000000 5; priced 30000000000 6] in
  let lowers := py_sorted Qle_bool (positive_lowers positions) in
  lowers !! int_5_percent (length lowers) = Some 20000000000 /\
  lowers !! (length lowers / 2)%nat = Some 30000000000 /\
  MAX_PRICE_THRESHOLD < 20000000000 /\
  MAX_PRICE_THRESHOLD < 30000000000 /\
  filter (fun p => reasonable p = true) lowers = [] /\
  find_price_range positions = Ok (20000000000, 6).
Proof.
  repeat split; reflexivity.
Qed.

End price_range.

(** ** Loops that may raise *)

Lemma foldl_result_app {A B : Type} (f : A -> B -> result A) (a : A) (l1 l2 : list B) :
  foldl_result f a (l1 ++ l2) = foldl_result f a l1 ≫= fun a' => foldl_result f a' l2.
Proof.
  revert a. induction l1 as [|x l1 IH]; intros a; simpl; [reflexivity|].
  destruct (f a x) as [a'|e]; simpl; [apply IH | reflexivity].
Qed.


(** Names the values bound in the run [H] of the float operations of
    [extract_position_data], when that run returned. *)
Ltac float_values H :=
  repeat match type of H with
         | context [parser.calculate_price_from_tick ?tick] =>
             let Hp := fresh "Hprice" in
             destruct (parser.calculate_price_from_tick tick) eqn:Hp;
             cbn [mbind result_bind] in H; [|discriminate H]
         | context [parser.calculate_price_with_decimals ?tick ?d0 ?d1] =>
             let Hp := fresh "Hprice" in
             destruct (parser.calculate_price_with_decimals tick d0 d1) eqn:Hp;
             cbn [mbind result_bind] in H; [|discriminate H]
         | context [parser.after_decimals ?amount ?d] =>
             let Ha := fresh "Hamount" in
             destruct (parser.after_decimals amount d) eqn:Ha;
             cbn [mbind result_bind] in H; [|discriminate H]
         end.

Section mint_records.
Import parser.






(** Which exceptions a loop may raise. *)
Lemma foldl_result_raise {A B : Type} (f : A -> B -> result A) (Q : Exn -> Prop)
    (a0 : A) (l : list B) (e : Exn) :
  (forall a x e, f a x = Raise e -> Q e) ->
  foldl_result f a0 l = Raise e -> Q e.
Proof.
  intros Hstep. revert a0. induction l as [|x l IH]; intros a0 Hrun; simpl in Hrun.
  - discriminate.
  - destruct (f a0 x) as [a'|e'] eqn:Hf; simpl in Hrun.
    + eapply IH; eassumption.
    + injection Hrun as <-. eapply Hstep; eassumption.
Qed.

Definition is_ValueError (e : Exn) : Prop := exists msg, e = ValueError msg.

Lemma py_int_raise (text : IntText) (e : Exn) : py_int text = Raise e -> is_ValueError e.
Proof. destruct text; simpl; intros H; [discriminate|]. injection H as <-. eexists; reflexivity. Qed.

(** Closes a goal on what a loop body raises: only [int()] raises. *)
Ltac only_int_raises H :=
  cbv zeta in H;
  repeat first
    [ discriminate H
    | match type of H with
      | context [py_int ?text] =>
          let Hint := fresh "Hint" in
          destruct (py_int text) eqn:Hint; simpl in H;
          [ try discriminate H
          | injection H as <-; eapply py_int_raise; eassumption ]
      | context [bool_decide ?P] => destruct (bool_decide P)
      | context [AbiValue.bigInteger ?v] => destruct (AbiValue.bigInteger v)
      | context [(?i =? ?j)%nat] => destruct (i =? j)%nat
      end ].

Lemma scan_ticks_raise (arguments : list Arg.t) (e : Exn) :
  scan_ticks arguments = Raise e -> is_ValueError e.
Proof.
  apply foldl_result_raise. intros [tick_lower tick_upper] arg e' H.
  only_int_raises H.
Qed.

Lemma scan_returns_by_name_raise (returns : list Ret.t) (e : Exn) :
  scan_returns_by_name returns = Raise e -> is_ValueError e.
Proof.
  apply foldl_result_raise. intros [[nft_id amount0] amount1] ret e' H.
  only_int_raises H.
Qed.

Lemma scan_returns_by_index_raise (i0 i1 : nat) (a0 a1 : option Z) (returns : list Ret.t)
    (e : Exn) :
  scan_returns_by_index i0 i1 a0 a1 returns = Raise e -> is_ValueError e.
Proof.
  apply foldl_result_raise. intros [amount0 amount1] [i ret] e' H.
  only_int_raises H.
Qed.

Definition is_OverflowError (e : Exn) : Prop := exists msg, e = OverflowError msg.

Lemma tick_power_raise (tick : Z) (e : Exn) :
  tick_power tick = Raise e -> is_OverflowError e.
Proof.
  unfold tick_power.
  repeat match goal with
         | |- context [(?a <=? ?b)%Z] => destruct (a <=? b)%Z
         end;
    try discriminate; intros H; injection H as <-; eexists; reflexivity.
Qed.

Lemma FLOAT_INT_LIMIT_large : (7451705 < FLOAT_INT_LIMIT)%Z.
Proof. reflexivity. Qed.

Lemma py_truediv_raise (a b : Z) (e : Exn) :
  b <> 0%Z -> py_truediv a b = Raise e -> is_OverflowError e.
Proof.
  intros Hb. unfold py_truediv. apply Z.eqb_neq in Hb. rewrite Hb.
  cbv zeta. destruct (Qltb _ _); [|discriminate].
  intros H. injection H as <-. eexists. reflexivity.
Qed.

Lemma after_decimals_raise (amount : option Z) (decimals : Z) (e : Exn) :
  (0 <= decimals)%Z -> after_decimals amount decimals = Raise e -> is_OverflowError e.
Proof.
  intros Hd. unfold after_decimals. destruct amount as [amount|]; [|discriminate].
  destruct (py_truediv amount (10 ^ decimals)) as [q|e'] eqn:Hdiv; [discriminate|].
  cbn [mbind result_bind]. intros H. injection H as <-.
  apply (py_truediv_raise amount (10 ^ decimals)); [|exact Hdiv].
  apply Z.pow_nonzero; [discriminate | exact Hd].
Qed.

(** With the decimals of the tracked pair only [**] raises. *)
Lemma calculate_price_with_decimals_raise (tick decimal0 decimal1 : Z) (e : Exn) :
  (-324 < decimal1 - decimal0 < 309)%Z ->
  calculate_price_with_decimals tick decimal0 decimal1 = Raise e -> is_OverflowError e.
Proof.
  intros Hd. unfold calculate_price_with_decimals.
  destruct (tick_power tick) as [price_base|e'] eqn:Hpower; cbn [mbind result_bind].
  - unfold div_pow10.
    destruct (0 <=? _)%Z.
    + replace (309 <=? decimal1 - decimal0)%Z with false by (symmetry; apply Z.leb_gt; lia).
      discriminate.
    + pose proof FLOAT_INT_LIMIT_large as Hlimit.
      replace (decimal1 - decimal0 <=? - FLOAT_INT_LIMIT)%Z with false
        by (symmetry; apply Z.leb_gt; lia).
      replace (decimal1 - decimal0 <=? -324)%Z with false by (symmetry; apply Z.leb_gt; lia).
      discriminate.
  - intros H. injection H as <-. eapply tick_power_raise. exact Hpower.
Qed.

(** Names the values bound in the run [H] of the float operations of
    [extract_position_data], or closes the goal when one of them raises. *)
Ltac float_steps H :=
  repeat match type of H with
         | context [calculate_price_from_tick ?tick] =>
             let Hp := fresh "Hprice" in
             destruct (calculate_price_from_tick tick) eqn:Hp;
             cbn [mbind result_bind] in H;
             [|try discriminate H; injection H as <-; right;
               eapply tick_power_raise; exact Hp]
         | context [calculate_price_with_decimals ?tick ?d0 ?d1] =>
             let Hp := fresh "Hprice" in
             destruct (calculate_price_with_decimals tick d0 d1) eqn:Hp;
             cbn [mbind result_bind] in H;
             [|try discriminate H; injection H as <-; right;
               eapply (calculate_price_with_decimals_raise tick d0 d1); [|exact Hp];
               vm_compute; split; reflexivity]
         | context [after_decimals ?amount ?d] =>
             let Ha := fresh "Hamount" in
             destruct (after_decimals amount d) eqn:Ha;
             cbn [mbind result_bind] in H;
             [|try discriminate H; injection H as <-; right;
               eapply (after_decimals_raise amount d); [|exact Ha];
               vm_compute; discriminate]
         end.

Lemma extract_position_data_body_raise (position : Call.t) (e : Exn) :
  extract_position_data_body position = Raise e -> is_ValueError e \/ is_OverflowError e.
Proof.
  unfold extract_position_data_body. cbv zeta.
  destruct (_ <? 2)%nat; [discriminate|].
  destruct (scan_tokens _) as [token0_address token1_address].
  destruct (negb _); [discriminate|].
  destruct (scan_ticks _) as [[tick_lower tick_upper]|e1] eqn:Hticks; simpl;
    [|intros H; injection H as <-; left; eapply scan_ticks_raise; eassumption].
  destruct (scan_returns_by_name _) as [[[nft_id amount0] amount1]|e1] eqn:Hname; simpl;
    [|intros H; injection H as <-; left; eapply scan_returns_by_name_raise; eassumption].
  match goal with
  | |- context [if ?c then scan_returns_by_index 2 3 amount0 amount1 ?r else ?o] =>
      destruct (if c then scan_returns_by_index 2 3 amount0 amount1 r else o)
        as [[amount0' amount1']|e1] eqn:Hindex
  end; simpl.
  - destruct tick_lower, tick_upper, nft_id,
      (match Call.Block_Time position with
       | Some time => Some time
       | None => Call.Transaction_Time position
       end); try discriminate.
    unfold WETH_DECIMALS, USDT_DECIMALS.
    repeat match goal with
           | |- context [bool_decide ?P] => destruct (bool_decide P)
           end;
      cbv beta iota; intros H; float_steps H; discriminate H.
  - intros H; injection H as <-.
    destruct (_ || _); [|discriminate].
    left. eapply scan_returns_by_index_raise; eassumption.
Qed.



Lemma extract_position_data_body_Some (position : Call.t) (parsed : Mint.t) :
  extract_position_data position = Ok (Some parsed) ->
  extract_position_data_body position = Ok (Some parsed).
Proof.
  unfold extract_position_data.
  destruct (extract_position_data_body position) as [r|[]]; congruence.
Qed.


Definition address_arg (i : Z) (a : string) : Arg.t :=
  {| Arg.Index := Some i;
     Arg.Value := {| AbiValue.address := Some a; AbiValue.bigInteger := None |} |}.

Definition integer_arg (i n : Z) : Arg.t :=
  {| Arg.Index := Some i;
     Arg.Value := {| AbiValue.address := None; AbiValue.bigInteger := Some (IntLit n) |} |}.

Definition integer_return (name : string) (n : Z) : Ret.t :=
  {| Ret.Name := name;
     Ret.Value := {| AbiValue.address := None; AbiValue.bigInteger := Some (IntLit n) |} |}.

(** A mint call of the tracked pair whose return values hold the position
    identifier and nothing else. *)
Definition mint_without_amounts : Call.t :=
  {| Call.Arguments :=
       [address_arg 0 "0xC02aaA39b223FE8D0A0e5C4F27eAD9083C756Cc2";
        address_arg 1 "0xdAC17F958D2ee523a2206206994597C13D831ec7";
        integer_arg 2 3000; integer_arg 3 0; integer_arg 4 1];
     Call.Returns := [integer_return "tokenId" 42];
     Call.Signature_Name := "mint";
     Call.Block_Time := Some "2024-01-01T00:00:00Z";
     Call.Transaction_Time := None;
     Call.Log := false |}.


End mint_records.

Section liquidity_events.
Import parser.

(** What a function gave back, if it gave back anything. *)
Definition returned {A : Type} (r : result A) : option A :=
  match r with
  | Ok a => Some a
  | Raise _ => None
  end.

(** One more event for [nft_id], moving its totals by [d0] and [d1]. *)
Definition add_delta (nft_id d0 d1 : Z) (nft_data : gmap Z Delta.t) : gmap Z Delta.t :=
  let d := delta_of nft_data nft_id in
  <[nft_id := {| Delta.count := Delta.count d + 1;
                 Delta.total_amount0 := Delta.total_amount0 d + d0;
                 Delta.total_amount1 := Delta.total_amount1 d + d1 |}]> nft_data.

Lemma add_delta_comm (i a0 a1 j b0 b1 : Z) (nft_data : gmap Z Delta.t) :
  add_delta i a0 a1 (add_delta j b0 b1 nft_data)
  = add_delta j b0 b1 (add_delta i a0 a1 nft_data).
Proof.
  unfold add_delta, delta_of.
  destruct (decide (i = j)) as [->|Hij].
  - rewrite !lookup_insert_eq, !insert_insert_eq. simpl.
    f_equal. f_equal; lia.
  - rewrite !lookup_insert_ne by congruence.
    apply insert_insert_ne. congruence.
Qed.

(** What a call contributes, whatever was gathered before it: nothing, or a
    move of the totals of one identifier. *)
Definition contribution (call : Call.t) : result (option (Z * Z * Z)) :=
  let signature_name := Call.Signature_Name call in
  if negb (bool_decide (signature_name = "increaseLiquidity")
           || bool_decide (signature_name = "decreaseLiquidity"))
  then Ok None
  else
    match List.find (fun arg => bool_decide (Arg.Index arg = Some 0%Z)
                                && bool_decide (is_Some (AbiValue.bigInteger (Arg.Value arg))))
                    (Call.Arguments call) with
    | None => Ok None
    | Some arg =>
        match AbiValue.bigInteger (Arg.Value arg) with
        | None => Ok None
        | Some text =>
            nft_id ← py_int text;
            '(amount0, amount1) ← scan_amounts_by_name (Call.Returns call);
            '(amount0, amount1) ←
              (if bool_decide (amount0 = None) || bool_decide (amount1 = None)
               then scan_returns_by_index 1 2 amount0 amount1 (Call.Returns call)
               else Ok (amount0, amount1));
            if bool_decide (signature_name = "decreaseLiquidity")
            then Ok (Some (nft_id, - default 0 amount0, - default 0 amount1)%Z)
            else Ok (Some (nft_id, default 0%Z amount0, default 0%Z amount1))
        end
    end.

Definition contribute (c : option (Z * Z * Z)) (nft_data : gmap Z Delta.t)
    : gmap Z Delta.t :=
  match c with
  | Some (nft_id, d0, d1) => add_delta nft_id d0 d1 nft_data
  | None => nft_data
  end.

Lemma process_call_contribution (nft_data : gmap Z Delta.t) (call : Call.t) :
  process_call nft_data call = c ← contribution call; Ok (contribute c nft_data).
Proof.
  unfold process_call, contribution. cbv zeta.
  destruct (negb _); [reflexivity|].
  destruct (List.find _ _) as [arg|]; [|reflexivity].
  destruct (AbiValue.bigInteger (Arg.Value arg)) as [text|]; [|reflexivity].
  destruct (py_int text) as [nft_id|e]; simpl; [|reflexivity].
  destruct (scan_amounts_by_name _) as [[amount0 amount1]|e]; simpl; [|reflexivity].
  match goal with
  | |- context [if ?c then scan_returns_by_index 1 2 amount0 amount1 ?r else ?o] =>
      destruct (if c then scan_returns_by_index 1 2 amount0 amount1 r else o)
        as [[amount0' amount1']|e]
  end; simpl; [|reflexivity].
  destruct (bool_decide (_ = "decreaseLiquidity")); simpl; unfold add_delta;
    repeat f_equal; lia.
Qed.

Lemma contribute_comm (c1 c2 : option (Z * Z * Z)) (nft_data : gmap Z Delta.t) :
  contribute c1 (contribute c2 nft_data) = contribute c2 (contribute c1 nft_data).
Proof.
  destruct c1 as [[[i a0] a1]|], c2 as [[[j b0] b1]|]; simpl; try reflexivity.
  apply add_delta_comm.
Qed.

(** The loop over the calls gives the same mapping in whatever order it
    goes through them, and raises in one order when it raises in another. *)
Lemma process_calls_permutation (calls calls' : list Call.t) :
  Permutation calls calls' ->
  forall nft_data,
    returned (foldl_result process_call nft_data calls)
    = returned (foldl_result process_call nft_data calls').
Proof.
  induction 1 as [|call calls calls' Hperm IH|call1 call2 calls|calls1 calls2 calls3 _ IH1 _ IH2];
    intros nft_data; simpl.
  - reflexivity.
  - rewrite process_call_contribution.
    destruct (contribution call) as [c|e]; simpl; [apply IH | reflexivity].
  - rewrite !process_call_contribution.
    destruct (contribution call1) as [c1|e1] eqn:H1,
             (contribution call2) as [c2|e2] eqn:H2; simpl;
      rewrite ?process_call_contribution, ?H1, ?H2; simpl; try reflexivity.
    rewrite contribute_comm. reflexivity.
  - rewrite IH1. apply IH2.
Qed.

(** C9. Whatever the order of the increase/decrease-liquidity call records,
    [parse_liquidity_events] gives the same mapping from identifier to
    count and net totals. *)
Theorem parse_liquidity_events_permutation (events calls calls' : list Call.t) :
  Permutation calls calls' ->
  returned (parse_liquidity_events (RespDict events calls))
  = returned (parse_liquidity_events (RespDict events calls')) /\
  (Forall (fun call => Call.Log call = false) calls ->
   returned (parse_liquidity_events (RespList calls))
   = returned (parse_liquidity_events (RespList calls'))).
Proof.
  intros Hperm. split.
  - unfold parse_liquidity_events. simpl.
    destruct (foldl_result process_event ∅ events) as [nft_data|e]; simpl; [|reflexivity].
    apply process_calls_permutation, Hperm.
  - intros Hlog.
    assert (Forall (fun call => Call.Log call = false) calls') as Hlog'.
    { rewrite <- Hperm. exact Hlog. }
    unfold parse_liquidity_events.
    assert (forall l, Forall (fun call => Call.Log call = false) l ->
                      events_and_calls (RespList l) = ([], l)) as Hcalls.
    { intros [|first l] Hl; simpl; [reflexivity|].
      apply Forall_cons in Hl as [-> _]. reflexivity. }
    rewrite !Hcalls by assumption. simpl.
    apply process_calls_permutation, Hperm.
Qed.

Definition liquidity_call (name : string) (nft_id amount0 amount1 : Z) : Call.t :=
  {| Call.Arguments := [integer_arg 0 nft_id];
     Call.Returns := [integer_return "liquidity" 1;
                      integer_return "amount0" amount0;
                      integer_return "amount1" amount1];
     Call.Signature_Name := name;
     Call.Block_Time := None;
     Call.Transaction_Time := None;
     Call.Log := false |}.

Lemma parse_liquidity_events_permutation_witness :
  returned (parse_liquidity_events
              (RespDict [] [liquidity_call "increaseLiquidity" 7 100 20;
                            liquidity_call "decreaseLiquidity" 7 30 5]))
  = returned (parse_liquidity_events
                (RespDict [] [liquidity_call "decreaseLiquidity" 7 30 5;
                              liquidity_call "increaseLiquidity" 7 100 20])).
Proof.
  apply (proj1 (parse_liquidity_events_permutation []
                  [liquidity_call "increaseLiquidity" 7 100 20;
                   liquidity_call "decreaseLiquidity" 7 30 5]
                  [liquidity_call "decreaseLiquidity" 7 30 5;
                   liquidity_call "increaseLiquidity" 7 100 20]
                  (perm_swap _ _ _))).
Defined.

Example parse_liquidity_events_net :
  parse_liquidity_events
    (RespDict [] [liquidity_call "increaseLiquidity" 7 100 20;
                  liquidity_call "decreaseLiquidity" 7 30 5])
  = Ok {[ 7%Z := {| Delta.count := 2; Delta.total_amount0 := 70; Delta.total_amount1 := 15 |} ]}.
Proof. vm_compute. reflexivity. Qed.

End liquidity_events.

(** ** Running computations on the store *)

Lemma run_bind {A B : Type} (m : M A) (f : A -> M B) (w w' : World.t) (a : A) :
  m w = (w', Ok a) -> (m ≫= f) w = f a w'.
Proof. intros H. unfold mbind, M_bind. rewrite H. reflexivity. Qed.

Lemma run_bind_raise {A B : Type} (m : M A) (f : A -> M B) (w w' : World.t) (e : Exn) :
  m w = (w', Raise e) -> (m ≫= f) w = (w', Raise e).
Proof. intros H. unfold mbind, M_bind. rewrite H. reflexivity. Qed.

Lemma run_ret {A : Type} (a : A) (w : World.t) : (mret a : M A) w = (w, Ok a).
Proof. reflexivity. Qed.

(** The references [bins] lead to the dictionaries [contents]. *)
Definition points_to (w : World.t) (bins : list loc) (contents : list Bin.t) : Prop :=
  Forall2 (fun l b => World.heap w !! l = Some b) bins contents.

(** [w'] has every dictionary of [w], unchanged, and differs from [w] by
    its dictionaries only. *)
Definition grows (w w' : World.t) : Prop :=
  World.heap w ⊆ World.heap w' /\ w' = World.set_heap (World.heap w') w.

Lemma grows_refl (w : World.t) : grows w w.
Proof. split; [reflexivity | destruct w; reflexivity]. Qed.

Lemma grows_trans (w1 w2 w3 : World.t) : grows w1 w2 -> grows w2 w3 -> grows w1 w3.
Proof.
  intros [H1 E1] [H2 E2]. split; [transitivity (World.heap w2); assumption|].
  rewrite E2 at 1. rewrite E1. reflexivity.
Qed.

Lemma points_to_grows (w w' : World.t) (bins : list loc) (contents : list Bin.t) :
  grows w w' -> points_to w bins contents -> points_to w' bins contents.
Proof.
  intros [Hsub _] Hpoints. eapply Forall2_impl; [exact Hpoints|].
  intros l b Hl. simpl in *. eapply lookup_weaken; eassumption.
Qed.

Lemma points_to_length (w : World.t) (bins : list loc) (contents : list Bin.t) :
  points_to w bins contents -> length bins = length contents.
Proof. apply Forall2_length. Qed.

Lemma load_points (w : World.t) (l : loc) (b : Bin.t) :
  World.heap w !! l = Some b -> load l w = (w, Ok b).
Proof. intros H. unfold load. rewrite H. reflexivity. Qed.

Lemma mapM_load (w : World.t) (bins : list loc) (contents : list Bin.t) :
  points_to w bins contents -> mapM load bins w = (w, Ok contents).
Proof.
  induction 1 as [|l b bins contents Hl _ IH]; [reflexivity|].
  simpl. erewrite run_bind by (apply load_points; exact Hl).
  erewrite run_bind by exact IH. reflexivity.
Qed.

Section recommender.
Import recommender_service.

(** The copy of a bin made by [get_top_liquidity_bands]. *)
Definition with_liquidity (b : Bin.t) : Bin.t :=
  Bin.set_total_liquidity (Some (calculate_total_liquidity b)) b.

(** [x] may stay in front of [y]: its liquidity is not smaller. *)
Definition by_liquidity (x y : Bin.t) : bool :=
  Qle_bool (calculate_total_liquidity y) (calculate_total_liquidity x).

(** The bands selected among the bins with the given contents. *)
Definition top_bands (top_n : Z) (contents : list Bin.t) : list Bin.t :=
  slice_to top_n (py_sorted by_liquidity (with_liquidity <$> contents)).

Lemma calculate_total_liquidity_with_liquidity (b : Bin.t) :
  calculate_total_liquidity (with_liquidity b) = calculate_total_liquidity b.
Proof. reflexivity. Qed.

Lemma copy_with_liquidity_run (w : World.t) (l : loc) (b : Bin.t) :
  World.heap w !! l = Some b ->
  let l' := fresh (dom (World.heap w)) in
  copy_with_liquidity l w
  = (World.set_heap (<[l' := with_liquidity b]> (World.heap w)) w, Ok l').
Proof.
  intros Hl l'. unfold copy_with_liquidity.
  erewrite run_bind by (apply load_points; exact Hl).
  unfold mbind, M_bind, alloc, update. simpl. fold l'.
  rewrite lookup_insert_eq, insert_insert_eq. reflexivity.
Qed.

Lemma fresh_not_in_heap (w : World.t) : World.heap w !! fresh (dom (World.heap w)) = None.
Proof. apply not_elem_of_dom, is_fresh. Qed.

(** The copies are new, distinct dictionaries; nothing else changes. *)
Lemma mapM_copy_with_liquidity (w : World.t) (bins : list loc) (contents : list Bin.t) :
  points_to w bins contents ->
  exists w' copies,
    mapM copy_with_liquidity bins w = (w', Ok copies) /\
    grows w w' /\
    points_to w' copies (with_liquidity <$> contents) /\
    NoDup copies /\
    Forall (fun l => World.heap w !! l = None) copies.
Proof.
  intros Hpoints. revert w Hpoints.
  induction contents as [|b contents IH] in bins |- *; intros w Hpoints.
  - apply Forall2_nil_inv_r in Hpoints as ->.
    exists w, []. split; [reflexivity|]. split; [apply grows_refl|].
    repeat split; constructor.
  - apply Forall2_cons_inv_r in Hpoints as (l & bins' & Hl & Hpoints & ->).
    set (l' := fresh (dom (World.heap w))).
    set (w1 := World.set_heap (<[l' := with_liquidity b]> (World.heap w)) w).
    assert (grows w w1) as Hgrows1.
    { split; [|reflexivity]. simpl. apply insert_subseteq, fresh_not_in_heap. }
    destruct (IH bins' w1) as (w' & copies & Hrun & Hgrows & Hcopies & Hnodup & Hfresh).
    { eapply points_to_grows; eassumption. }
    exists w', (l' :: copies). split; [|split; [|split; [|split]]].
    + simpl. erewrite run_bind by (apply copy_with_liquidity_run; exact Hl).
      fold l' w1. erewrite run_bind by exact Hrun. reflexivity.
    + eapply grows_trans; eassumption.
    + constructor; [|exact Hcopies].
      destruct Hgrows as [Hsub _]. eapply lookup_weaken; [|exact Hsub].
      simpl. apply lookup_insert_eq.
    + constructor; [|exact Hnodup].
      intros Hin. rewrite Forall_forall in Hfresh. apply Hfresh in Hin.
      simpl in Hin. rewrite lookup_insert_eq in Hin. discriminate.
    + constructor; [apply fresh_not_in_heap|].
      eapply Forall_impl; [exact Hfresh|]. intros k Hk. simpl in Hk.
      apply lookup_insert_None in Hk as [Hk _]. exact Hk.
Qed.

Lemma total_liquidity_key_run (w : World.t) (l : loc) (b : Bin.t) :
  World.heap w !! l = Some (with_liquidity b) ->
  total_liquidity_key l w = (w, Ok (calculate_total_liquidity b, l)).
Proof.
  intros Hl. unfold total_liquidity_key.
  erewrite run_bind by (apply load_points; exact Hl). reflexivity.
Qed.

Lemma mapM_total_liquidity_key (w : World.t) (copies : list loc) (contents : list Bin.t) :
  points_to w copies (with_liquidity <$> contents) ->
  mapM total_liquidity_key copies w
  = (w, Ok (zip (calculate_total_liquidity <$> contents) copies)).
Proof.
  revert copies. induction contents as [|b contents IH]; intros copies Hpoints.
  - apply Forall2_nil_inv_r in Hpoints as ->. reflexivity.
  - apply Forall2_cons_inv_r in Hpoints as (l & copies' & Hl & Hpoints & ->).
    simpl. erewrite run_bind by (apply total_liquidity_key_run; exact Hl).
    erewrite run_bind by (apply IH; exact Hpoints). reflexivity.
Qed.

(** The references of [items] lead to the contents they are paired with. *)
Definition paired (w : World.t) (items : list (loc * Bin.t)) : Prop :=
  Forall (fun item => World.heap w !! item.1 = Some item.2) items.

Lemma paired_points_to (w : World.t) (items : list (loc * Bin.t)) :
  paired w items <-> points_to w items.*1 items.*2.
Proof.
  unfold paired, points_to. induction items as [|[l b] items IH]; simpl.
  - split; constructor.
  - rewrite Forall_cons, Forall2_cons, IH. reflexivity.
Qed.

Lemma points_to_paired (w : World.t) (bins : list loc) (contents : list Bin.t) :
  points_to w bins contents ->
  paired w (zip bins contents) /\
  (zip bins contents).*1 = bins /\ (zip bins contents).*2 = contents.
Proof.
  intros Hpoints. pose proof (Forall2_length _ _ _ Hpoints) as Hlen.
  assert ((zip bins contents).*1 = bins) as E1 by (apply fst_zip; lia).
  assert ((zip bins contents).*2 = contents) as E2 by (apply snd_zip; lia).
  split; [|auto]. apply paired_points_to. rewrite E1, E2. exact Hpoints.
Qed.

Lemma slice_to_fmap {A B : Type} (g : A -> B) (n : Z) (l : list A) :
  slice_to n (g <$> l) = g <$> slice_to n l.
Proof.
  unfold slice_to. rewrite length_fmap. destruct (n <? 0)%Z; symmetry; apply fmap_take.
Qed.

Lemma slice_to_sublist {A : Type} (n : Z) (l : list A) : sublist (slice_to n l) l.
Proof. unfold slice_to. destruct (n <? 0)%Z; apply sublist_take. Qed.

Lemma slice_to_Forall {A : Type} (P : A -> Prop) (n : Z) (l : list A) :
  Forall P l -> Forall P (slice_to n l).
Proof. unfold slice_to. destruct (n <? 0)%Z; apply Forall_take. Qed.

Lemma get_top_liquidity_bands_run (w : World.t) (bins : list loc) (contents : list Bin.t)
    (top_n : Z) :
  points_to w bins contents ->
  exists w' bands,
    get_top_liquidity_bands bins top_n w = (w', Ok bands) /\
    grows w w' /\
    points_to w' bands (top_bands top_n contents) /\
    NoDup bands /\
    Forall (fun l => World.heap w !! l = None) bands.
Proof.
  intros Hpoints.
  destruct (mapM_copy_with_liquidity w bins contents Hpoints)
    as (w' & copies & Hrun & Hgrows & Hcopies & Hnodup & Hfresh).
  destruct (points_to_paired _ _ _ Hcopies) as (Hpaired & E1 & E2).
  set (items := zip copies (with_liquidity <$> contents)) in *.
  set (sorted_items := py_sorted (fun x y => by_liquidity x.2 y.2) items).
  assert (Permutation sorted_items items) as Hperm by apply py_sorted_perm.
  exists w', (slice_to top_n sorted_items.*1).
  split; [|split; [exact Hgrows|split; [|split]]].
  - unfold get_top_liquidity_bands.
    erewrite run_bind by exact Hrun.
    erewrite run_bind by (apply mapM_total_liquidity_key; exact Hcopies).
    rewrite run_ret. do 2 f_equal. f_equal.
    replace (zip (calculate_total_liquidity <$> contents) copies)
      with ((fun item : loc * Bin.t => (calculate_total_liquidity item.2, item.1)) <$> items).
    + rewrite py_sorted_fmap. rewrite <- list_fmap_compose. reflexivity.
    + subst items. clear. revert copies.
      induction contents as [|b contents IH]; intros [|l copies]; simpl;
        try reflexivity.
      rewrite IH. reflexivity.
  - unfold top_bands. rewrite <- E2.
    rewrite (py_sorted_fmap by_liquidity snd items). fold sorted_items.
    rewrite !slice_to_fmap. apply paired_points_to.
    unfold paired. apply slice_to_Forall.
    unfold paired in Hpaired. rewrite Hperm. exact Hpaired.
  - eapply sublist_NoDup; [|apply slice_to_sublist].
    rewrite Hperm, E1. exact Hnodup.
  - apply slice_to_Forall.
    rewrite Hperm, E1. exact Hfresh.
Qed.

End recommender.

Section volumes.
Import bitquery_service recommender_service.

Definition is_volume_request (request : Request) : Prop :=
  match request with
  | VolumeRequest _ _ _ _ => True
  | _ => False
  end.

(** Between [w] and [w'] the program sent volume queries and nothing else,
    and left the cache and the world outside as they were. *)
Definition only_volumes_sent (w w' : World.t) : Prop :=
  World.upstream w' = World.upstream w /\
  World.cache w' = World.cache w /\
  exists sent, World.trace w' = World.trace w ++ sent /\ Forall is_volume_request sent.

Lemma only_volumes_sent_refl (w : World.t) : only_volumes_sent w w.
Proof.
  split; [reflexivity|]. split; [reflexivity|].
  exists []. rewrite app_nil_r. split; [reflexivity | constructor].
Qed.

Lemma only_volumes_sent_trans (w1 w2 w3 : World.t) :
  only_volumes_sent w1 w2 -> only_volumes_sent w2 w3 -> only_volumes_sent w1 w3.
Proof.
  intros (U1 & C1 & s1 & T1 & F1) (U2 & C2 & s2 & T2 & F2).
  split; [congruence|]. split; [congruence|].
  exists (s1 ++ s2). rewrite T2, T1, app_assoc. split; [reflexivity|].
  apply Forall_app. auto.
Qed.

Lemma grows_only_volumes_sent (w w' : World.t) : grows w w' -> only_volumes_sent w w'.
Proof.
  intros [_ ->]. split; [reflexivity|]. split; [reflexivity|].
  exists []. simpl. rewrite app_nil_r. split; [reflexivity | constructor].
Qed.

(** The band gets a volume; a query is sent at most, and no other
    dictionary changes. *)
Lemma attach_volume_run (w : World.t) (start_date end_date : Time) (band : loc) (b : Bin.t) :
  World.heap w !! band = Some b ->
  exists w' volume,
    attach_volume fetch_trading_volume start_date end_date band w = (w', Ok tt) /\
    only_volumes_sent w w' /\
    World.heap w' = <[band := Bin.set_trading_volume_24h (Some volume) b]> (World.heap w).
Proof.
  intros Hband. unfold attach_volume.
  erewrite run_bind by (apply load_points; exact Hband). cbv zeta.
  destruct (Qltb 0 (Bin.priceLower b) && Qltb 0 (Bin.priceUpper b)).
  - unfold fetch_trading_volume, post, update, mbind, M_bind. simpl.
    destruct (Http.status_code _ =? 200)%Z; simpl; rewrite Hband;
      eexists _, _; (split; [reflexivity|]); (split; [|reflexivity]);
      (split; [reflexivity|]); (split; [reflexivity|]);
      eexists [_]; simpl; (split; [reflexivity|]); repeat constructor.
  - unfold update. rewrite Hband.
    eexists _, _. split; [reflexivity|]. split; [|reflexivity].
    split; [reflexivity|]. split; [reflexivity|].
    exists []. simpl. rewrite app_nil_r. split; [reflexivity | constructor].
Qed.

Lemma points_to_insert_ne (w w' : World.t) (bins : list loc) (contents : list Bin.t)
    (l : loc) (b : Bin.t) :
  l ∉ bins ->
  points_to w bins contents ->
  World.heap w' = <[l := b]> (World.heap w) ->
  points_to w' bins contents.
Proof.
  intros Hnotin Hpoints Hheap.
  induction Hpoints as [|k c bins contents Hk _ IH]; constructor.
  - rewrite Hheap, lookup_insert_ne; [exact Hk|].
    intros ->. apply Hnotin. left.
  - apply IH. intros Hin. apply Hnotin. right. exact Hin.
Qed.

(** What the loop over the selected bands leaves in a band. *)
Definition with_volume (volume : Q) (b : Bin.t) : Bin.t :=
  Bin.set_trading_volume_24h (Some volume) b.

Lemma for_each_attach_volume (w : World.t) (start_date end_date : Time)
    (bands : list loc) (contents : list Bin.t) :
  points_to w bands contents ->
  NoDup bands ->
  exists w' volumes,
    for_each bands (attach_volume fetch_trading_volume start_date end_date) w
      = (w', Ok tt) /\
    only_volumes_sent w w' /\
    World.ticks w' = World.ticks w /\
    (forall l, l ∉ bands -> World.heap w' !! l = World.heap w !! l) /\
    length volumes = length contents /\
    points_to w' bands (zip_with with_volume volumes contents).
Proof.
  intros Hpoints. revert w Hpoints.
  induction contents as [|b contents IH] in bands |- *; intros w Hpoints Hnodup.
  - apply Forall2_nil_inv_r in Hpoints as ->.
    exists w, []. split; [reflexivity|]. split; [apply only_volumes_sent_refl|].
    repeat split; constructor.
  - apply Forall2_cons_inv_r in Hpoints as (l & bands' & Hl & Hpoints & ->).
    apply NoDup_cons in Hnodup as [Hnotin Hnodup].
    destruct (attach_volume_run w start_date end_date l b Hl)
      as (w1 & volume & Hrun1 & Hsent1 & Hheap1).
    assert (World.ticks w1 = World.ticks w) as Hticks1.
    { revert Hrun1. unfold attach_volume.
      erewrite run_bind by (apply load_points; exact Hl). cbv zeta.
      unfold fetch_trading_volume, post, update, mbind, M_bind. simpl.
      repeat match goal with
             | |- context [if ?c then _ else _] => destruct c; simpl
             end; rewrite ?Hl; intros H; injection H as <-; reflexivity. }
    destruct (IH bands' w1) as (w' & volumes & Hrun & Hsent & Hticks & Hothers & Hlen & Hbands).
    { eapply points_to_insert_ne; eassumption. }
    { exact Hnodup. }
    exists w', (volume :: volumes).
    split; [|split; [|split; [|split; [|split]]]].
    + simpl. erewrite run_bind by exact Hrun1. exact Hrun.
    + eapply only_volumes_sent_trans; eassumption.
    + congruence.
    + intros k Hk. apply not_elem_of_cons in Hk as [Hkl Hk].
      rewrite (Hothers k Hk), Hheap1. apply lookup_insert_ne. congruence.
    + simpl. congruence.
    + simpl. constructor; [|exact Hbands].
      rewrite (Hothers l Hnotin), Hheap1. apply lookup_insert_eq.
Qed.

End volumes.

Section serving.
Import bitquery_service recommender_service app.

Lemma now_run (w : World.t) :
  now w = (World.set_ticks (S (World.ticks w)) w,
           Ok (Upstream.clock (World.upstream w) (World.ticks w))).
Proof. reflexivity. Qed.

Lemma recommend_top_bands_run (w : World.t) (bins : list loc) (contents : list Bin.t)
    (top_n : Z) :
  points_to w bins contents ->
  exists w' bands volumes,
    recommend_top_bands bins top_n (Some fetch_trading_volume) w
      = (w', Ok {| Recommendations.top_liquidity_bands := bands;
                   Recommendations.metadata := None |}) /\
    only_volumes_sent w w' /\
    World.heap w ⊆ World.heap w' /\
    World.ticks w' = S (World.ticks w) /\
    Forall (fun l => World.heap w !! l = None) bands /\
    length volumes = length (top_bands top_n contents) /\
    points_to w' bands (zip_with with_volume volumes (top_bands top_n contents)).
Proof.
  intros Hpoints.
  destruct (get_top_liquidity_bands_run w bins contents top_n Hpoints)
    as (w1 & bands & Hrun1 & Hgrows & Hbands & Hnodup & Hfresh).
  set (w2 := World.set_ticks (S (World.ticks w1)) w1).
  set (end_date := Upstream.clock (World.upstream w1) (World.ticks w1)).
  destruct (for_each_attach_volume w2 (end_date - 24 * 3600) end_date bands
              (top_bands top_n contents) Hbands Hnodup)
    as (w' & volumes & Hrun2 & Hsent & Hticks & Hothers & Hlen & Hbands').
  exists w', bands, volumes.
  split; [|split; [|split; [|split; [|split; [|split]]]]].
  - unfold recommend_top_bands.
    erewrite run_bind by exact Hrun1.
    erewrite run_bind.
    2:{ erewrite run_bind by apply now_run. fold w2 end_date. exact Hrun2. }
    reflexivity.
  - eapply only_volumes_sent_trans; [|exact Hsent].
    apply grows_only_volumes_sent in Hgrows.
    destruct Hgrows as (U & C & sent & T & F).
    split; [exact U|]. split; [exact C|]. exists sent. auto.
  - apply map_subseteq_spec. intros l b Hl.
    rewrite Hothers.
    + destruct Hgrows as [Hsub _]. simpl. eapply lookup_weaken; eassumption.
    + intros Hin. rewrite Forall_forall in Hfresh. apply Hfresh in Hin. congruence.
  - rewrite Hticks. simpl. destruct Hgrows as [_ ->]. reflexivity.
  - exact Hfresh.
  - exact Hlen.
  - exact Hbands'.
Qed.

(** The price filter on the content of a bin. *)
Definition in_price_range (price_lower price_upper : option Q) (b : Bin.t) : Prop :=
  overlaps_price_range price_lower price_upper (Bin.priceLower b) (Bin.priceUpper b) = true.

#[global] Instance in_price_range_dec price_lower price_upper b :
  Decision (in_price_range price_lower price_upper b).
Proof. unfold in_price_range. apply _. Defined.

Lemma filter_bins_loop (w : World.t) (price_lower price_upper : option Q)
    (bins : list loc) (contents : list Bin.t) (acc : M (list loc))
    (kept : list loc) (kept_contents : list Bin.t) :
  points_to w bins contents ->
  acc w = (w, Ok kept) ->
  points_to w kept kept_contents ->
  exists kept',
    foldl (fun filtered_bins bin =>
             filtered_bins ← filtered_bins;
             b ← load bin;
             let bin_lower := Bin.priceLower b in
             let bin_upper := Bin.priceUpper b in
             if overlaps_price_range price_lower price_upper bin_lower bin_upper
             then mret (filtered_bins ++ [bin])
             else mret filtered_bins)
          acc bins w
    = (w, Ok kept') /\
    points_to w kept'
      (kept_contents ++ filter (in_price_range price_lower price_upper) contents).
Proof.
  intros Hpoints. revert acc kept kept_contents.
  induction Hpoints as [|l b bins contents Hl _ IH]; intros acc kept kept_contents Hacc Hkept.
  - exists kept. simpl. rewrite app_nil_r. auto.
  - simpl. rewrite filter_cons.
    destruct (decide (in_price_range price_lower price_upper b)) as [Hin|Hout].
    + destruct (IH (filtered_bins ← acc;
                    b ← load l;
                    if overlaps_price_range price_lower price_upper
                         (Bin.priceLower b) (Bin.priceUpper b)
                    then mret (filtered_bins ++ [l]) else mret filtered_bins)
                   (kept ++ [l]) (kept_contents ++ [b])) as (kept' & Hrun & Hkept').
      * erewrite run_bind by exact Hacc.
        erewrite run_bind by (apply load_points; exact Hl).
        unfold in_price_range in Hin. rewrite Hin. reflexivity.
      * apply Forall2_app; [exact Hkept | repeat constructor; exact Hl].
      * exists kept'. split; [exact Hrun|].
        rewrite <- app_assoc in Hkept'. exact Hkept'.
    + apply (IH _ kept kept_contents); [|exact Hkept].
      erewrite run_bind by exact Hacc.
      erewrite run_bind by (apply load_points; exact Hl).
      unfold in_price_range in Hout. apply not_true_is_false in Hout.
      rewrite Hout. reflexivity.
Qed.

(** With a price filter given, the bins kept are those whose content
    passes it, in their order; the store is only read. *)
Lemma filter_bins_by_price_range_run (w : World.t) (price_lower price_upper : option Q)
    (bins : list loc) (contents : list Bin.t) :
  is_Some price_lower \/ is_Some price_upper ->
  points_to w bins contents ->
  exists kept,
    filter_bins_by_price_range bins price_lower price_upper w = (w, Ok kept) /\
    points_to w kept (filter (in_price_range price_lower price_upper) contents).
Proof.
  intros Hfilter Hpoints. unfold filter_bins_by_price_range.
  replace (negb (bool_decide (is_Some price_lower))
           && negb (bool_decide (is_Some price_upper))) with false.
  - apply (filter_bins_loop w price_lower price_upper bins contents (mret []) [] []);
      [exact Hpoints | reflexivity | constructor].
  - symmetry. apply andb_false_iff. rewrite !negb_false_iff, !bool_decide_eq_true.
    exact Hfilter.
Qed.

Definition bins_with_positions (contents : list Bin.t) : Z :=
  Z.of_nat (length (filter (fun b => (0 < Bin.count_nfts b)%Z) contents)).

Lemma count_bins_with_positions_run (w : World.t) (bins : list loc) (contents : list Bin.t) :
  points_to w bins contents ->
  count_bins_with_positions bins w = (w, Ok (bins_with_positions contents)).
Proof.
  intros Hpoints. unfold count_bins_with_positions.
  erewrite run_bind by (apply mapM_load; exact Hpoints). reflexivity.
Qed.

(** The cache holds bins stamped less than ten minutes before the next
    reading of the clock. *)
Definition warm (w : World.t) (cached_bins : list loc) (timestamp : Time) : Prop :=
  Cache.bins (World.cache w) = Some cached_bins /\
  Cache.timestamp (World.cache w) = Some timestamp /\
  (Upstream.clock (World.upstream w) (World.ticks w) - timestamp) / 60
    < CACHE_EXPIRATION_MINUTES.

(** A price-filtered request on a warm cache. *)
Lemma warm_request_run (w : World.t) (use_cache : bool) (price_lower price_upper : option Q)
    (cached_bins : list loc) (timestamp : Time) (contents : list Bin.t) :
  is_Some price_lower \/ is_Some price_upper ->
  warm w cached_bins timestamp ->
  points_to w cached_bins contents ->
  let kept := filter (in_price_range price_lower price_upper) contents in
  exists w' bands volumes,
    get_recommendations_data use_cache price_lower price_upper w
      = (w', Ok (Recommended
                   {| Recommendations.top_liquidity_bands := bands;
                      Recommendations.metadata :=
                        Some {| Metadata.total_positions :=
                                  default 0%Z (Cache.total_positions (World.cache w));
                                Metadata.total_bins := Z.of_nat (length kept);
                                Metadata.bins_with_positions := bins_with_positions kept;
                                Metadata.analysis_date :=
                                  Upstream.clock (World.upstream w)
                                                 (S (S (World.ticks w)));
                                Metadata.time_range_hours := 240;
                                Metadata.cache_timestamp := timestamp;
                                Metadata.price_filter_lower := price_lower;
                                Metadata.price_filter_upper := price_upper |} |})) /\
    only_volumes_sent w w' /\
    World.heap w ⊆ World.heap w' /\
    Forall (fun l => World.heap w !! l = None) bands /\
    length volumes = length (top_bands 3 kept) /\
    points_to w' bands (zip_with with_volume volumes (top_bands 3 kept)).
Proof.
  intros Hfilter (Hbins & Hstamp & Hage) Hpoints kept.
  set (w1 := World.set_ticks (S (World.ticks w)) w).
  assert (points_to w1 cached_bins contents) as Hpoints1 by exact Hpoints.
  destruct (filter_bins_by_price_range_run w1 price_lower price_upper cached_bins contents
              Hfilter Hpoints1) as (kept_bins & Hrun1 & Hkept).
  fold kept in Hkept.
  destruct (recommend_top_bands_run w1 kept_bins kept 3 Hkept)
    as (w2 & bands & volumes & Hrun2 & Hsent & Hsub & Hticks & Hfresh & Hlen & Hbands).
  assert (points_to w2 kept_bins kept) as Hkept2.
  { eapply Forall2_impl; [exact Hkept|]. intros l b Hl. simpl in *.
    eapply lookup_weaken; eassumption. }
  exists (World.set_ticks (S (World.ticks w2)) w2), bands, volumes.
  split; [|split; [|split; [|split; [|split]]]].
  - unfold get_recommendations_data.
    replace (bool_decide (is_Some price_lower) || bool_decide (is_Some price_upper))
      with true
      by (symmetry; apply orb_true_iff; rewrite !bool_decide_eq_true; exact Hfilter).
    unfold get_cache at 1. unfold mbind at 1, M_bind at 1.
    rewrite Hbins, Hstamp.
    erewrite run_bind by apply now_run. fold w1.
    unfold cache_is_fresh.
    replace (Qltb _ CACHE_EXPIRATION_MINUTES) with true
      by (symmetry; apply Qltb_lt; exact Hage).
    unfold recommend_from_cached_bins.
    erewrite run_bind by exact Hrun1.
    erewrite run_bind by exact Hrun2.
    unfold get_cache. unfold mbind at 1, M_bind at 1.
    erewrite run_bind by (apply count_bins_with_positions_run; exact Hkept2).
    erewrite run_bind by apply now_run.
    destruct Hsent as (-> & -> & _).
    change (World.cache w1) with (World.cache w).
    rewrite Hstamp, run_ret, Hticks.
    rewrite (points_to_length _ _ _ Hkept). reflexivity.
  - destruct Hsent as (U & C & sent & T & F).
    split; [exact U|]. split; [exact C|]. exists sent. auto.
  - exact Hsub.
  - exact Hfresh.
  - exact Hlen.
  - exact Hbands.
Qed.

End serving.

Section ranking.
Import bitquery_service recommender_service app.

(** The midpoint of a bin when both its bounds are positive, else 0. *)
Definition mid_price (b : Bin.t) : Q :=
  if Qltb 0 (Bin.priceLower b) && Qltb 0 (Bin.priceUpper b)
  then (Bin.priceLower b + Bin.priceUpper b) / 2
  else 0.

(** The liquidity of a bin in USDT: [amount_usdt + amount_weth * mid_price]. *)
Definition band_value (b : Bin.t) : Q :=
  Bin.amount_usdt b + Bin.amount_weth b * mid_price b.

Lemma or_zero_eq (x : Q) : or_zero x == x.
Proof.
  unfold or_zero. destruct (Qeq_bool x 0) eqn:E; [|reflexivity].
  apply Qeq_bool_iff in E. symmetry. exact E.
Qed.

Lemma calculate_total_liquidity_value (b : Bin.t) :
  calculate_total_liquidity b == band_value b.
Proof.
  unfold calculate_total_liquidity, band_value, mid_price.
  rewrite !or_zero_eq. reflexivity.
Qed.

Lemma band_value_with_liquidity (b : Bin.t) : band_value (with_liquidity b) = band_value b.
Proof. reflexivity. Qed.

Lemma by_liquidity_value (x y : Bin.t) :
  by_liquidity x y = true <-> band_value y <= band_value x.
Proof.
  unfold by_liquidity. rewrite Qle_bool_iff, !calculate_total_liquidity_value.
  reflexivity.
Qed.

#[global] Instance Qeq_decision (x y : Q) : Decision (x == y) := Qeq_dec x y.

Lemma filter_take_prefix {A : Type} (P : A -> Prop) `{!forall a, Decision (P a)}
    (n : nat) (l : list A) :
  filter P (take n l) `prefix_of` filter P l.
Proof.
  rewrite <- (take_drop n l) at 2. rewrite filter_app.
  apply prefix_app_r. reflexivity.
Qed.

(** The ranking itself: its length, its order, what it keeps, and the order
    it gives to bins of equal liquidity. *)
Lemma top_bands_spec (k : nat) (contents : list Bin.t) :
  let selected := top_bands (Z.of_nat k) contents in
  length selected = Nat.min k (length contents) /\
  Forall (fun band => exists t, Bin.total_liquidity band = Some t /\ t == band_value band)
         selected /\
  StronglySorted (fun x y => band_value y <= band_value x) selected /\
  (exists rest,
     Permutation (selected ++ rest) (with_liquidity <$> contents) /\
     forall x y, x ∈ selected -> y ∈ rest -> band_value y <= band_value x) /\
  (forall v,
     filter (fun b => band_value b == v) selected
       `prefix_of` filter (fun b => band_value b == v) (with_liquidity <$> contents)).
Proof.
  intros selected.
  set (ranked := py_sorted by_liquidity (with_liquidity <$> contents)).
  assert (selected = take k ranked) as Hselected.
  { subst selected. unfold top_bands, slice_to. fold ranked.
    replace (Z.of_nat k <? 0)%Z with false by (symmetry; apply Z.ltb_ge; lia).
    rewrite Nat2Z.id. reflexivity. }
  assert (Permutation ranked (with_liquidity <$> contents)) as Hperm
    by apply py_sorted_perm.
  assert (StronglySorted (fun x y => band_value y <= band_value x) ranked) as Hsorted.
  { apply (StronglySorted_weaken (fun a b => by_liquidity a b = true)).
    - intros x y. apply by_liquidity_value.
    - apply py_sorted_sorted.
      + intros x y. rewrite !by_liquidity_value.
        destruct (Qlt_le_dec (band_value x) (band_value y)); [right; lra | left; lra].
      + intros x y z. rewrite !by_liquidity_value. lra. }
  rewrite Hselected. split; [|split; [|split; [|split]]].
  - rewrite length_take. unfold ranked. rewrite py_sorted_length, length_fmap. reflexivity.
  - apply Forall_take. rewrite Hperm. apply Forall_fmap, Forall_forall.
    intros b _. exists (calculate_total_liquidity b). split; [reflexivity|].
    simpl. rewrite band_value_with_liquidity. apply calculate_total_liquidity_value.
  - rewrite <- (take_drop k ranked) in Hsorted.
    eapply StronglySorted_app_1_l. exact Hsorted.
  - exists (drop k ranked). rewrite take_drop. split; [exact Hperm|].
    intros x y Hx Hy. rewrite <- (take_drop k ranked) in Hsorted.
    eapply StronglySorted_app_1_elem_of in Hsorted; [exact Hsorted|exact Hx|exact Hy].
  - intros v.
    rewrite <- (py_sorted_stable by_liquidity (fun b => band_value b == v)
                  (with_liquidity <$> contents)).
    + apply filter_take_prefix.
    + intros a b Ha Hb. apply by_liquidity_value. rewrite Ha, Hb. lra.
Qed.

(** C8. [get_top_liquidity_bands] returns [min(k, number of bins)] bands,
    each a copy of a bin with its [total_liquidity]
    ([amount_usdt + amount_weth * mid_price]) attached, in descending order
    of [total_liquidity]; no bin left out has more liquidity than a band
    returned, and bands of equal liquidity come in the order of the bins. *)
Theorem get_top_liquidity_bands_spec
    (w : World.t) (bins : list loc) (contents : list Bin.t) (k : nat) :
  points_to w bins contents ->
  exists w' bands selected,
    get_top_liquidity_bands bins (Z.of_nat k) w = (w', Ok bands) /\
    points_to w' bands selected /\
    length bands = Nat.min k (length bins) /\
    Forall (fun band => exists t, Bin.total_liquidity band = Some t /\ t == band_value band)
           selected /\
    StronglySorted (fun x y => band_value y <= band_value x) selected /\
    (exists rest,
       Permutation (selected ++ rest) (with_liquidity <$> contents) /\
       forall x y, x ∈ selected -> y ∈ rest -> band_value y <= band_value x) /\
    (forall v,
       filter (fun b => band_value b == v) selected
         `prefix_of` filter (fun b => band_value b == v) (with_liquidity <$> contents)).
Proof.
  intros Hpoints.
  destruct (get_top_liquidity_bands_run w bins contents (Z.of_nat k) Hpoints)
    as (w' & bands & Hrun & _ & Hbands & _ & _).
  destruct (top_bands_spec k contents) as (Hlen & Hrest).
  exists w', bands, (top_bands (Z.of_nat k) contents).
  split; [exact Hrun|]. split; [exact Hbands|]. split; [|exact Hrest].
  rewrite (points_to_length _ _ _ Hbands), Hlen, (points_to_length _ _ _ Hpoints).
  reflexivity.
Qed.

End ranking.

Section warm_cache.
Import bitquery_service recommender_service app.



(** C10. Answering a price-filtered request from a warm cache leaves the
    cache as it was and every dictionary that existed before the request
    with the fields and values it had: the bands returned are new
    dictionaries, and the cached bins still hold their contents. *)
Theorem warm_request_keeps_cached_state
    (w : World.t) (use_cache : bool) (price_lower price_upper : option Q)
    (cached_bins : list loc) (timestamp : Time) (contents : list Bin.t) :
  is_Some price_lower \/ is_Some price_upper ->
  warm w cached_bins timestamp ->
  points_to w cached_bins contents ->
  exists w' recommendations,
    get_recommendations_data use_cache price_lower price_upper w
      = (w', Ok (Recommended recommendations)) /\
    World.cache w' = World.cache w /\
    (forall l b, World.heap w !! l = Some b -> World.heap w' !! l = Some b) /\
    points_to w' cached_bins contents /\
    Forall (fun band => World.heap w !! band = None)
           (Recommendations.top_liquidity_bands recommendations).
Proof.
  intros Hfilter Hwarm Hpoints.
  destruct (warm_request_run w use_cache price_lower price_upper cached_bins timestamp
              contents Hfilter Hwarm Hpoints)
    as (w' & bands & volumes & Hrun & (_ & Hcache & _) & Hsub & Hfresh & _ & _).
  eexists w', _. split; [exact Hrun|]. split; [exact Hcache|].
  assert (forall l b, World.heap w !! l = Some b -> World.heap w' !! l = Some b) as Hkeep.
  { intros l b Hl. eapply lookup_weaken; eassumption. }
  split; [exact Hkeep|]. split; [|exact Hfresh].
  eapply Forall2_impl; [exact Hpoints|]. intros l b Hl. apply Hkeep, Hl.
Qed.

(** A world outside that answers every query with status 500, and whose
    clock advances by one second per reading. *)
Definition unreachable : Upstream.t :=
  {| Upstream.post_mint := fun _ => Http.mk 500 (RespList []);
     Upstream.post_liquidity := fun _ => Http.mk 500 (RespList []);
     Upstream.post_volume := fun _ => Http.mk 500 (VolumeResponse.mk []);
     Upstream.clock := fun n => inject_Z (Z.of_nat n) |}.

Definition low_bin : Bin.t :=
  {| Bin.bin_index := 0; Bin.priceLower := 1000; Bin.priceUpper := 2000;
     Bin.amount_weth := 1; Bin.amount_usdt := 5; Bin.count_nfts := 1;
     Bin.total_liquidity := None; Bin.trading_volume_24h := None |}.

Definition high_bin : Bin.t :=
  {| Bin.bin_index := 1; Bin.priceLower := 2000; Bin.priceUpper := 3000;
     Bin.amount_weth := 2; Bin.amount_usdt := 7; Bin.count_nfts := 0;
     Bin.total_liquidity := None; Bin.trading_volume_24h := None |}.

(** A cache filled at instant 0 with two bins, seen at instant 0. *)
Definition warm_world : World.t :=
  {| World.upstream := unreachable;
     World.heap := {[ 1%positive := low_bin; 2%positive := high_bin ]};
     World.cache := {| Cache.bins := Some [1%positive; 2%positive];
                       Cache.data := None;
                       Cache.timestamp := Some 0;
                       Cache.total_positions := Some 4%Z |};
     World.trace := [];
     World.ticks := 0 |}.

Lemma warm_world_warm : warm warm_world [1%positive; 2%positive] 0.
Proof. repeat split. Qed.

Lemma warm_world_points_to :
  points_to warm_world [1%positive; 2%positive] [low_bin; high_bin].
Proof. repeat constructor. Qed.


Lemma warm_request_keeps_cached_state_witness :
  exists w' recommendations,
    get_recommendations_data true (Some 2500) None warm_world
      = (w', Ok (Recommended recommendations)) /\
    World.cache w' = World.cache warm_world /\
    points_to w' [1%positive; 2%positive] [low_bin; high_bin].
Proof.
  destruct (warm_request_keeps_cached_state warm_world true (Some 2500) None
              [1%positive; 2%positive] 0 [low_bin; high_bin]
              (or_introl (mk_is_Some _ _ eq_refl)) warm_world_warm warm_world_points_to)
    as (w' & recommendations & Hrun & Hcache & _ & Hpoints & _).
  exists w', recommendations. auto.
Defined.


End warm_cache.

Section refreshing.
Import bitquery_service recommender_service app.

Lemma lift_run {A : Type} (r : result A) (w : World.t) : lift r w = (w, r).
Proof. reflexivity. Qed.

Lemma update_cache_run (f : Cache.t -> Cache.t) (w : World.t) :
  update_cache f w = (World.set_cache (f (World.cache w)) w, Ok tt).
Proof. reflexivity. Qed.

Lemma fetch_mint_positions_run (start_date end_date : Time) (w : World.t) :
  let sent := World.trace w ++ [MintRequest start_date end_date] in
  let response := Upstream.post_mint (World.upstream w) sent in
  fetch_mint_positions start_date end_date w
  = (World.set_trace sent w,
     Ok (if (Http.status_code response =? 200)%Z
         then (Some (Http.json response), Http.status_code response)
         else (None, Http.status_code response))).
Proof.
  intros sent response. unfold fetch_mint_positions, post, mbind, M_bind.
  fold sent response. destruct (Http.status_code response =? 200)%Z; reflexivity.
Qed.

Lemma fetch_liquidity_events_run (nft_ids : list string) (start_date end_date : Time)
    (w : World.t) :
  let sent := World.trace w ++ [LiquidityRequest nft_ids start_date end_date] in
  let response := Upstream.post_liquidity (World.upstream w) sent in
  fetch_liquidity_events nft_ids start_date end_date w
  = (World.set_trace sent w,
     Ok (if (Http.status_code response =? 200)%Z
         then (Some (Http.json response), Http.status_code response)
         else (None, Http.status_code response))).
Proof.
  intros sent response. unfold fetch_liquidity_events, post, mbind, M_bind.
  fold sent response. destruct (Http.status_code response =? 200)%Z; reflexivity.
Qed.

(** The bins built by the binning engine become new, distinct dictionaries. *)
Lemma alloc_all_run (w : World.t) (new_bins : list Bin.t) :
  exists w' bins,
    alloc_all new_bins w = (w', Ok bins) /\
    grows w w' /\
    points_to w' bins new_bins.
Proof.
  revert w. induction new_bins as [|b new_bins IH]; intros w.
  - exists w, []. split; [reflexivity|]. split; [apply grows_refl | constructor].
  - set (l := fresh (dom (World.heap w))).
    set (w1 := World.set_heap (<[l := b]> (World.heap w)) w).
    destruct (IH w1) as (w' & bins & Hrun & Hgrows & Hpoints).
    assert (grows w w1) as Hgrows1.
    { split; [|reflexivity]. simpl. apply insert_subseteq, fresh_not_in_heap. }
    exists w', (l :: bins). split; [|split].
    + unfold alloc_all in *. simpl.
      erewrite run_bind by reflexivity. fold l w1.
      erewrite run_bind by exact Hrun. reflexivity.
    + eapply grows_trans; eassumption.
    + constructor; [|exact Hpoints].
      destruct Hgrows as [Hsub _]. eapply lookup_weaken; [|exact Hsub].
      simpl. apply lookup_insert_eq.
Qed.

Lemma bind_now {A : Type} (f : Time -> M A) (w : World.t) :
  (now ≫= f) w
  = f (Upstream.clock (World.upstream w) (World.ticks w))
      (World.set_ticks (S (World.ticks w)) w).
Proof. reflexivity. Qed.

Lemma bind_lift {A B : Type} (r : result A) (f : A -> M B) (w : World.t) :
  (lift r ≫= f) w = match r with Ok a => f a w | Raise e => (w, Raise e) end.
Proof. unfold mbind, M_bind, lift. destruct r; reflexivity. Qed.

Lemma bind_update_cache {A : Type} (g : Cache.t -> Cache.t) (f : unit -> M A) (w : World.t) :
  (update_cache g ≫= f) w = f tt (World.set_cache (g (World.cache w)) w).
Proof. reflexivity. Qed.

Lemma bind_fetch_mint_positions {A : Type} (start_date end_date : Time)
    (f : option ResponseData * Z -> M A) (w : World.t) :
  (fetch_mint_positions start_date end_date ≫= f) w
  = let sent := World.trace w ++ [MintRequest start_date end_date] in
    let response := Upstream.post_mint (World.upstream w) sent in
    f (if (Http.status_code response =? 200)%Z
       then (Some (Http.json response), Http.status_code response)
       else (None, Http.status_code response))
      (World.set_trace sent w).
Proof. apply run_bind, fetch_mint_positions_run. Qed.

Lemma bind_fetch_liquidity_events {A : Type} (nft_ids : list string)
    (start_date end_date : Time) (f : option ResponseData * Z -> M A) (w : World.t) :
  (fetch_liquidity_events nft_ids start_date end_date ≫= f) w
  = let sent := World.trace w ++ [LiquidityRequest nft_ids start_date end_date] in
    let response := Upstream.post_liquidity (World.upstream w) sent in
    f (if (Http.status_code response =? 200)%Z
       then (Some (Http.json response), Http.status_code response)
       else (None, Http.status_code response))
      (World.set_trace sent w).
Proof. apply run_bind, fetch_liquidity_events_run. Qed.

Lemma bind_ret {A B : Type} (a : A) (f : A -> M B) (w : World.t) :
  (mret a ≫= f) w = f a w.
Proof. reflexivity. Qed.

End refreshing.

(** ** What a computation may do to the cache *)

Section cache_discipline.
Context (R : Cache.t -> Cache.t -> Prop) `{!Reflexive R, !Transitive R}.

(** From any world, the computation takes the cache to one related by [R],
    whether it returns or raises. *)
Definition respects {A : Type} (m : M A) : Prop :=
  forall w, R (World.cache w) (World.cache (m w).1).

Lemma respects_ret {A : Type} (a : A) : respects (mret a).
Proof. intros w. reflexivity. Qed.

Lemma respects_raise {A : Type} (e : Exn) : respects (raise e : M A).
Proof. intros w. reflexivity. Qed.

Lemma respects_lift {A : Type} (r : result A) : respects (lift r).
Proof. intros w. reflexivity. Qed.

Lemma respects_bind {A B : Type} (m : M A) (f : A -> M B) :
  respects m -> (forall a, respects (f a)) -> respects (m ≫= f).
Proof.
  intros Hm Hf w. unfold mbind, M_bind. specialize (Hm w).
  destruct (m w) as [w1 [a|e]]; simpl in *; [|exact Hm].
  transitivity (World.cache w1); [exact Hm | apply Hf].
Qed.


Lemma respects_now : respects now.
Proof. intros w. reflexivity. Qed.

Lemma respects_get_cache : respects get_cache.
Proof. intros w. reflexivity. Qed.

Lemma respects_load (l : loc) : respects (load l).
Proof. intros w. unfold load. destruct (_ !! _); reflexivity. Qed.

Lemma respects_alloc (b : Bin.t) : respects (alloc b).
Proof. intros w. reflexivity. Qed.

Lemma respects_update (l : loc) (f : Bin.t -> Bin.t) : respects (update l f).
Proof. intros w. unfold update. destruct (_ !! _); reflexivity. Qed.

Lemma respects_post {A : Type} (request : Request)
    (service : Upstream.t -> list Request -> Http.response A) :
  respects (post request service).
Proof. intros w. reflexivity. Qed.


Lemma respects_mapM {A B : Type} (f : A -> M B) (l : list A) :
  (forall a, respects (f a)) -> respects (mapM f l).
Proof.
  intros Hf. induction l as [|x l IH]; simpl; [apply respects_ret|].
  apply respects_bind; [apply Hf|]. intros y.
  apply respects_bind; [exact IH|]. intros k. apply respects_ret.
Qed.

Lemma respects_for_each {A : Type} (l : list A) (body : A -> M unit) :
  (forall a, respects (body a)) -> respects (for_each l body).
Proof.
  intros Hbody. induction l as [|x l IH]; simpl; [apply respects_ret|].
  apply respects_bind; [apply Hbody | intros _; exact IH].
Qed.

Lemma respects_foldl {A B : Type} (f : M B -> A -> M B) (acc : M B) (l : list A) :
  (forall m a, respects m -> respects (f m a)) ->
  respects acc -> respects (foldl f acc l).
Proof.
  intros Hf. revert acc. induction l as [|x l IH]; intros acc Hacc; simpl; auto.
Qed.

(** Goes through a computation made of the steps above. *)
Ltac respects_steps :=
  repeat first
    [ assumption
    | apply respects_ret | apply respects_raise | apply respects_lift
    | apply respects_now | apply respects_get_cache | apply respects_load
    | apply respects_alloc | apply respects_update | apply respects_post
    | apply respects_mapM; intros
    | apply respects_for_each; intros
    | apply respects_bind; [|intros]
    | progress cbv zeta
    | match goal with
      | |- respects (if ?c then _ else _) => destruct c
      | |- respects (match ?x with _ => _ end) => destruct x
      end ].

Import bitquery_service recommender_service app.

Lemma respects_fetch_trading_volume (price_low price_high : Q) (start_date end_date : Time) :
  respects (fetch_trading_volume price_low price_high start_date end_date).
Proof. unfold fetch_trading_volume. respects_steps. Qed.

Lemma respects_fetch_mint_positions (start_date end_date : Time) :
  respects (fetch_mint_positions start_date end_date).
Proof. unfold fetch_mint_positions. respects_steps. Qed.

Lemma respects_fetch_liquidity_events (nft_ids : list string) (start_date end_date : Time) :
  respects (fetch_liquidity_events nft_ids start_date end_date).
Proof. unfold fetch_liquidity_events. respects_steps. Qed.

Lemma respects_recommend_top_bands (bins : list loc) (top_n : Z) :
  respects (recommend_top_bands bins top_n (Some fetch_trading_volume)).
Proof.
  unfold recommend_top_bands, get_top_liquidity_bands, copy_with_liquidity,
    total_liquidity_key, attach_volume.
  respects_steps.
Qed.

Lemma respects_filter_bins_by_price_range (bins : list loc)
    (price_lower price_upper : option Q) :
  respects (filter_bins_by_price_range bins price_lower price_upper).
Proof.
  unfold filter_bins_by_price_range.
  destruct (_ && _); [apply respects_ret|].
  apply respects_foldl; [|apply respects_ret].
  intros m bin Hm. respects_steps.
Qed.

Lemma respects_count_bins_with_positions (bins : list loc) :
  respects (count_bins_with_positions bins).
Proof. unfold count_bins_with_positions. respects_steps. Qed.

Lemma respects_recommend_from_cached_bins (cached_bins : list loc)
    (price_lower price_upper : option Q) :
  respects (recommend_from_cached_bins cached_bins price_lower price_upper).
Proof.
  unfold recommend_from_cached_bins.
  respects_steps; apply respects_filter_bins_by_price_range.
Qed.



End cache_discipline.

Section cache_slots.
Import bitquery_service recommender_service app.

(** The recommendation held by the cache, if any, was made without a price
    filter. *)
Definition stored_unfiltered (c : Cache.t) : Prop :=
  forall recommendations,
    Cache.data c = Some recommendations ->
    exists meta,
      Recommendations.metadata recommendations = Some meta /\
      Metadata.price_filter_lower meta = None /\
      Metadata.price_filter_upper meta = None.

Definition same_data (c c' : Cache.t) : Prop := Cache.data c' = Cache.data c.

Definition keeps_unfiltered (c c' : Cache.t) : Prop :=
  stored_unfiltered c -> stored_unfiltered c'.

#[local] Instance same_data_refl : Reflexive same_data.
Proof. intros c. reflexivity. Qed.

#[local] Instance same_data_trans : Transitive same_data.
Proof. intros c1 c2 c3. unfold same_data. congruence. Qed.

#[local] Instance keeps_unfiltered_refl : Reflexive keeps_unfiltered.
Proof. intros c H. exact H. Qed.

#[local] Instance keeps_unfiltered_trans : Transitive keeps_unfiltered.
Proof. intros c1 c2 c3 H12 H23 H. auto. Qed.



(** A world with an empty cache and a service that cannot be reached. *)
Definition cold_world : World.t :=
  {| World.upstream := unreachable;
     World.heap := ∅;
     World.cache := Cache.empty;
     World.trace := [];
     World.ticks := 0 |}.

End cache_slots.

Section request_boundary.
Import bitquery_service recommender_service app.

(** The request [/api/recommendations?refresh=true]. *)
Definition refresh_request : Args.t :=
  {| Args.price_lower := None; Args.price_upper := None; Args.refresh := Some "true" |}.

(** C7 is not met by the code.  When the service answers the mint query
    with any status other than 200, [fetch_mint_positions] hands over no
    data, the error text becomes [Failed to fetch mint positions], which
    lacks the word the request boundary looks for, and the reply has status
    404, as for a no-data condition, not 500. *)
Theorem mint_fetch_failure_reply (w : World.t) :
  let end_date := Upstream.clock (World.upstream w) (S (S (World.ticks w))) in
  let sent := World.trace w ++ [MintRequest (end_date - 240 * 3600) end_date] in
  Http.status_code (Upstream.post_mint (World.upstream w) sent) <> 200%Z ->
  (api_recommendations refresh_request w).2
  = Ok {| Reply.body := ErrorDict "Failed to fetch mint positions";
          Reply.status := 404 |}.
Proof.
  intros end_date sent Hstatus.
  unfold api_recommendations, refresh_request. cbn [Args.price_lower Args.price_upper
    Args.refresh price_filter]. cbv zeta.
  rewrite bind_now. unfold try_except.
  unfold get_recommendations_data. cbn [bool_decide decide_rel orb negb].
  replace (bool_decide (is_Some (@None Q))) with false
    by (symmetry; apply bool_decide_eq_false; intros [? H]; discriminate H).
  cbn [orb negb]. rewrite bool_decide_eq_true_2 by reflexivity. cbn [negb].
  unfold fetch_new_data.
  unfold mbind at 1, M_bind at 1. rewrite bind_now. unfold try_except.
  unfold refresh. cbv zeta.
  rewrite !bind_now, bind_fetch_mint_positions. cbv zeta.
  cbn [World.upstream World.trace World.set_ticks World.ticks].
  fold end_date. fold sent.
  apply Z.eqb_neq in Hstatus. rewrite Hstatus. cbv beta iota.
  rewrite bind_now, Hstatus. reflexivity.
Qed.

Lemma mint_fetch_failure_reply_witness :
  (api_recommendations refresh_request cold_world).2
  = Ok {| Reply.body := ErrorDict "Failed to fetch mint positions";
          Reply.status := 404 |}.
Proof.
  apply (mint_fetch_failure_reply cold_world). discriminate.
Defined.

(** The text the code first prepares for a failed fetch would have been
    answered with status 500. *)
Example error_fetching_text_recognised (status_code : Z) :
  contains "fetching" (py_lower ("Error fetching mint positions: " +:+ pretty status_code))
  = true.
Proof. reflexivity. Qed.

End request_boundary.

Section ranking_example.
Import recommender_service.

Lemma get_top_liquidity_bands_spec_witness :
  exists w' bands,
    get_top_liquidity_bands [1%positive; 2%positive] 1 warm_world = (w', Ok bands) /\
    length bands = 1%nat.
Proof.
  destruct (get_top_liquidity_bands_spec warm_world [1%positive; 2%positive]
              [low_bin; high_bin] 1 warm_world_points_to)
    as (w' & bands & selected & Hrun & _ & Hlen & _).
  exists w', bands. split; [exact Hrun | exact Hlen].
Defined.

End ranking_example.


(* ===================================================================== *)
(** * Part III: the functions of the pipeline and the refresh *)
(* ===================================================================== *)

(** ** The outlier filter as a partition *)

Section outlier_partition.
Import outlier_service.

Lemma filter_valid_positions_filters
    (positions : list Summary.t) (min_reasonable max_reasonable : Q) :
  let accepted position :=
    validate_position_prices position min_reasonable max_reasonable = true in
  filter_valid_positions positions min_reasonable max_reasonable
  = (filter accepted positions, filter (fun position => ~ accepted position) positions).
Proof.
  intros accepted. unfold filter_valid_positions.
  induction positions as [|position positions IH] using rev_ind; [reflexivity|].
  rewrite foldl_app, IH, !filter_app. simpl.
  rewrite !filter_cons, !filter_nil. subst accepted. simpl.
  destruct (validate_position_prices position min_reasonable max_reasonable) eqn:Hv.
  - rewrite decide_True by reflexivity.
    rewrite decide_False by (intros Hn; apply Hn; reflexivity).
    rewrite app_nil_r. reflexivity.
  - rewrite decide_False by discriminate.
    rewrite decide_True by discriminate.
    rewrite app_nil_r. reflexivity.
Qed.

(** X1. [filter_valid_positions] splits the positions in two: the first
    list holds the positions accepted by [validate_position_prices], the
    second the positions it rejects, each in the order of the input; no
    position is lost, none is in both. *)
Theorem filter_valid_positions_partition
    (positions : list Summary.t) (min_reasonable max_reasonable : Q) :
  let accepted position :=
    validate_position_prices position min_reasonable max_reasonable = true in
  let '(valid_positions, invalid_positions) :=
    filter_valid_positions positions min_reasonable max_reasonable in
  valid_positions = filter accepted positions /\
  invalid_positions = filter (fun position => ~ accepted position) positions /\
  Permutation (valid_positions ++ invalid_positions) positions.
Proof.
  intros accepted. rewrite filter_valid_positions_filters. fold accepted.
  split; [reflexivity|]. split; [reflexivity|].
  apply filter_app_complement.
Qed.

(** X2. [validate_amounts] accepts exactly the amounts that, when present,
    lie between 0 and the cap of their token: 1e6 for WETH, 1e12 for USDT.
    An absent amount is accepted. *)
Theorem validate_amounts_accepts_iff (amount_weth amount_usdt : option Q) :
  validate_amounts amount_weth amount_usdt = true <->
  (forall w, amount_weth = Some w -> 0 <= w /\ w <= MAX_WETH) /\
  (forall u, amount_usdt = Some u -> 0 <= u /\ u <= MAX_USDT).
Proof.
  unfold validate_amounts, math_isnan, math_isinf.
  destruct amount_weth as [w|], amount_usdt as [u|]; simpl; q_cases; split;
    try discriminate; try reflexivity;
    try (intros [Hw Hu];
         try (destruct (Hw w eq_refl)); try (destruct (Hu u eq_refl)); lra);
    intros _; split; intros x Hx; inversion Hx; subst; split; lra.
Qed.

End outlier_partition.

(** ** The grid of bins *)

Section bin_grid.
Import bin_service.

(** The bin of index [i] on the grid of [num_bins] bins over
    [[min_price, max_price]]. *)
Definition grid_bin (min_price max_price : Q) (num_bins i : Z) : Bin.t :=
  let bin_size := (max_price - min_price) / inject_Z num_bins in
  {| Bin.bin_index := i;
     Bin.priceLower := min_price + inject_Z i * bin_size;
     Bin.priceUpper := min_price + inject_Z (i + 1) * bin_size;
     Bin.amount_weth := 0;
     Bin.amount_usdt := 0;
     Bin.count_nfts := 0;
     Bin.total_liquidity := None;
     Bin.trading_volume_24h := None |}.

Lemma create_bins_grid (min_price max_price : Q) (num_bins : Z) :
  min_price < max_price -> num_bins <> 0%Z ->
  create_bins min_price max_price num_bins
  = Ok (map (grid_bin min_price max_price num_bins) (seqZ 0 num_bins)).
Proof.
  intros Hlt Hn. unfold create_bins.
  replace (Qle_bool max_price min_price) with false
    by (symmetry; apply Qle_bool_gt; exact Hlt).
  replace (num_bins =? 0)%Z with false by (symmetry; apply Z.eqb_neq; exact Hn).
  reflexivity.
Qed.

(** X3. For [min_price < max_price] and a positive number of bins,
    [create_bins] returns that many bins, numbered from 0 in order and
    empty.  The bin of index [i] has the bounds [min_price + i * bin_size]
    and [min_price + (i + 1) * bin_size], for the [bin_size] that the code
    computes, so that each bin starts at the very price at which the one
    before it ends. *)
Theorem create_bins_contiguous (min_price max_price : Q) (num_bins : Z) :
  min_price < max_price -> (0 < num_bins)%Z ->
  let bin_size := (max_price - min_price) / inject_Z num_bins in
  exists bins,
    create_bins min_price max_price num_bins = Ok bins /\
    length bins = Z.to_nat num_bins /\
    (forall (i : nat) (bin : Bin.t), bins !! i = Some bin ->
       Bin.bin_index bin = Z.of_nat i /\
       Bin.priceLower bin = min_price + inject_Z (Z.of_nat i) * bin_size /\
       Bin.priceUpper bin = min_price + inject_Z (Z.of_nat i + 1) * bin_size /\
       Bin.amount_weth bin = 0 /\ Bin.amount_usdt bin = 0 /\
       Bin.count_nfts bin = 0%Z /\
       Bin.total_liquidity bin = None /\ Bin.trading_volume_24h bin = None) /\
    (forall (i : nat) (bin next : Bin.t),
       bins !! i = Some bin -> bins !! S i = Some next ->
       Bin.priceLower next = Bin.priceUpper bin).
Proof.
  intros Hlt Hn bin_size. eexists. split; [apply create_bins_grid; [exact Hlt | lia]|].
  split; [rewrite length_map, length_seqZ; reflexivity|].
  split.
  - intros i bin Hbin. rewrite list_lookup_fmap in Hbin.
    destruct (seqZ 0 num_bins !! i) as [z|] eqn:Hz; [|discriminate].
    apply lookup_seqZ in Hz as [-> _]. injection Hbin as <-.
    unfold grid_bin; cbn [Bin.bin_index Bin.priceLower Bin.priceUpper Bin.amount_weth
      Bin.amount_usdt Bin.count_nfts Bin.total_liquidity Bin.trading_volume_24h].
    change (0 + Z.of_nat i)%Z with (Z.of_nat i). auto 10.
  - intros i bin next Hbin Hnext. rewrite list_lookup_fmap in Hbin, Hnext.
    destruct (seqZ 0 num_bins !! i) as [z|] eqn:Hz; [|discriminate].
    destruct (seqZ 0 num_bins !! S i) as [z'|] eqn:Hz'; [|discriminate].
    apply lookup_seqZ in Hz as [-> _]. apply lookup_seqZ in Hz' as [-> _].
    injection Hbin as <-. injection Hnext as <-.
    unfold grid_bin; cbn [Bin.priceLower Bin.priceUpper].
    replace (0 + Z.of_nat (S i))%Z with (0 + Z.of_nat i + 1)%Z by lia. reflexivity.
Qed.

Lemma create_bins_contiguous_witness :
  exists bins,
    create_bins 1000 3000 4 = Ok bins /\ length bins = 4%nat /\
    forall (i : nat) (bin next : Bin.t),
      bins !! i = Some bin -> bins !! S i = Some next ->
      Bin.priceLower next = Bin.priceUpper bin.
Proof.
  destruct (create_bins_contiguous 1000 3000 4) as (bins & Hrun & Hlen & _ & Hnext);
    [reflexivity | reflexivity |].
  exists bins. split; [exact Hrun|]. split; [exact Hlen | exact Hnext].
Defined.

(** X4. [create_bins] fails in two cases only: with a [ValueError] when
    [min_price] is not below [max_price], and otherwise with the
    [ZeroDivisionError] of the division by [num_bins] when that is 0.  A
    negative number of bins gives an empty list. *)
Theorem create_bins_raises_iff (min_price max_price : Q) (num_bins : Z) :
  (forall e, create_bins min_price max_price num_bins = Raise e <->
     (max_price <= min_price /\
      e = ValueError "min_price must be less than max_price") \/
     (min_price < max_price /\ num_bins = 0%Z /\
      e = ZeroDivisionError "float division by zero")) /\
  (min_price < max_price -> (num_bins < 0)%Z ->
     create_bins min_price max_price num_bins = Ok []).
Proof.
  split.
  - intros e. unfold create_bins.
    destruct (Qle_bool max_price min_price) eqn:Hle;
      [apply Qle_bool_iff in Hle | apply Qle_bool_gt in Hle].
    + split.
      * intros [= <-]. left. auto.
      * intros [[_ ->]|[Hlt _]]; [reflexivity | lra].
    + destruct (num_bins =? 0)%Z eqn:Hn;
        [apply Z.eqb_eq in Hn | apply Z.eqb_neq in Hn].
      * split.
        -- intros [= <-]. right. auto.
        -- intros [[Hge _]|(_ & _ & ->)]; [lra | reflexivity].
      * split; [discriminate|].
        intros [[Hge _]|(_ & Hz & _)]; [lra | contradiction].
  - intros Hlt Hn. rewrite create_bins_grid by (auto; lia).
    rewrite seqZ_nil by lia. reflexivity.
Qed.

(** X5. The overlap of two intervals does not depend on which of the two
    is the position and which the bin, is never negative, and is at most
    the length of either interval. *)
Theorem calculate_overlap_measure (a_lower a_upper b_lower b_upper : Q) :
  calculate_overlap a_lower a_upper b_lower b_upper
    == calculate_overlap b_lower b_upper a_lower a_upper /\
  0 <= calculate_overlap a_lower a_upper b_lower b_upper /\
  (a_lower <= a_upper ->
     calculate_overlap a_lower a_upper b_lower b_upper <= a_upper - a_lower) /\
  (b_lower <= b_upper ->
     calculate_overlap a_lower a_upper b_lower b_upper <= b_upper - b_lower).
Proof.
  unfold calculate_overlap, py_max, py_min.
  q_cases; repeat split; intros; lra.
Qed.

(** Sharing out a position leaves the bounds of a bin as they were. *)
Lemma distribute_to_bin_bounds (aw au lo hi : Q) (bin : Bin.t) :
  Bin.bin_index (distribute_to_bin aw au lo hi bin) = Bin.bin_index bin /\
  Bin.priceLower (distribute_to_bin aw au lo hi bin) = Bin.priceLower bin /\
  Bin.priceUpper (distribute_to_bin aw au lo hi bin) = Bin.priceUpper bin.
Proof. unfold distribute_to_bin. destruct (Qltb 0 _); repeat split. Qed.

End bin_grid.

(** ** Order statistics of paired bounds *)

#[global] Instance Qlt_decision (x y : Q) : Decision (x < y) :=
  match Qlt_le_dec x y with
  | left H => left H
  | right H => right (Qle_not_lt _ _ H)
  end.

#[global] Instance Qle_decision (x y : Q) : Decision (x <= y) :=
  match Qlt_le_dec y x with
  | left H => right (Qlt_not_le _ _ H)
  | right H => left H
  end.

Section order_statistics.

Lemma StronglySorted_lookup_le (l : list Q) (i j : nat) (x y : Q) :
  StronglySorted Qle l -> l !! i = Some x -> l !! j = Some y -> (i <= j)%nat -> x <= y.
Proof.
  intros Hs. revert i j. induction Hs as [|a l Hs IH Hall]; intros i j Hi Hj Hij.
  - discriminate.
  - destruct i as [|i], j as [|j]; simpl in Hi, Hj.
    + injection Hi as <-. injection Hj as <-. lra.
    + injection Hi as <-. eapply Forall_lookup_1 in Hall; [exact Hall | exact Hj].
    + lia.
    + eapply IH; [exact Hi | exact Hj | lia].
Qed.

Lemma filter_all {A : Type} (P : A -> Prop) `{!forall a, Decision (P a)} (l : list A) :
  Forall P l -> filter P l = l.
Proof.
  induction 1 as [|x l Hx Hl IH]; [reflexivity|].
  rewrite filter_cons_True by exact Hx. rewrite IH. reflexivity.
Qed.

Lemma filter_none {A : Type} (P : A -> Prop) `{!forall a, Decision (P a)} (l : list A) :
  Forall (fun a => ~ P a) l -> filter P l = [].
Proof.
  induction 1 as [|x l Hx Hl IH]; [reflexivity|].
  rewrite filter_cons_False by exact Hx. exact IH.
Qed.

(** At most [i] values of a sorted list are below its value at [i]. *)
Lemma count_below_sorted (l : list Q) (i : nat) (x y : Q) :
  StronglySorted Qle l -> l !! i = Some x -> y <= x ->
  (length (filter (fun z => (z < y)%Q) l) <= i)%nat.
Proof.
  intros Hs Hi Hy. rewrite <- (take_drop i l), filter_app, length_app.
  rewrite (filter_none _ (drop i l)).
  - pose proof (length_filter (fun z => z < y) (take i l)) as Hlen.
    rewrite length_take in Hlen. simpl. lia.
  - apply Forall_lookup_2. intros k z Hz. rewrite lookup_drop in Hz.
    assert (x <= z) by (eapply StronglySorted_lookup_le; eauto; lia).
    lra.
Qed.

(** More than [j] values of a sorted list are at most its value at [j]. *)
Lemma count_upto_sorted (l : list Q) (j : nat) (y : Q) :
  StronglySorted Qle l -> l !! j = Some y ->
  (j < length (filter (fun z => (z <= y)%Q) l))%nat.
Proof.
  intros Hs Hj. rewrite <- (take_drop (S j) l), filter_app, length_app.
  rewrite (filter_all _ (take (S j) l)).
  - rewrite length_take. apply lookup_lt_Some in Hj. lia.
  - apply Forall_lookup_2. intros k z Hz.
    apply lookup_take_Some in Hz as [Hz Hk].
    eapply StronglySorted_lookup_le; eauto; lia.
Qed.

Lemma count_paired (ls us : list Q) (y : Q) :
  Forall2 Qlt ls us ->
  (length (filter (fun z => (z <= y)%Q) us)
   <= length (filter (fun z => (z < y)%Q) ls))%nat.
Proof.
  induction 1 as [|lo hi ls us Hlt Hrest IH]; [reflexivity|].
  rewrite !filter_cons.
  destruct (decide (hi <= y)) as [Hhi|Hhi].
  - rewrite decide_True by lra. simpl. lia.
  - destruct (decide (lo < y)); simpl; lia.
Qed.

(** When every lower bound is below the upper bound it is paired with, the
    lower bound of a given rank is below the upper bound of any rank that is
    not smaller, the two collections being sorted independently. *)
Lemma sorted_bounds_lt (ls us : list Q) (i j : nat) (x y : Q) :
  Forall2 Qlt ls us ->
  py_sorted Qle_bool ls !! i = Some x ->
  py_sorted Qle_bool us !! j = Some y ->
  (i <= j)%nat ->
  x < y.
Proof.
  intros Hpairs Hx Hy Hij.
  destruct (Qlt_le_dec x y) as [Hlt|Hge]; [exact Hlt|]. exfalso.
  pose proof (count_below_sorted _ i x y (py_sorted_Qle ls) Hx Hge) as Hbelow.
  pose proof (count_upto_sorted _ j y (py_sorted_Qle us) Hy) as Hupto.
  pose proof (count_paired ls us y Hpairs) as Hpaired.
  rewrite (py_sorted_perm Qle_bool ls) in Hbelow.
  rewrite (py_sorted_perm Qle_bool us) in Hupto.
  lia.
Qed.

End order_statistics.

(** ** The binning engine on the whole summary *)

Section binning_pipeline.
Import outlier_service bin_service.

(** A position accepted by the outlier filter with its default bounds. *)
Definition accepted (position : Summary.t) : Prop :=
  validate_position_prices position MIN_REASONABLE_PRICE MAX_REASONABLE_PRICE = true.

Lemma accepted_bounds (position : Summary.t) :
  accepted position ->
  exists price_lower price_upper,
    Summary.price_lower_afterdecimals position = Some price_lower /\
    Summary.price_upper_afterdecimals position = Some price_upper /\
    MIN_REASONABLE_PRICE <= price_lower /\ price_lower < price_upper /\
    price_upper <= MAX_REASONABLE_PRICE /\
    validate_amounts (Summary.amount_weth position) (Summary.amount_usdt position) = true.
Proof.
  unfold accepted, validate_position_prices.
  destruct (Summary.price_lower_afterdecimals position) as [lo|]; [|discriminate].
  destruct (Summary.price_upper_afterdecimals position) as [hi|]; [|discriminate].
  intros Hv. exists lo, hi. split; [reflexivity|]. split; [reflexivity|].
  revert Hv.
  destruct (validate_amounts _ _); q_cases; try discriminate; intros _;
    repeat split; lra.
Qed.

Lemma accepted_positive_bounds (positions : list Summary.t) :
  Forall accepted positions ->
  Forall2 Qlt (positive_lowers positions) (positive_uppers positions) /\
  Forall (fun p => MIN_REASONABLE_PRICE <= p) (positive_lowers positions) /\
  Forall (fun p => p <= MAX_REASONABLE_PRICE) (positive_uppers positions) /\
  length (positive_lowers positions) = length positions /\
  length (positive_uppers positions) = length positions.
Proof.
  unfold positive_lowers, positive_uppers.
  induction 1 as [|position positions Hp Hrest (IH1 & IH2 & IH3 & IH4 & IH5)].
  - repeat split; constructor.
  - destruct (accepted_bounds position Hp) as (lo & hi & Hlo & Hhi & H1 & H2 & H3 & _).
    unfold MIN_REASONABLE_PRICE, MAX_REASONABLE_PRICE in *.
    simpl. rewrite Hlo, Hhi. simpl.
    replace (Qltb 0 lo) with true by (symmetry; apply Qltb_lt; lra).
    replace (Qltb 0 hi) with true by (symmetry; apply Qltb_lt; lra).
    simpl. repeat split; try constructor; auto; congruence.
Qed.

(** The price range of positions that were all accepted: the percentile
    picks, which lie inside the accepted band, the lower one below the upper
    one. *)
Lemma find_price_range_accepted (positions : list Summary.t) :
  positions <> [] ->
  Forall accepted positions ->
  exists min_price max_price,
    find_price_range positions = Ok (min_price, max_price) /\
    MIN_REASONABLE_PRICE <= min_price /\ min_price < max_price /\
    max_price <= MAX_REASONABLE_PRICE.
Proof.
  intros Hne Hall.
  destruct (accepted_positive_bounds positions Hall) as (Hpairs & Hlow & Hup & Hnl & Hnu).
  set (lowers := py_sorted Qle_bool (positive_lowers positions)).
  set (uppers := py_sorted Qle_bool (positive_uppers positions)).
  assert (0 < length positions)%nat as Hn by (destruct positions; [congruence | simpl; lia]).
  assert (length lowers = length positions) as Hll
    by (subst lowers; rewrite py_sorted_length; exact Hnl).
  assert (length uppers = length positions) as Hlu
    by (subst uppers; rewrite py_sorted_length; exact Hnu).
  pose proof (int_5_percent_floor (length lowers)) as H5.
  pose proof (int_95_percent_floor (length uppers)) as H95.
  destruct (py_index_lt lowers (int_5_percent (length lowers)))
    as (min_price & Hmin & Hmin'); [lia|].
  destruct (py_index_lt uppers (Nat.min (length uppers - 1) (int_95_percent (length uppers))))
    as (max_price & Hmax & Hmax'); [lia|].
  assert (MIN_REASONABLE_PRICE <= min_price) as Hge.
  { assert (min_price ∈ positive_lowers positions) as Hin.
    { rewrite <- (py_sorted_perm Qle_bool). eapply list_elem_of_lookup_2. exact Hmin. }
    rewrite Forall_forall in Hlow. apply Hlow. exact Hin. }
  assert (max_price <= MAX_REASONABLE_PRICE) as Hle.
  { assert (max_price ∈ positive_uppers positions) as Hin.
    { rewrite <- (py_sorted_perm Qle_bool). eapply list_elem_of_lookup_2. exact Hmax. }
    rewrite Forall_forall in Hup. apply Hup. exact Hin. }
  assert (min_price < max_price) as Hlt.
  { eapply sorted_bounds_lt; [exact Hpairs | exact Hmin | exact Hmax |]. lia. }
  exists min_price, max_price. split; [|auto].
  unfold find_price_range. rewrite collect_bounds_spec.
  rewrite !bool_decide_eq_false_2
    by (intros E; rewrite E in *; simpl in *; lia).
  cbv zeta. cbn [orb]. fold lowers uppers. rewrite Nat.max_0_l.
  rewrite Hmin'. cbn [mbind result_bind]. rewrite Hmax'. cbn [mbind result_bind].
  unfold MIN_REASONABLE_PRICE, MAX_REASONABLE_PRICE in *.
  replace (Qltb min_price MIN_PRICE_THRESHOLD) with false
    by (symmetry; apply Qltb_ge; unfold MIN_PRICE_THRESHOLD; lra).
  replace (Qltb MAX_PRICE_THRESHOLD max_price) with false
    by (symmetry; apply Qltb_ge; unfold MAX_PRICE_THRESHOLD; lra).
  reflexivity.
Qed.

Lemma filter_valid_positions_filter (positions : list Summary.t) :
  filter_valid_positions positions MIN_REASONABLE_PRICE MAX_REASONABLE_PRICE
  = (filter accepted positions, filter (fun position => ~ accepted position) positions).
Proof. apply filter_valid_positions_filters. Qed.

Lemma Forall_accepted_filter (positions : list Summary.t) :
  Forall accepted (filter accepted positions).
Proof.
  apply Forall_forall. intros p Hp. apply list_elem_of_filter in Hp as [Hp _]. exact Hp.
Qed.

(** The steps of [create_bins_from_data] on a summary with an accepted
    position. *)
Lemma create_bins_from_data_steps (positions : list Summary.t) (num_bins : Z) :
  filter accepted positions <> [] ->
  exists min_price max_price,
    find_price_range (filter accepted positions) = Ok (min_price, max_price) /\
    MIN_REASONABLE_PRICE <= min_price /\ min_price < max_price /\
    max_price <= MAX_REASONABLE_PRICE /\
    create_bins_from_data positions num_bins None None
    = bins ← create_bins min_price max_price num_bins;
      Ok (foldl (fun bins position => distribute_position_to_bins position bins)
                bins (filter accepted positions)).
Proof.
  intros Hvalid.
  destruct (find_price_range_accepted (filter accepted positions) Hvalid
              (Forall_accepted_filter positions))
    as (min_price & max_price & Hrange & H1 & H2 & H3).
  exists min_price, max_price. do 4 (split; [assumption|]).
  unfold create_bins_from_data.
  rewrite bool_decide_eq_false_2 by (intros ->; apply Hvalid; reflexivity).
  cbn [default]. rewrite filter_valid_positions_filter.
  rewrite bool_decide_eq_false_2 by exact Hvalid.
  rewrite Hrange. reflexivity.
Qed.

(** X7. With the default bounds, [create_bins_from_data] returns bins
    exactly when the number of bins is not 0 and the outlier filter accepts
    one position at least; otherwise it raises: the percentile range of
    accepted positions is never empty or inverted. *)
Theorem create_bins_from_data_returns_iff (positions : list Summary.t) (num_bins : Z) :
  (exists bins, create_bins_from_data positions num_bins None None = Ok bins) <->
  num_bins <> 0%Z /\ exists position, position ∈ positions /\ accepted position.
Proof.
  split.
  - intros [bins Hrun].
    destruct (decide (filter accepted positions = [])) as [Hnone|Hsome].
    + exfalso. unfold create_bins_from_data in Hrun.
      destruct (bool_decide (positions = [])); [discriminate|].
      cbn [default] in Hrun. rewrite filter_valid_positions_filter, Hnone in Hrun.
      discriminate.
    + split.
      * intros ->.
        destruct (create_bins_from_data_steps positions 0 Hsome)
          as (min_price & max_price & _ & _ & Hlt & _ & Hsteps).
        rewrite Hsteps in Hrun. unfold create_bins in Hrun.
        replace (Qle_bool max_price min_price) with false in Hrun
          by (symmetry; apply Qle_bool_gt; exact Hlt).
        discriminate.
      * destruct (filter accepted positions) as [|position rest] eqn:Hfilter;
          [congruence|].
        exists position.
        assert (position ∈ filter accepted positions) as Hin
          by (rewrite Hfilter; left).
        apply list_elem_of_filter in Hin as [Hacc Hin]. auto.
  - intros (Hn & position & Hin & Hacc).
    assert (filter accepted positions <> []) as Hsome.
    { intros Hnone. eapply filter_nil_not_elem_of; eauto. }
    destruct (create_bins_from_data_steps positions num_bins Hsome)
      as (min_price & max_price & _ & _ & Hlt & _ & Hsteps).
    rewrite Hsteps, create_bins_grid by assumption.
    eexists. reflexivity.
Qed.

End binning_pipeline.

(** ** What the bins hold after the binning *)

Section bin_contents.
Import outlier_service bin_service.

(** What one position does to one bin. *)
Definition position_to_bin (position : Summary.t) (bin : Bin.t) : Bin.t :=
  match Summary.price_lower_afterdecimals position,
        Summary.price_upper_afterdecimals position with
  | Some price_lower, Some price_upper =>
      distribute_to_bin (get_or_zero (Summary.amount_weth position))
                        (get_or_zero (Summary.amount_usdt position))
                        price_lower price_upper bin
  | _, _ => bin
  end.

(** The range of the position and the interval [[b_lower, b_upper]] share a
    stretch of positive length. *)
Definition reaches (b_lower b_upper : Q) (position : Summary.t) : Prop :=
  match Summary.price_lower_afterdecimals position,
        Summary.price_upper_afterdecimals position with
  | Some price_lower, Some price_upper =>
      positive_overlap price_lower price_upper b_lower b_upper
  | _, _ => False
  end.

#[global] Instance reaches_dec b_lower b_upper position :
  Decision (reaches b_lower b_upper position).
Proof.
  unfold reaches, positive_overlap.
  destruct (Summary.price_lower_afterdecimals position),
           (Summary.price_upper_afterdecimals position); apply _.
Defined.




Lemma distribute_accepted (position : Summary.t) (bins : list Bin.t) :
  accepted position ->
  distribute_position_to_bins position bins = map (position_to_bin position) bins.
Proof.
  intros Hacc.
  destruct (accepted_bounds position Hacc) as (lo & hi & Hlo & Hhi & _ & Hlt & _).
  rewrite (distribute_position_to_bins_map position bins lo hi) by (auto; lra).
  unfold position_to_bin. rewrite Hlo, Hhi. reflexivity.
Qed.

Lemma foldl_distribute_accepted (valid : list Summary.t) (bins : list Bin.t) :
  Forall accepted valid ->
  foldl (fun bins position => distribute_position_to_bins position bins) bins valid
  = map (fun bin => foldl (fun bin position => position_to_bin position bin) bin valid)
        bins.
Proof.
  intros Hall. revert bins.
  induction Hall as [|position valid Hacc Hall IH]; intros bins; simpl.
  - symmetry. apply map_id.
  - rewrite IH, distribute_accepted by exact Hacc. apply map_map.
Qed.










End bin_contents.

(** ** Addresses *)

Section addresses.
Import parser.

Lemma lower_ascii_idempotent (c : ascii) : lower_ascii (lower_ascii c) = lower_ascii c.
Proof.
  destruct c as [[] [] [] [] [] [] [] []]; vm_compute; reflexivity.
Qed.

Lemma py_lower_idempotent (s : string) : py_lower (py_lower s) = py_lower s.
Proof.
  induction s as [|c s IH]; simpl; [reflexivity|].
  rewrite lower_ascii_idempotent, IH. reflexivity.
Qed.

Lemma py_lower_empty (s : string) : py_lower s = "" -> s = "".
Proof. destruct s; [reflexivity | discriminate]. Qed.

(** X11. Normalising an address a second time changes nothing, and the
    two tracked addresses are in normal form: comparing normalised addresses
    compares addresses without regard to the case of their letters. *)
Theorem normalize_address_idempotent (address : string) :
  normalize_address (normalize_address address) = normalize_address address /\
  normalize_address WETH_ADDRESS = WETH_ADDRESS /\
  normalize_address USDT_ADDRESS = USDT_ADDRESS.
Proof.
  split; [|split; reflexivity].
  unfold normalize_address.
  destruct (bool_decide (address = "")) eqn:Hempty; [reflexivity|].
  apply bool_decide_eq_false in Hempty.
  rewrite bool_decide_eq_false_2
    by (intros Hl; apply Hempty, py_lower_empty; exact Hl).
  apply py_lower_idempotent.
Qed.

End addresses.

(** ** Mint records of the tracked pair *)

Section mint_pair.
Import parser.

(** X12. A mint record that yields a position is of the tracked pair, in
    one order or the other.  With WETH as token0 the prices are adjusted
    with the decimals (18, 6), [amount0] is the WETH amount and [amount1]
    the USDT amount; with USDT as token0 the decimals are (6, 18) and the
    two amounts are swapped.  The unadjusted prices are those of the two
    ticks. *)
Theorem extract_position_data_pair (position : Call.t) (parsed : Mint.t) :
  extract_position_data position = Ok (Some parsed) ->
  calculate_price_from_tick (Mint.tick_lower parsed) = Ok (Mint.price_lower parsed) /\
  calculate_price_from_tick (Mint.tick_upper parsed) = Ok (Mint.price_upper parsed) /\
  ((Mint.token0 parsed = Some WETH_ADDRESS /\
    Mint.token1 parsed = Some USDT_ADDRESS /\
    calculate_price_with_decimals (Mint.tick_lower parsed) 18 6
      = Ok (Mint.price_lower_afterdecimals parsed) /\
    calculate_price_with_decimals (Mint.tick_upper parsed) 18 6
      = Ok (Mint.price_upper_afterdecimals parsed) /\
    after_decimals (Mint.amount0 parsed) 18 = Ok (Mint.amount_weth parsed) /\
    after_decimals (Mint.amount1 parsed) 6 = Ok (Mint.amount_usdt parsed)) \/
   (Mint.token0 parsed = Some USDT_ADDRESS /\
    Mint.token1 parsed = Some WETH_ADDRESS /\
    calculate_price_with_decimals (Mint.tick_lower parsed) 6 18
      = Ok (Mint.price_lower_afterdecimals parsed) /\
    calculate_price_with_decimals (Mint.tick_upper parsed) 6 18
      = Ok (Mint.price_upper_afterdecimals parsed) /\
    after_decimals (Mint.amount1 parsed) 18 = Ok (Mint.amount_weth parsed) /\
    after_decimals (Mint.amount0 parsed) 6 = Ok (Mint.amount_usdt parsed))).
Proof.
  intros Hparsed.
  apply extract_position_data_body_Some in Hparsed as Hbody.
  clear Hparsed. unfold extract_position_data_body in Hbody. cbv zeta in Hbody.
  destruct (_ <? 2)%nat; [discriminate|].
  destruct (scan_tokens _) as [token0_address token1_address].
  change (normalize_address WETH_ADDRESS) with WETH_ADDRESS in Hbody.
  change (normalize_address USDT_ADDRESS) with USDT_ADDRESS in Hbody.
  destruct (negb _) eqn:Hpair; [discriminate|].
  apply negb_false_iff, andb_true_iff in Hpair as [Hweth Husdt].
  destruct (scan_ticks _) as [[tick_lower tick_upper]|e1]; simpl in Hbody; [|discriminate].
  destruct (scan_returns_by_name _) as [[[nft_id amount0] amount1]|e1];
    simpl in Hbody; [|discriminate].
  match type of Hbody with
  | context [if ?c then scan_returns_by_index 2 3 amount0 amount1 ?r else ?o] =>
      destruct (if c then scan_returns_by_index 2 3 amount0 amount1 r else o)
        as [[amount0' amount1']|e1]
  end; simpl in Hbody; [|discriminate].
  destruct tick_lower, tick_upper, nft_id,
    (match Call.Block_Time position with
     | Some time => Some time
     | None => Call.Transaction_Time position
     end); try discriminate.
  apply orb_true_iff in Hweth, Husdt.
  rewrite !bool_decide_eq_true in Hweth, Husdt.
  unfold WETH_DECIMALS, USDT_DECIMALS in Hbody.
  destruct (bool_decide (token0_address = Some WETH_ADDRESS)) eqn:H0.
  - apply bool_decide_eq_true in H0. subst token0_address.
    destruct Husdt as [Hu|Hu]; [discriminate|]. subst token1_address.
    cbv beta iota in Hbody. float_values Hbody.
    injection Hbody as <-. cbn. split; [assumption|]. split; [assumption|].
    left. repeat split; assumption.
  - apply bool_decide_eq_false in H0.
    destruct Hweth as [Hw|Hw]; [contradiction|]. subst token1_address.
    destruct Husdt as [Hu|Hu]; [|discriminate]. subst token0_address.
    rewrite bool_decide_eq_true_2 in Hbody by reflexivity.
    cbv beta iota in Hbody. float_values Hbody.
    injection Hbody as <-. cbn. split; [assumption|]. split; [assumption|].
    right. repeat split; assumption.
Qed.

Definition usdt_first_mint : Call.t :=
  {| Call.Arguments :=
       [address_arg 0 "0xdAC17F958D2ee523a2206206994597C13D831ec7";
        address_arg 1 "0xC02aaA39b223FE8D0A0e5C4F27eAD9083C756Cc2";
        integer_arg 2 3000; integer_arg 3 (-4); integer_arg 4 6];
     Call.Returns := [integer_return "tokenId" 77; integer_return "liquidity" 9;
                      integer_return "amount0" 2500000; integer_return "amount1" 3];
     Call.Signature_Name := "mint";
     Call.Block_Time := None;
     Call.Transaction_Time := Some "2024-02-02T00:00:00Z";
     Call.Log := false |}.

Definition usdt_first_position : Mint.t :=
  match extract_position_data usdt_first_mint with
  | Ok (Some parsed) => parsed
  | _ =>
      {| Mint.nft_id := 0; Mint.tick_lower := 0; Mint.tick_upper := 0;
         Mint.timestamp := ""; Mint.token0 := None; Mint.token1 := None;
         Mint.price_lower := 0; Mint.price_upper := 0;
         Mint.price_lower_afterdecimals := 0; Mint.price_upper_afterdecimals := 0;
         Mint.amount0 := None; Mint.amount1 := None;
         Mint.amount0_afterdecimals := None; Mint.amount1_afterdecimals := None;
         Mint.amount_weth := None; Mint.amount_usdt := None |}
  end.

Lemma extract_position_data_pair_witness :
  calculate_price_from_tick (Mint.tick_lower usdt_first_position)
  = Ok (Mint.price_lower usdt_first_position).
Proof.
  apply (proj1 (extract_position_data_pair usdt_first_mint usdt_first_position
                  ltac:(vm_compute; reflexivity))).
Defined.

(** [extract_position_data] raises on the record. *)
Definition extracted_raises (position : Call.t) : Prop :=
  exists e, extract_position_data position = Raise e.

Lemma extract_position_data_raises (position : Call.t) (e : Exn) :
  extract_position_data position = Raise e -> is_OverflowError e.
Proof.
  unfold extract_position_data.
  destruct (extract_position_data_body position) as [parsed|e'] eqn:Hbody;
    [discriminate|].
  apply extract_position_data_body_raise in Hbody as [[msg ->]|[msg ->]];
    [discriminate|].
  intros H. injection H as <-. eexists. reflexivity.
Qed.

(** The position of a record, if it has one. *)
Definition extracted (position : Call.t) : option Mint.t :=
  match extract_position_data position with
  | Ok parsed => parsed
  | Raise _ => None
  end.

(** The loop of [parse_positions], from the positions found so far. *)
Definition parse_positions_from (positions : list Mint.t) (calls : list Call.t)
    : result (list Mint.t) :=
  foldl_result (fun positions position =>
                  parsed ← extract_position_data position;
                  match parsed with
                  | Some parsed => Ok (positions ++ [parsed])
                  | None => Ok positions
                  end)
               positions calls.

Lemma parse_positions_from_returns (calls : list Call.t) (positions : list Mint.t) :
  Forall (fun position => ~ extracted_raises position) calls ->
  parse_positions_from positions calls = Ok (positions ++ omap extracted calls).
Proof.
  intros Hall. revert positions.
  induction Hall as [|position calls Hposition _ IH]; intros positions;
    unfold parse_positions_from in *; cbn [foldl_result].
  - simpl. rewrite app_nil_r. reflexivity.
  - change (omap extracted (position :: calls))
      with (match extracted position with
            | Some parsed => parsed :: omap extracted calls
            | None => omap extracted calls
            end).
    unfold extracted at 1.
    destruct (extract_position_data position) as [[parsed|]|e] eqn:Hrun;
      cbn [mbind result_bind].
    + rewrite IH, <- app_assoc. reflexivity.
    + apply IH.
    + exfalso. apply Hposition. exists e. exact Hrun.
Qed.

Lemma parse_positions_from_raises (before after : list Call.t) (position : Call.t)
    (e : Exn) (positions : list Mint.t) :
  Forall (fun position => ~ extracted_raises position) before ->
  extract_position_data position = Raise e ->
  parse_positions_from positions (before ++ position :: after) = Raise e.
Proof.
  intros Hbefore Hraise. revert positions.
  induction Hbefore as [|first before Hfirst _ IH]; intros positions;
    unfold parse_positions_from in *; cbn [app foldl_result].
  - rewrite Hraise. reflexivity.
  - destruct (extract_position_data first) as [[parsed|]|e'] eqn:Hrun;
      cbn [mbind result_bind]; [apply IH | apply IH |].
    exfalso. apply Hfirst. exists e'. exact Hrun.
Qed.

(** X13. [parse_positions] returns the positions of the records that
    yield one, in the order of the records; a record that yields none,
    malformed or of another pair, is passed over and does not stop the
    others from being read.  But one record on which [extract_position_data]
    raises, by the [OverflowError] of a float operation, loses the whole
    answer: [parse_positions] raises that error, whatever the other records
    are. *)
Theorem parse_positions_omap (response_data : ResponseData) :
  let calls := calls_of response_data in
  (Forall (fun position => ~ extracted_raises position) calls ->
   parse_positions response_data = Ok (omap extracted calls) /\
   (length (omap extracted calls) <= length calls)%nat) /\
  (forall before position after e,
     calls = before ++ position :: after ->
     Forall (fun position => ~ extracted_raises position) before ->
     extract_position_data position = Raise e ->
     parse_positions response_data = Raise e /\ is_OverflowError e).
Proof.
  intros calls. split.
  - intros Hall. split.
    + apply (parse_positions_from_returns calls []). exact Hall.
    + clear. induction calls as [|position calls IH]; [reflexivity|].
      change (omap extracted (position :: calls))
        with (match extracted position with
              | Some parsed => parsed :: omap extracted calls
              | None => omap extracted calls
              end).
      destruct (extracted position); simpl; lia.
  - intros before position after e Hcalls Hbefore Hraise.
    split; [|apply (extract_position_data_raises position); exact Hraise].
    unfold parse_positions. fold calls. rewrite Hcalls.
    apply (parse_positions_from_raises before after position e []); assumption.
Qed.

(** A mint of the tracked pair whose upper tick is beyond the doubles. *)
Definition overflowing_mint : Call.t :=
  {| Call.Arguments :=
       [address_arg 0 "0xC02aaA39b223FE8D0A0e5C4F27eAD9083C756Cc2";
        address_arg 1 "0xdAC17F958D2ee523a2206206994597C13D831ec7";
        integer_arg 2 3000; integer_arg 3 (-4); integer_arg 4 8000000];
     Call.Returns := [integer_return "tokenId" 78; integer_return "liquidity" 9;
                      integer_return "amount0" 1; integer_return "amount1" 3];
     Call.Signature_Name := "mint";
     Call.Block_Time := Some "2024-02-03T00:00:00Z";
     Call.Transaction_Time := None;
     Call.Log := false |}.

Example parse_positions_overflowing :
  parse_positions (RespDict [] [usdt_first_mint; overflowing_mint])
  = Raise (OverflowError "(34, 'Numerical result out of range')").
Proof. vm_compute. reflexivity. Qed.

End mint_pair.

(** ** The tally of the liquidity events *)

Section liquidity_tally.
Import parser.

(** The position named by an event: its first argument of index 0, when
    that holds an integer. *)
Definition named_position (event : Call.t) : result (option (Z * Z * Z)) :=
  match List.find (fun arg => bool_decide (Arg.Index arg = Some 0%Z))
                  (Call.Arguments event) with
  | Some arg =>
      match AbiValue.bigInteger (Arg.Value arg) with
      | Some text => nft_id ← py_int text; Ok (Some (nft_id, 0, 0)%Z)
      | None => Ok None
      end
  | None => Ok None
  end.

Lemma process_event_contribution (nft_data : gmap Z Delta.t) (event : Call.t) :
  process_event nft_data event = c ← named_position event; Ok (contribute c nft_data).
Proof.
  unfold process_event, named_position.
  destruct (List.find _ _) as [arg|]; [|reflexivity].
  destruct (AbiValue.bigInteger (Arg.Value arg)) as [text|]; [|reflexivity].
  destruct (py_int text) as [nft_id|e]; simpl; [|reflexivity].
  unfold add_delta. repeat f_equal; lia.
Qed.

(** What a record adds to the tally, if it adds anything. *)
Definition move_of (contribution : Call.t -> result (option (Z * Z * Z)))
    (record : Call.t) : option (Z * Z * Z) :=
  match contribution record with
  | Ok move => move
  | Raise _ => None
  end.

Definition apply_move (nft_data : gmap Z Delta.t) (move : Z * Z * Z) : gmap Z Delta.t :=
  add_delta move.1.1 move.1.2 move.2 nft_data.

Lemma foldl_result_moves
    (step : gmap Z Delta.t -> Call.t -> result (gmap Z Delta.t))
    (contribution : Call.t -> result (option (Z * Z * Z)))
    (records : list Call.t) (nft_data nft_data' : gmap Z Delta.t) :
  (forall nft_data record,
     step nft_data record = c ← contribution record; Ok (contribute c nft_data)) ->
  foldl_result step nft_data records = Ok nft_data' ->
  nft_data' = foldl apply_move nft_data (omap (move_of contribution) records).
Proof.
  intros Hstep. revert nft_data.
  induction records as [|record records IH]; intros nft_data Hrun; simpl in Hrun.
  - injection Hrun as <-. reflexivity.
  - rewrite Hstep in Hrun.
    change (omap (move_of contribution) (record :: records))
      with (match move_of contribution record with
            | Some move => move :: omap (move_of contribution) records
            | None => omap (move_of contribution) records
            end).
    unfold move_of at 1.
    destruct (contribution record) as [[[[nft_id d0] d1]|]|e]; simpl in Hrun;
      [| |discriminate]; apply IH in Hrun; exact Hrun.
Qed.

Definition sum_Z (l : list Z) : Z := foldr Z.add 0%Z l.

(** The record of an identifier after the moves [mine], all of that
    identifier, were added to [d]. *)
Definition merge (d : Delta.t) (mine : list (Z * Z * Z)) : Delta.t :=
  {| Delta.count := Delta.count d + Z.of_nat (length mine);
     Delta.total_amount0 := Delta.total_amount0 d + sum_Z (map (fun move => move.1.2) mine);
     Delta.total_amount1 := Delta.total_amount1 d + sum_Z (map (fun move => move.2) mine) |}.

Lemma lookup_add_delta (i d0 d1 nft_id : Z) (nft_data : gmap Z Delta.t) :
  add_delta i d0 d1 nft_data !! nft_id
  = if decide (i = nft_id)
    then Some (merge (delta_of nft_data nft_id) [(i, d0, d1)])
    else nft_data !! nft_id.
Proof.
  unfold add_delta. destruct (decide (i = nft_id)) as [->|Hne].
  - rewrite lookup_insert_eq. unfold merge. simpl. repeat f_equal; lia.
  - apply lookup_insert_ne. exact Hne.
Qed.

Lemma lookup_foldl_moves (moves : list (Z * Z * Z)) (nft_data : gmap Z Delta.t)
    (nft_id : Z) :
  let mine := filter (fun move => move.1.1 = nft_id) moves in
  foldl apply_move nft_data moves !! nft_id
  = if decide (mine = []) then nft_data !! nft_id
    else Some (merge (delta_of nft_data nft_id) mine).
Proof.
  revert nft_data. induction moves as [|[[i d0] d1] moves IH]; intros nft_data; cbn zeta.
  - reflexivity.
  - cbn [foldl]. rewrite IH. clear IH.
    change (apply_move nft_data (i, d0, d1)) with (add_delta i d0 d1 nft_data).
    rewrite filter_cons. cbn [fst snd].
    unfold delta_of at 1. rewrite !lookup_add_delta.
    destruct (decide (i = nft_id)) as [->|Hne].
    + rewrite (decide_False (P := _ :: _ = [])) by discriminate.
      destruct (decide (filter _ moves = [])) as [->|Hsome].
      * reflexivity.
      * f_equal. unfold merge. cbn [default from_option id length map sum_Z foldr fst snd
          Delta.count Delta.total_amount0 Delta.total_amount1].
        fold (sum_Z (map (fun move : Z * Z * Z => move.1.2)
                       (filter (fun move : Z * Z * Z => move.1.1 = nft_id) moves))).
        fold (sum_Z (map (fun move : Z * Z * Z => move.2)
                       (filter (fun move : Z * Z * Z => move.1.1 = nft_id) moves))).
        f_equal; lia.
    + destruct (decide (filter _ moves = [])); reflexivity.
Qed.

(** X14. The mapping returned by [parse_liquidity_events] holds, for each
    identifier, the tally of the records that name it: as count the number
    of these records, events and increase or decrease calls alike, and as
    totals the sums of what the calls move, an increase adding its amounts
    and a decrease taking them away, an event moving nothing.  An
    identifier that no record names is absent. *)
Theorem parse_liquidity_events_tally
    (events calls : list Call.t) (nft_data : gmap Z Delta.t) :
  parse_liquidity_events (RespDict events calls) = Ok nft_data ->
  let moves := omap (move_of named_position) events ++ omap (move_of contribution) calls in
  forall nft_id : Z,
    let mine := filter (fun move => move.1.1 = nft_id) moves in
    nft_data !! nft_id
    = if decide (mine = []) then None
      else Some {| Delta.count := Z.of_nat (length mine);
                   Delta.total_amount0 := sum_Z (map (fun move => move.1.2) mine);
                   Delta.total_amount1 := sum_Z (map (fun move => move.2) mine) |}.
Proof.
  intros Hrun moves nft_id mine.
  unfold parse_liquidity_events in Hrun. cbn [events_and_calls] in Hrun.
  destruct (foldl_result process_event ∅ events) as [after_events|e] eqn:Hevents;
    [|discriminate].
  cbn [mbind result_bind] in Hrun.
  apply (foldl_result_moves _ named_position) in Hevents;
    [|apply process_event_contribution].
  apply (foldl_result_moves _ contribution) in Hrun;
    [|apply process_call_contribution].
  subst after_events. rewrite <- foldl_app in Hrun. fold moves in Hrun.
  subst nft_data. rewrite lookup_foldl_moves. fold mine.
  destruct (decide (mine = [])); [apply lookup_empty|].
  unfold merge, delta_of. rewrite lookup_empty. reflexivity.
Qed.

Definition liquidity_event (nft_id : Z) : Call.t :=
  {| Call.Arguments := [integer_arg 0 nft_id; integer_arg 1 500];
     Call.Returns := [];
     Call.Signature_Name := "";
     Call.Block_Time := None;
     Call.Transaction_Time := None;
     Call.Log := true |}.

Definition event_tally : gmap Z Delta.t :=
  {[ 7%Z := {| Delta.count := 3; Delta.total_amount0 := 70; Delta.total_amount1 := 15 |} ]}.

Lemma parse_liquidity_events_tally_witness :
  event_tally !! 7%Z
  = Some {| Delta.count := 3; Delta.total_amount0 := 70; Delta.total_amount1 := 15 |}.
Proof.
  exact (parse_liquidity_events_tally
           [liquidity_event 7]
           [liquidity_call "increaseLiquidity" 7 100 20;
            liquidity_call "decreaseLiquidity" 7 30 5]
           event_tally ltac:(vm_compute; reflexivity) 7%Z).
Defined.

End liquidity_tally.

(** ** The final summary *)

Section final_summary.
Import outlier_service parser.

(** Whether the summary takes token0 of the position for WETH. *)
Definition weth_is_token0 (position : Mint.t) : bool :=
  bool_decide (normalize_address (default "" (Mint.token0 position))
               = normalize_address WETH_ADDRESS).

(** The entry of the summary made from a mint position and the tally of
    its liquidity events, before it is validated. *)
Definition summary_entry (liquidity_data : gmap Z Delta.t) (position : Mint.t)
    : result Summary.t :=
  let d := delta_of liquidity_data (Mint.nft_id position) in
  let total_amount0 := (int_or_zero (Mint.amount0 position) + Delta.total_amount0 d)%Z in
  let total_amount1 := (int_or_zero (Mint.amount1 position) + Delta.total_amount1 d)%Z in
  let '(decimal0, decimal1) :=
    if weth_is_token0 position then (WETH_DECIMALS, USDT_DECIMALS)
    else (USDT_DECIMALS, WETH_DECIMALS) in
  amount0 ← py_truediv total_amount0 (10 ^ decimal0);
  amount1 ← py_truediv total_amount1 (10 ^ decimal1);
  Ok {| Summary.nft_id := Some (Mint.nft_id position);
        Summary.create_time := Mint.timestamp position;
        Summary.number_of_positions := 1 + Delta.count d;
        Summary.price_lower_afterdecimals :=
          Some (Mint.price_lower_afterdecimals position);
        Summary.price_upper_afterdecimals :=
          Some (Mint.price_upper_afterdecimals position);
        Summary.amount_weth := Some (if weth_is_token0 position then amount0 else amount1);
        Summary.amount_usdt := Some (if weth_is_token0 position then amount1 else amount0) |}.

Lemma summary_entry_raise (liquidity_data : gmap Z Delta.t) (position : Mint.t) (e : Exn) :
  summary_entry liquidity_data position = Raise e -> is_OverflowError e.
Proof.
  unfold summary_entry. cbv zeta.
  destruct (weth_is_token0 position); cbv beta iota;
    repeat match goal with
           | |- context [py_truediv ?a ?b] =>
               let Hdiv := fresh "Hdiv" in
               destruct (py_truediv a b) eqn:Hdiv; cbn [mbind result_bind];
               [|intros H; injection H as <-;
                 apply (py_truediv_raise a b); [discriminate | exact Hdiv]]
           end; discriminate.
Qed.

Lemma accepted_amounts_valid (position : Summary.t) (min_reasonable max_reasonable : Q) :
  validate_position_prices position min_reasonable max_reasonable = true ->
  validate_amounts (Summary.amount_weth position) (Summary.amount_usdt position) = true.
Proof.
  unfold validate_position_prices.
  destruct (Summary.price_lower_afterdecimals position); [|discriminate].
  destruct (Summary.price_upper_afterdecimals position); [|discriminate].
  destruct (validate_amounts _ _); [reflexivity|]. cbn [negb].
  repeat match goal with |- context [if ?c then _ else _] => destruct c end; auto.
Qed.

(** The loop of [create_final_summary], from the entries kept so far. *)
Definition create_final_summary_from (summary : list Summary.t)
    (mint_positions : list Mint.t) (liquidity_data : gmap Z Delta.t)
    : result (list Summary.t) :=
  entries ← mapM (summary_entry liquidity_data) mint_positions;
  Ok (summary ++ filter accepted entries).

Lemma create_final_summary_filter
    (mint_positions : list Mint.t) (liquidity_data : gmap Z Delta.t) :
  create_final_summary mint_positions liquidity_data
  = create_final_summary_from [] mint_positions liquidity_data.
Proof.
  unfold create_final_summary, create_final_summary_from.
  match goal with
  | |- foldl_result ?body _ _ = _ =>
      assert (forall summary,
                foldl_result body summary mint_positions
                = (entries ← mapM (summary_entry liquidity_data) mint_positions;
                   Ok (summary ++ filter accepted entries))) as Hloop;
        [|apply Hloop]
  end.
  induction mint_positions as [|position mint_positions IH]; intros summary.
  - cbn. rewrite app_nil_r. reflexivity.
  - cbn [foldl_result mapM].
    match goal with
    | |- (?step ≫= _) = _ =>
        assert (step = (entry ← summary_entry liquidity_data position;
                        Ok (summary ++ filter accepted [entry]))) as ->
    end.
    { cbv zeta. fold (weth_is_token0 position). unfold summary_entry. cbv zeta.
      destruct (weth_is_token0 position); cbv beta iota;
        repeat match goal with
               | |- context [py_truediv ?a ?b] =>
                   destruct (py_truediv a b); cbn [mbind result_bind]
               end;
        try reflexivity;
        match goal with
        | |- context [validate_position_prices ?entry _ _] =>
            pose proof (accepted_amounts_valid entry MIN_REASONABLE_PRICE
                          MAX_REASONABLE_PRICE) as Hamounts;
            cbn [Summary.amount_weth Summary.amount_usdt] in Hamounts;
            destruct (validate_position_prices entry MIN_REASONABLE_PRICE
                        MAX_REASONABLE_PRICE) eqn:Haccepted
        end;
        try (rewrite (Hamounts eq_refl); cbn [negb]);
        try (destruct (negb _)); cbn [negb];
        first [ rewrite filter_cons_True by exact Haccepted; reflexivity
              | rewrite filter_cons_False
                  by (unfold accepted; rewrite Haccepted; discriminate);
                rewrite filter_nil, app_nil_r; reflexivity ]. }
    destruct (summary_entry liquidity_data position) as [entry|e];
      cbn [mbind result_bind]; [|reflexivity].
    rewrite IH.
    destruct (mapM (summary_entry liquidity_data) mint_positions) as [entries|e];
      cbn [mbind result_bind mret result_ret]; [|reflexivity].
    rewrite <- app_assoc. f_equal. f_equal.
    destruct (decide (accepted entry)) as [Hacc|Hacc].
    + rewrite !filter_cons_True by exact Hacc. reflexivity.
    + rewrite !filter_cons_False by exact Hacc. reflexivity.
Qed.

Lemma mapM_summary_entry_raise (mint_positions : list Mint.t)
    (liquidity_data : gmap Z Delta.t) (e : Exn) :
  mapM (summary_entry liquidity_data) mint_positions = Raise e -> is_OverflowError e.
Proof.
  induction mint_positions as [|position mint_positions IH]; [discriminate|].
  cbn [mapM].
  destruct (summary_entry liquidity_data position) as [entry|e'] eqn:Hentry;
    cbn [mbind result_bind].
  - destruct (mapM (summary_entry liquidity_data) mint_positions) as [entries|e'];
      cbn [mbind result_bind]; [discriminate|].
    intros H. injection H as <-. apply IH. reflexivity.
  - intros H. injection H as <-. eapply summary_entry_raise. exact Hentry.
Qed.

Lemma mapM_summary_entry_Ok (mint_positions : list Mint.t)
    (liquidity_data : gmap Z Delta.t) (entries : list Summary.t) :
  mapM (summary_entry liquidity_data) mint_positions = Ok entries ->
  Forall2 (fun position entry => summary_entry liquidity_data position = Ok entry)
          mint_positions entries.
Proof.
  revert entries. induction mint_positions as [|position mint_positions IH];
    intros entries; cbn [mapM].
  - intros H. injection H as <-. constructor.
  - destruct (summary_entry liquidity_data position) as [entry|e] eqn:Hentry;
      cbn [mbind result_bind]; [|discriminate].
    destruct (mapM (summary_entry liquidity_data) mint_positions) as [rest|e];
      cbn [mbind result_bind]; [|discriminate].
    intros H. injection H as <-. constructor; [exact Hentry | apply IH; reflexivity].
Qed.

(** What [create_final_summary] returns, and what it raises. *)
Lemma create_final_summary_cases
    (mint_positions : list Mint.t) (liquidity_data : gmap Z Delta.t) :
  match create_final_summary mint_positions liquidity_data with
  | Ok final_summary =>
      exists entries,
        Forall2 (fun position entry => summary_entry liquidity_data position = Ok entry)
                mint_positions entries /\
        final_summary = filter accepted entries
  | Raise e => is_OverflowError e
  end.
Proof.
  rewrite create_final_summary_filter. unfold create_final_summary_from.
  destruct (mapM (summary_entry liquidity_data) mint_positions) as [entries|e] eqn:Hentries;
    cbn [mbind result_bind].
  - exists entries. split; [apply mapM_summary_entry_Ok; exact Hentries | reflexivity].
  - eapply mapM_summary_entry_raise. exact Hentries.
Qed.

(** X15. Every entry of the final summary passes the outlier filter of the
    binning engine, which therefore keeps the whole summary and rejects
    nothing; the engine returns bins for it as soon as the summary is not
    empty and the number of bins is not 0.  When [create_final_summary]
    does not return, it raises the [OverflowError] of a division. *)
Theorem create_final_summary_accepted
    (mint_positions : list Mint.t) (liquidity_data : gmap Z Delta.t) (num_bins : Z) :
  match create_final_summary mint_positions liquidity_data with
  | Ok final_summary =>
      Forall accepted final_summary /\
      filter_valid_positions final_summary MIN_REASONABLE_PRICE MAX_REASONABLE_PRICE
        = (final_summary, []) /\
      (final_summary <> [] -> num_bins <> 0%Z ->
       exists bins,
         bin_service.create_bins_from_data final_summary num_bins None None = Ok bins) /\
      (final_summary = [] ->
       bin_service.create_bins_from_data final_summary num_bins None None
       = Raise (ValueError "No positions provided"))
  | Raise e => is_OverflowError e
  end.
Proof.
  pose proof (create_final_summary_cases mint_positions liquidity_data) as Hcases.
  destruct (create_final_summary mint_positions liquidity_data) as [final_summary|e];
    [|exact Hcases].
  destruct Hcases as (entries & _ & Hsummary).
  assert (Forall accepted final_summary) as Hall
    by (rewrite Hsummary; apply Forall_accepted_filter).
  assert (filter accepted final_summary = final_summary) as Hkeep
    by (apply filter_all; exact Hall).
  split; [exact Hall|]. split; [|split].
  - rewrite filter_valid_positions_filter, Hkeep. f_equal.
    apply filter_none. eapply Forall_impl; [exact Hall|]. auto.
  - intros Hsome Hn.
    destruct (create_bins_from_data_steps final_summary num_bins)
      as (min_price & max_price & _ & _ & Hlt & _ & Hsteps);
      [rewrite Hkeep; exact Hsome|].
    rewrite Hsteps, create_bins_grid by assumption. eexists. reflexivity.
  - intros ->. reflexivity.
Qed.

(** X16. The entries of the final summary follow the order of the mint
    positions, one entry at most for each.  An entry carries the identifier,
    the time and the adjusted price bounds of its mint position, counts the
    mint and the liquidity events tallied for the identifier, and holds as
    amounts the mint amounts plus the net totals of the tally, divided by
    [10 ** 18] for WETH and [10 ** 6] for USDT, token0 being taken for WETH
    exactly when its address is the WETH address.  When
    [create_final_summary] does not return, it raises the [OverflowError]
    of one of these divisions. *)
Theorem create_final_summary_entries
    (mint_positions : list Mint.t) (liquidity_data : gmap Z Delta.t) :
  match create_final_summary mint_positions liquidity_data with
  | Ok final_summary =>
      (exists entries,
         Forall2 (fun position entry => summary_entry liquidity_data position = Ok entry)
                 mint_positions entries /\
         sublist final_summary entries) /\
      forall item, item ∈ final_summary ->
        exists position, position ∈ mint_positions /\
          let tally := delta_of liquidity_data (Mint.nft_id position) in
          let total_amount0 :=
            (int_or_zero (Mint.amount0 position) + Delta.total_amount0 tally)%Z in
          let total_amount1 :=
            (int_or_zero (Mint.amount1 position) + Delta.total_amount1 tally)%Z in
          Summary.nft_id item = Some (Mint.nft_id position) /\
          Summary.create_time item = Mint.timestamp position /\
          Summary.number_of_positions item = (1 + Delta.count tally)%Z /\
          Summary.price_lower_afterdecimals item
            = Some (Mint.price_lower_afterdecimals position) /\
          Summary.price_upper_afterdecimals item
            = Some (Mint.price_upper_afterdecimals position) /\
          exists amount_weth amount_usdt,
            Summary.amount_weth item = Some amount_weth /\
            Summary.amount_usdt item = Some amount_usdt /\
            if weth_is_token0 position
            then py_truediv total_amount0 (10 ^ 18) = Ok amount_weth /\
                 py_truediv total_amount1 (10 ^ 6) = Ok amount_usdt
            else py_truediv total_amount1 (10 ^ 18) = Ok amount_weth /\
                 py_truediv total_amount0 (10 ^ 6) = Ok amount_usdt
  | Raise e => is_OverflowError e
  end.
Proof.
  pose proof (create_final_summary_cases mint_positions liquidity_data) as Hcases.
  destruct (create_final_summary mint_positions liquidity_data) as [final_summary|e];
    [|exact Hcases].
  destruct Hcases as (entries & Hentries & ->).
  split; [exists entries; split; [exact Hentries | apply sublist_filter]|].
  intros item Hitem. apply list_elem_of_filter in Hitem as [_ Hitem].
  apply list_elem_of_lookup in Hitem as [i Hi].
  destruct (Forall2_lookup_r _ _ _ _ _ Hentries Hi) as (position & Hposition & Hentry).
  exists position. split; [eapply list_elem_of_lookup_2; exact Hposition|]. cbv zeta.
  unfold summary_entry in Hentry. cbv zeta in Hentry.
  unfold WETH_DECIMALS, USDT_DECIMALS in Hentry.
  destruct (weth_is_token0 position); cbv beta iota in Hentry;
    repeat match type of Hentry with
           | context [py_truediv ?a ?b] =>
               let Hdiv := fresh "Hdiv" in
               destruct (py_truediv a b) eqn:Hdiv; cbn [mbind result_bind] in Hentry;
               [|discriminate Hentry]
           end;
    injection Hentry as <-; cbn; repeat split; eexists _, _; repeat split.
Qed.

End final_summary.

(** ** The volume queries of the recommender *)

Section volume_queries.
Import bitquery_service recommender_service.

(** The query sent for a band: none when one of its bounds is not
    positive. *)
Definition volume_query (start_date end_date : Time) (b : Bin.t) : option Request :=
  if Qltb 0 (Bin.priceLower b) && Qltb 0 (Bin.priceUpper b)
  then Some (VolumeRequest (Bin.priceLower b) (Bin.priceUpper b) start_date end_date)
  else None.

(** The volume read from the answer to the last of the queries [sent]. *)
Definition volume_answer (upstream : Upstream.t) (sent : list Request) : Q :=
  let response := Upstream.post_volume upstream sent in
  if (Http.status_code response =? 200)%Z
  then parser.parse_trading_volume (Http.json response)
  else 0.

(** The volumes given to bands of the given contents, one after the other,
    [sent] being the queries sent before. *)
Fixpoint volumes_of (upstream : Upstream.t) (start_date end_date : Time)
    (sent : list Request) (contents : list Bin.t) : list Q :=
  match contents with
  | [] => []
  | b :: contents =>
      match volume_query start_date end_date b with
      | Some request =>
          volume_answer upstream (sent ++ [request])
          :: volumes_of upstream start_date end_date (sent ++ [request]) contents
      | None => 0 :: volumes_of upstream start_date end_date sent contents
      end
  end.

Lemma attach_volume_exact (w : World.t) (start_date end_date : Time) (band : loc)
    (b : Bin.t) :
  World.heap w !! band = Some b ->
  let sent := World.trace w ++ option_list (volume_query start_date end_date b) in
  let volume := from_option (fun _ => volume_answer (World.upstream w) sent) 0
                            (volume_query start_date end_date b) in
  exists w',
    attach_volume fetch_trading_volume start_date end_date band w = (w', Ok tt) /\
    World.upstream w' = World.upstream w /\
    World.cache w' = World.cache w /\
    World.ticks w' = World.ticks w /\
    World.trace w' = sent /\
    World.heap w' = <[band := with_volume volume b]> (World.heap w).
Proof.
  intros Hband sent volume. subst sent volume. unfold attach_volume, volume_query.
  erewrite run_bind by (apply load_points; exact Hband). cbv zeta.
  destruct (Qltb 0 (Bin.priceLower b) && Qltb 0 (Bin.priceUpper b)).
  - unfold fetch_trading_volume, post, update, mbind, M_bind, volume_answer. simpl.
    destruct (Http.status_code _ =? 200)%Z; simpl; rewrite Hband;
      eexists; repeat split.
  - unfold update. rewrite Hband. simpl. rewrite app_nil_r.
    eexists; repeat split.
Qed.

Lemma for_each_attach_volume_exact (w : World.t) (start_date end_date : Time)
    (bands : list loc) (contents : list Bin.t) :
  points_to w bands contents ->
  NoDup bands ->
  let volumes :=
    volumes_of (World.upstream w) start_date end_date (World.trace w) contents in
  exists w',
    for_each bands (attach_volume fetch_trading_volume start_date end_date) w
      = (w', Ok tt) /\
    World.upstream w' = World.upstream w /\
    World.cache w' = World.cache w /\
    World.ticks w' = World.ticks w /\
    World.trace w' = World.trace w ++ omap (volume_query start_date end_date) contents /\
    (forall l, l ∉ bands -> World.heap w' !! l = World.heap w !! l) /\
    points_to w' bands (zip_with with_volume volumes contents).
Proof.
  intros Hpoints. revert w Hpoints.
  induction contents as [|b contents IH] in bands |- *; intros w Hpoints Hnodup; cbn zeta.
  - apply Forall2_nil_inv_r in Hpoints as ->.
    exists w. simpl. rewrite app_nil_r. repeat split; constructor.
  - apply Forall2_cons_inv_r in Hpoints as (l & bands' & Hl & Hpoints & ->).
    apply NoDup_cons in Hnodup as [Hnotin Hnodup].
    destruct (attach_volume_exact w start_date end_date l b Hl)
      as (w1 & Hrun1 & Hup1 & Hcache1 & Hticks1 & Htrace1 & Hheap1).
    destruct (IH bands' w1) as (w' & Hrun & Hup & Hcache & Hticks & Htrace & Hothers & Hbands).
    { eapply points_to_insert_ne; eassumption. }
    { exact Hnodup. }
    exists w'. split; [|split; [|split; [|split; [|split; [|split]]]]].
    + simpl. erewrite run_bind by exact Hrun1. exact Hrun.
    + congruence.
    + congruence.
    + congruence.
    + rewrite Htrace, Htrace1, <- app_assoc. f_equal.
      change (omap (volume_query start_date end_date) (b :: contents))
        with (match volume_query start_date end_date b with
              | Some request => request :: omap (volume_query start_date end_date) contents
              | None => omap (volume_query start_date end_date) contents
              end).
      destruct (volume_query start_date end_date b); reflexivity.
    + intros k Hk. apply not_elem_of_cons in Hk as [Hkl Hk].
      rewrite (Hothers k Hk), Hheap1. apply lookup_insert_ne. congruence.
    + cbn [volumes_of]. rewrite Hup1, Htrace1 in Hbands.
      destruct (volume_query start_date end_date b) as [request|] eqn:Hquery;
        cbn [option_list from_option] in *; rewrite ?app_nil_r in *;
        (constructor; [|exact Hbands]);
        rewrite (Hothers l Hnotin), Hheap1; apply lookup_insert_eq.
Qed.



(** The run of [recommend_top_bands] with the volume fetcher, in full. *)
Lemma recommend_top_bands_sent (w : World.t) (bins : list loc)
    (contents : list Bin.t) (top_n : Z) :
  points_to w bins contents ->
  let end_date := Upstream.clock (World.upstream w) (World.ticks w) in
  let start_date := end_date - 24 * 3600 in
  let selected := top_bands top_n contents in
  let volumes :=
    volumes_of (World.upstream w) start_date end_date (World.trace w) selected in
  exists w' bands,
    recommend_top_bands bins top_n (Some fetch_trading_volume) w
      = (w', Ok {| Recommendations.top_liquidity_bands := bands;
                   Recommendations.metadata := None |}) /\
    World.upstream w' = World.upstream w /\
    World.trace w' = World.trace w ++ omap (volume_query start_date end_date) selected /\
    World.ticks w' = S (World.ticks w) /\
    World.cache w' = World.cache w /\
    World.heap w ⊆ World.heap w' /\
    Forall (fun l => World.heap w !! l = None) bands /\
    points_to w' bands (zip_with with_volume volumes selected).
Proof.
  intros Hpoints end_date start_date selected volumes.
  destruct (get_top_liquidity_bands_run w bins contents top_n Hpoints)
    as (w1 & bands & Hrun1 & Hgrows & Hbands & Hnodup & Hfresh).
  fold selected in Hbands.
  set (w2 := World.set_ticks (S (World.ticks w1)) w1).
  assert (World.upstream w1 = World.upstream w /\ World.cache w1 = World.cache w /\
          World.trace w1 = World.trace w /\ World.ticks w1 = World.ticks w)
    as (Hup1 & Hcache1 & Htrace1 & Hticks1).
  { destruct Hgrows as [_ ->]. repeat split. }
  destruct (for_each_attach_volume_exact w2 start_date end_date bands selected Hbands Hnodup)
    as (w' & Hrun2 & Hup & Hcache & Hticks & Htrace & Hothers & Hbands').
  cbn zeta in Hbands'.
  exists w', bands.
  split; [|split; [|split; [|split; [|split; [|split; [|split]]]]]].
  - unfold recommend_top_bands.
    erewrite run_bind by exact Hrun1.
    erewrite run_bind.
    2:{ erewrite run_bind by apply now_run. fold w2.
        rewrite Hup1, Hticks1. fold end_date start_date. exact Hrun2. }
    reflexivity.
  - rewrite Hup. simpl. exact Hup1.
  - rewrite Htrace. simpl. rewrite Htrace1. reflexivity.
  - rewrite Hticks. simpl. rewrite Hticks1. reflexivity.
  - rewrite Hcache. simpl. exact Hcache1.
  - apply map_subseteq_spec. intros l b Hl.
    rewrite Hothers.
    + destruct Hgrows as [Hsub _]. simpl. eapply lookup_weaken; eassumption.
    + intros Hin. rewrite Forall_forall in Hfresh. apply Hfresh in Hin. congruence.
  - exact Hfresh.
  - simpl in Hbands'. rewrite Hup1, Htrace1 in Hbands'. exact Hbands'.
Qed.



End volume_queries.

(** ** The request boundary *)

Section replies.
Import bitquery_service recommender_service app.

(** X18. A request whose two price bounds are given and inverted is
    answered with status 400 at once: the clock was read once, and nothing
    was asked of the service, of the cache or of the store. *)
Theorem api_recommendations_invalid_range (w : World.t) (args : Args.t) (lower upper : Q) :
  price_filter (Args.price_lower args) = Some lower ->
  price_filter (Args.price_upper args) = Some upper ->
  upper < lower ->
  api_recommendations args w
  = (World.set_ticks (S (World.ticks w)) w,
     Ok {| Reply.body :=
             ErrorDict "Invalid price range: lower price must be less than or equal to upper price";
           Reply.status := 400 |}).
Proof.
  intros Hlower Hupper Hlt. unfold api_recommendations.
  rewrite bind_now. cbv zeta. rewrite Hlower, Hupper.
  apply Qltb_lt in Hlt. rewrite Hlt. reflexivity.
Qed.

Definition inverted_request : Args.t :=
  {| Args.price_lower := Some (FloatLit 3000);
     Args.price_upper := Some (FloatLit 2000);
     Args.refresh := None |}.

Lemma api_recommendations_invalid_range_witness :
  (api_recommendations inverted_request warm_world).2
  = Ok {| Reply.body :=
            ErrorDict "Invalid price range: lower price must be less than or equal to upper price";
          Reply.status := 400 |}.
Proof.
  rewrite (api_recommendations_invalid_range warm_world inverted_request 3000 2000
             eq_refl eq_refl eq_refl).
  reflexivity.
Defined.

(** X19. The request boundary never lets an exception through: every
    request gets a reply.  A reply that carries recommendations has status
    200; an error reply has status 400, 500 or 404, and 404 only when its
    text lacks the word [fetching]. *)
Theorem api_recommendations_replies (w : World.t) (args : Args.t) :
  exists w' reply,
    api_recommendations args w = (w', Ok reply) /\
    match Reply.body reply with
    | Recommended _ => Reply.status reply = 200%Z
    | ErrorDict error =>
        Reply.status reply = 400%Z \/
        Reply.status reply = 500%Z \/
        (Reply.status reply = 404%Z /\ contains "fetching" (py_lower error) = false)
    end.
Proof.
  unfold api_recommendations. rewrite bind_now. cbv zeta.
  match goal with
  | |- context [if ?c then _ else _] => destruct c
  end.
  - eexists _, _. split; [reflexivity|]. simpl. auto.
  - unfold try_except.
    match goal with
    | |- context [(?m ≫= ?k) ?w1] =>
        unfold mbind at 1, M_bind at 1; destruct (m w1) as [w2 [result|e]]
    end.
    + destruct result as [error|recommendations].
      * eexists _, _. split; [reflexivity|]. simpl.
        destruct (contains "fetching" (py_lower error)) eqn:Hfetching; auto.
      * eexists _, _. split; [reflexivity|]. reflexivity.
    + eexists _, _. split; [reflexivity|]. simpl. auto.
Qed.

(** The cache holds a recommendation stamped less than ten minutes before
    the reading of the clock that follows the next one. *)
Definition holds_fresh (w : World.t) (data : Recommendations.t) : Prop :=
  exists timestamp,
    Cache.data (World.cache w) = Some data /\
    Cache.timestamp (World.cache w) = Some timestamp /\
    (Upstream.clock (World.upstream w) (S (World.ticks w)) - timestamp) / 60
      < CACHE_EXPIRATION_MINUTES.

(** X20. A request without price filter and without [refresh=true] that
    finds a recommendation stamped less than ten minutes ago is answered with
    that recommendation, as it is stored, and status 200: the clock was read
    three times, and nothing was asked of the service nor changed in the
    cache or in the store. *)
Theorem unfiltered_request_served_from_cache
    (w : World.t) (args : Args.t) (data : Recommendations.t) :
  price_filter (Args.price_lower args) = None ->
  price_filter (Args.price_upper args) = None ->
  Args.refresh args <> Some "true" ->
  holds_fresh w data ->
  api_recommendations args w
  = (World.set_ticks (3 + World.ticks w) w,
     Ok {| Reply.body := Recommended data; Reply.status := 200 |}).
Proof.
  intros Hlower Hupper Hrefresh (timestamp & Hdata & Hstamp & Hage).
  unfold api_recommendations. rewrite bind_now. cbv zeta.
  rewrite Hlower, Hupper. rewrite bool_decide_eq_false_2 by exact Hrefresh.
  cbn [negb]. unfold try_except, get_recommendations_data.
  replace (bool_decide (is_Some (@None Q))) with false
    by (symmetry; apply bool_decide_eq_false; intros [? H]; discriminate H).
  cbn [orb]. unfold mbind at 1, M_bind at 1.
  unfold get_cache at 1. unfold mbind at 1, M_bind at 1.
  cbn [World.cache World.set_ticks]. rewrite Hdata, Hstamp.
  rewrite bind_now. unfold cache_is_fresh.
  cbn [World.upstream World.ticks World.set_ticks].
  apply Qltb_lt in Hage. rewrite Hage. reflexivity.
Qed.

Definition stored_recommendation : Recommendations.t :=
  {| Recommendations.top_liquidity_bands := [2%positive];
     Recommendations.metadata := None |}.

Definition served_world : World.t :=
  {| World.upstream := unreachable;
     World.heap := {[ 1%positive := low_bin; 2%positive := high_bin ]};
     World.cache := {| Cache.bins := Some [1%positive];
                       Cache.data := Some stored_recommendation;
                       Cache.timestamp := Some 0;
                       Cache.total_positions := Some 4%Z |};
     World.trace := [];
     World.ticks := 500 |}.

Definition plain_request : Args.t :=
  {| Args.price_lower := None; Args.price_upper := Some (BadFloat "high");
     Args.refresh := Some "false" |}.

Lemma unfiltered_request_served_from_cache_witness :
  (api_recommendations plain_request served_world).2
  = Ok {| Reply.body := Recommended stored_recommendation; Reply.status := 200 |}.
Proof.
  rewrite (unfiltered_request_served_from_cache served_world plain_request
             stored_recommendation eq_refl eq_refl).
  - reflexivity.
  - discriminate.
  - exists 0. repeat split.
Defined.

End replies.

(** ** Bounds on the price of a tick *)

(** The price of a tick of the tracked pool is a power of 1.0001 with an
    exponent of some 200000: far too large a fraction to be computed, but
    easily enclosed by computing the power with every product rounded to a
    multiple of [2 ** -64], downwards for a lower bound and upwards for an
    upper bound. *)
Section power_bounds.

Definition grain : positive := 18446744073709551616.

Definition round_down (q : Q) : Q := Qfloor (q * inject_Z (Zpos grain)) # grain.
Definition round_up (q : Q) : Q := Qceiling (q * inject_Z (Zpos grain)) # grain.

Lemma grain_pos : 0 < inject_Z (Zpos grain).
Proof. reflexivity. Qed.

Lemma round_down_le (q : Q) : round_down q <= q.
Proof.
  unfold round_down. rewrite Qmake_Qdiv.
  apply Qle_shift_div_r; [exact grain_pos | apply Qfloor_le].
Qed.

Lemma round_up_ge (q : Q) : q <= round_up q.
Proof.
  unfold round_up. rewrite Qmake_Qdiv.
  apply Qle_shift_div_l; [exact grain_pos | apply Qle_ceiling].
Qed.

Lemma round_down_nonneg (q : Q) : 0 <= q -> 0 <= round_down q.
Proof.
  intros Hq. unfold round_down. rewrite (Qmake_Qdiv (Qfloor _) grain).
  apply Qle_shift_div_l; [exact grain_pos|]. rewrite Qmult_0_l.
  change 0 with (inject_Z 0). rewrite <- Zle_Qle.
  change 0%Z with (Qfloor 0). apply Qfloor_resp_le.
  apply Qmult_le_0_compat; [exact Hq | apply Qlt_le_weak, grain_pos].
Qed.

Fixpoint pow_down (x : Q) (i : positive) : Q :=
  match i with
  | xH => x
  | xO i => let p := pow_down x i in round_down (p * p)
  | xI i => let p := pow_down x i in round_down (x * round_down (p * p))
  end.

Fixpoint pow_up (x : Q) (i : positive) : Q :=
  match i with
  | xH => x
  | xO i => let p := pow_up x i in round_up (p * p)
  | xI i => let p := pow_up x i in round_up (x * round_up (p * p))
  end.

Lemma Qmult_le_compat_nonneg (a b c d : Q) :
  0 <= a -> a <= b -> 0 <= c -> c <= d -> a * c <= b * d.
Proof. intros. nra. Qed.

Lemma pow_down_le (x : Q) (i : positive) :
  0 <= x -> 0 <= pow_down x i /\ pow_down x i <= Qpower_positive x i.
Proof.
  intros Hx. induction i as [i [IH0 IH]|i [IH0 IH]|]; cbn [pow_down].
  - change (Qpower_positive x i~1)
      with (x * (Qpower_positive x i * Qpower_positive x i)).
    assert (0 <= pow_down x i * pow_down x i) as Hsq by (apply Qmult_le_0_compat; assumption).
    pose proof (round_down_nonneg _ Hsq) as Hr0.
    pose proof (round_down_le (pow_down x i * pow_down x i)) as Hr.
    assert (pow_down x i * pow_down x i <= Qpower_positive x i * Qpower_positive x i) as Hle
      by (apply Qmult_le_compat_nonneg; assumption).
    split.
    + apply round_down_nonneg. apply Qmult_le_0_compat; assumption.
    + eapply Qle_trans; [apply round_down_le|].
      apply Qmult_le_compat_nonneg; [exact Hx | apply Qle_refl | exact Hr0 | lra].
  - change (Qpower_positive x i~0) with (Qpower_positive x i * Qpower_positive x i).
    assert (0 <= pow_down x i * pow_down x i) as Hsq by (apply Qmult_le_0_compat; assumption).
    split; [apply round_down_nonneg; exact Hsq|].
    eapply Qle_trans; [apply round_down_le|].
    apply Qmult_le_compat_nonneg; assumption.
  - split; [exact Hx | apply Qle_refl].
Qed.

Lemma pow_up_ge (x : Q) (i : positive) :
  0 <= x -> 0 <= Qpower_positive x i /\ Qpower_positive x i <= pow_up x i.
Proof.
  intros Hx. induction i as [i [IH0 IH]|i [IH0 IH]|]; cbn [pow_up].
  - change (Qpower_positive x i~1)
      with (x * (Qpower_positive x i * Qpower_positive x i)).
    assert (0 <= Qpower_positive x i * Qpower_positive x i) as Hsq
      by (apply Qmult_le_0_compat; assumption).
    assert (Qpower_positive x i * Qpower_positive x i <= pow_up x i * pow_up x i) as Hle
      by (apply Qmult_le_compat_nonneg; assumption).
    pose proof (round_up_ge (pow_up x i * pow_up x i)) as Hr.
    split; [apply Qmult_le_0_compat; assumption|].
    eapply Qle_trans; [|apply round_up_ge].
    apply Qmult_le_compat_nonneg; [exact Hx | apply Qle_refl | exact Hsq | lra].
  - change (Qpower_positive x i~0) with (Qpower_positive x i * Qpower_positive x i).
    split; [apply Qmult_le_0_compat; assumption|].
    eapply Qle_trans; [|apply round_up_ge].
    apply Qmult_le_compat_nonneg; assumption.
  - split; [exact Hx | apply Qle_refl].
Qed.

End power_bounds.

Section float_range.

(** The two thresholds of [tick_power] are those of the exact power
    against the doubles: the power stays below the largest double up to the
    tick before [POW_OVERFLOW_TICK] and is from that tick on above the
    middle between the largest double and [2 ** 1024], where rounding
    overflows; it is nearer to the least positive double, [2 ** -1074],
    than to 0 down to the tick after [POW_ZERO_TICK], and nearer to 0 from
    that tick on. *)
Lemma tick_power_thresholds :
  Qpower (10001 # 10000) (POW_OVERFLOW_TICK - 1) < MAX_DOUBLE /\
  MAX_DOUBLE + Qpower 2 970 <= Qpower (10001 # 10000) POW_OVERFLOW_TICK /\
  Qpower 2 (-1075) < Qpower (10001 # 10000) (POW_ZERO_TICK + 1) /\
  Qpower (10001 # 10000) POW_ZERO_TICK < Qpower 2 (-1075).
Proof.
  assert (forall i, 0 < Qpower_positive (10001 # 10000) i) as Hpos.
  { intros i. change (0 < Qpower (10001 # 10000) (Zpos i)).
    apply Qpower_0_lt. reflexivity. }
  assert (0 < Qpower_positive 2 1075) as Htwo by reflexivity.
  split; [|split; [|split]].
  - change (Qpower_positive (10001 # 10000) 7098182 < MAX_DOUBLE).
    destruct (pow_up_ge (10001 # 10000) 7098182) as [_ Hup]; [discriminate|].
    eapply Qle_lt_trans; [exact Hup|]. apply Qltb_lt. vm_compute. reflexivity.
  - change (MAX_DOUBLE + Qpower 2 970 <= Qpower_positive (10001 # 10000) 7098183).
    destruct (pow_down_le (10001 # 10000) 7098183) as [_ Hdown]; [discriminate|].
    eapply Qle_trans; [|exact Hdown]. apply Qle_bool_iff. vm_compute. reflexivity.
  - change (/ Qpower_positive 2 1075 < / Qpower_positive (10001 # 10000) 7451704).
    destruct (pow_up_ge (10001 # 10000) 7451704) as [_ Hup]; [discriminate|].
    assert (pow_up (10001 # 10000) 7451704 < Qpower_positive 2 1075) as Hlt
      by (apply Qltb_lt; vm_compute; reflexivity).
    apply (proj1 (Qinv_lt_contravar (Qpower_positive (10001 # 10000) 7451704)
                    (Qpower_positive 2 1075) (Hpos _) Htwo)).
    lra.
  - change (/ Qpower_positive (10001 # 10000) 7451705 < / Qpower_positive 2 1075).
    destruct (pow_down_le (10001 # 10000) 7451705) as [_ Hdown]; [discriminate|].
    assert (Qpower_positive 2 1075 < pow_down (10001 # 10000) 7451705) as Hlt
      by (apply Qltb_lt; vm_compute; reflexivity).
    apply (proj1 (Qinv_lt_contravar (Qpower_positive 2 1075)
                    (Qpower_positive (10001 # 10000) 7451705) Htwo (Hpos _))).
    lra.
Qed.

(** X10. [calculate_price_from_tick] returns for the ticks above
    [- FLOAT_INT_LIMIT] and below 7098183: a price that is 0.0 up to the tick
    -7451705 and positive above it.  On the other ticks it raises an
    [OverflowError]: that of the conversion of the tick to a float from
    [FLOAT_INT_LIMIT] on in absolute value, that of the power from 7098183
    on.  The bounds 7098183 and -7451705 are the ticks at which the power
    [1.0001 ** tick] leaves the doubles: it is below the largest double at
    7098182 and beyond the middle between the largest double and
    [2 ** 1024] at 7098183; it is above the half of the least positive
    double at -7451704 and below it at -7451705.  With the decimals of the
    pool, in either order, [calculate_price_with_decimals] raises on the
    same ticks and on no other. *)
Theorem calculate_price_from_tick_range (tick : Z) :
  match parser.calculate_price_from_tick tick with
  | Ok price =>
      (- FLOAT_INT_LIMIT < tick < 7098183)%Z /\
      0 <= price /\ (0 < price <-> (-7451705 < tick)%Z)
  | Raise e =>
      ((tick <= - FLOAT_INT_LIMIT)%Z \/ (7098183 <= tick)%Z) /\
      e = OverflowError (if (FLOAT_INT_LIMIT <=? Z.abs tick)%Z
                         then "int too large to convert to float"
                         else "(34, 'Numerical result out of range')")
  end /\
  (forall e, parser.calculate_price_with_decimals tick 18 6 = Raise e <->
             parser.calculate_price_from_tick tick = Raise e) /\
  (forall e, parser.calculate_price_with_decimals tick 6 18 = Raise e <->
             parser.calculate_price_from_tick tick = Raise e) /\
  Qpower (10001 # 10000) 7098182 < MAX_DOUBLE /\
  MAX_DOUBLE + Qpower 2 970 <= Qpower (10001 # 10000) 7098183 /\
  Qpower 2 (-1075) < Qpower (10001 # 10000) (-7451704) /\
  Qpower (10001 # 10000) (-7451705) < Qpower 2 (-1075).
Proof.
  pose proof FLOAT_INT_LIMIT_large as Hlimit.
  split; [|split; [|split; [|exact tick_power_thresholds]]].
  - unfold parser.calculate_price_from_tick, tick_power, POW_OVERFLOW_TICK,
      POW_ZERO_TICK.
    destruct (FLOAT_INT_LIMIT <=? Z.abs tick)%Z eqn:Hconv.
    { apply Z.leb_le in Hconv. split; [lia | reflexivity]. }
    apply Z.leb_gt in Hconv.
    destruct (7098183 <=? tick)%Z eqn:Hover.
    + apply Z.leb_le in Hover. split; [right; exact Hover | reflexivity].
    + apply Z.leb_gt in Hover.
      destruct (tick <=? -7451705)%Z eqn:Hzero.
      * apply Z.leb_le in Hzero. split; [lia|]. split; [apply Qle_refl|].
        split; [intros H; inversion H | lia].
      * apply Z.leb_gt in Hzero.
        assert (0 < Qpower (10001 # 10000) tick) as Hpos
          by (apply Qpower_0_lt; reflexivity).
        split; [lia|]. split; [apply Qlt_le_weak; exact Hpos|].
        split; [intros _; exact Hzero | intros _; exact Hpos].
  - intros e. unfold parser.calculate_price_with_decimals, parser.calculate_price_from_tick.
    destruct (tick_power tick) as [price|e']; cbn [mbind result_bind];
      [split; discriminate | reflexivity].
  - intros e. unfold parser.calculate_price_with_decimals, parser.calculate_price_from_tick.
    destruct (tick_power tick) as [price|e']; cbn [mbind result_bind];
      [split; discriminate | reflexivity].
Qed.

(** The quotient of two integers is rounded to the nearest double, and
    raises when that is beyond the doubles. *)
Example py_truediv_rounds :
  py_truediv (10 ^ 24 + 1) (10 ^ 18) = py_truediv (10 ^ 24) (10 ^ 18) /\
  py_truediv (10 ^ 400) (10 ^ 18)
  = Raise (OverflowError "integer division result too large for a float") /\
  py_truediv 1 0 = Raise (ZeroDivisionError "division by zero").
Proof. vm_compute. auto. Qed.

End float_range.

Section pool_prices.
Import parser.

(** The price of WETH in USDT at the tick [- i], for a pool with WETH as
    token0: [10 ** 12 / 1.0001 ** i]. *)
Definition weth_price (i : positive) : Q :=
  Qpower (10001 # 10000) (Zneg i) / Qpower 10 (6 - 18).

Lemma calculate_weth_price (i : positive) :
  (Zpos i < 7451705)%Z ->
  calculate_price_from_tick (Zneg i) = Ok (Qpower (10001 # 10000) (Zneg i)) /\
  calculate_price_with_decimals (Zneg i) 18 6 = Ok (weth_price i).
Proof.
  intros Hi.
  assert (tick_power (Zneg i) = Ok (Qpower (10001 # 10000) (Zneg i))) as Hpower.
  { pose proof FLOAT_INT_LIMIT_large as Hlimit.
    unfold tick_power.
    replace (FLOAT_INT_LIMIT <=? Z.abs (Z.neg i))%Z with false
      by (symmetry; apply Z.leb_gt; lia).
    change (POW_OVERFLOW_TICK <=? Z.neg i)%Z with false.
    replace (Z.neg i <=? POW_ZERO_TICK)%Z with false; [reflexivity|].
    symmetry. apply Z.leb_gt. unfold POW_ZERO_TICK. lia. }
  split; [exact Hpower|].
  unfold calculate_price_with_decimals. rewrite Hpower. reflexivity.
Qed.

Lemma weth_price_of_tick (i : positive) :
  weth_price i == 1000000000000 / Qpower_positive (10001 # 10000) i.
Proof.
  unfold weth_price.
  change (Qpower (10001 # 10000) (Z.neg i)) with (/ Qpower_positive (10001 # 10000) i).
  change (Qpower 10 (6 - 18)) with (/ Qpower_positive 10 12).
  assert (Qpower_positive 10 12 == 1000000000000) as -> by reflexivity.
  assert (0 < Qpower_positive (10001 # 10000) i) as Hpos.
  { change (0 < Qpower (10001 # 10000) (Zpos i)). apply Qpower_0_lt. reflexivity. }
  field. lra.
Qed.

Lemma weth_price_above (i : positive) (bound : Q) :
  0 < bound ->
  Qle_bool (bound * pow_up (10001 # 10000) i) 1000000000000 = true ->
  bound <= weth_price i.
Proof.
  intros Hbound Hle. apply Qle_bool_iff in Hle. rewrite weth_price_of_tick.
  destruct (pow_up_ge (10001 # 10000) i) as [H0 Hup]; [discriminate|].
  assert (0 < Qpower_positive (10001 # 10000) i) as Hpos.
  { change (0 < Qpower (10001 # 10000) (Zpos i)). apply Qpower_0_lt. reflexivity. }
  apply Qle_shift_div_l; [exact Hpos|]. nra.
Qed.

Lemma weth_price_below (i : positive) (bound : Q) :
  0 < bound ->
  Qle_bool 1000000000000 (bound * pow_down (10001 # 10000) i) = true ->
  weth_price i <= bound.
Proof.
  intros Hbound Hle. apply Qle_bool_iff in Hle. rewrite weth_price_of_tick.
  destruct (pow_down_le (10001 # 10000) i) as [H0 Hdown]; [discriminate|].
  assert (0 < Qpower_positive (10001 # 10000) i) as Hpos.
  { change (0 < Qpower (10001 # 10000) (Zpos i)). apply Qpower_0_lt. reflexivity. }
  apply Qle_shift_div_r; [exact Hpos|]. nra.
Qed.

Example weth_price_at_minus_201000 :
  1866 <= weth_price 201000 /\ weth_price 201000 <= 1867.
Proof.
  split.
  - apply weth_price_above; [reflexivity | vm_compute; reflexivity].
  - apply weth_price_below; [reflexivity | vm_compute; reflexivity].
Qed.

Example weth_price_at_minus_199000 :
  2280 <= weth_price 199000 /\ weth_price 199000 <= 2281.
Proof.
  split.
  - apply weth_price_above; [reflexivity | vm_compute; reflexivity].
  - apply weth_price_below; [reflexivity | vm_compute; reflexivity].
Qed.

End pool_prices.

(** ** The refresh *)

Section refresh_path.
Import outlier_service bin_service parser bitquery_service recommender_service app.

(** The world after [readings] more readings of the clock and with the
    [queries] sent: the cache and the store are as they were. *)
Definition after (readings : nat) (queries : list Request) (w : World.t) : World.t :=
  World.set_ticks (readings + World.ticks w)
    (World.set_trace (World.trace w ++ queries) w).

(** The analysis period of a refresh that starts in [w]: the 240 hours
    before the next reading of the clock. *)
Definition period_end (w : World.t) : Time :=
  Upstream.clock (World.upstream w) (World.ticks w).

Definition period_start (w : World.t) : Time := period_end w - 240 * 3600.

(** What that refresh asks of the service, and what it makes of the
    answers. *)
Definition mint_query (w : World.t) : Request :=
  MintRequest (period_start w) (period_end w).

Definition mint_answer (w : World.t) : Http.response ResponseData :=
  Upstream.post_mint (World.upstream w) (World.trace w ++ [mint_query w]).

Definition minted (w : World.t) : result (list Mint.t) :=
  parse_positions (Http.json (mint_answer w)).

Definition liquidity_query (w : World.t) (mint_positions : list Mint.t) : Request :=
  LiquidityRequest (map (fun pos => pretty (Mint.nft_id pos)) mint_positions)
                   (period_start w) (period_end w).

Definition liquidity_answer (w : World.t) (mint_positions : list Mint.t)
    : Http.response ResponseData :=
  Upstream.post_liquidity (World.upstream w)
    (World.trace w ++ [mint_query w; liquidity_query w mint_positions]).

(** The tally of the liquidity events: empty when the service did not
    answer with status 200. *)
Definition tallied (w : World.t) (mint_positions : list Mint.t)
    : result (gmap Z Delta.t) :=
  if (Http.status_code (liquidity_answer w mint_positions) =? 200)%Z
  then parse_liquidity_events (Http.json (liquidity_answer w mint_positions))
  else Ok ∅.

(** Names what the refresh of [w] sends and receives. *)
Ltac fold_refresh :=
  repeat match goal with
         | w : World.t |- _ =>
             progress (change (Upstream.clock (World.upstream w) (World.ticks w))
                         with (period_end w))
         | w : World.t |- _ =>
             progress (change (period_end w - 240 * 3600) with (period_start w))
         | w : World.t |- _ =>
             progress (change (MintRequest (period_start w) (period_end w))
                         with (mint_query w))
         | w : World.t |- _ =>
             progress (change (Upstream.post_mint (World.upstream w)
                                 (World.trace w ++ [mint_query w]))
                         with (mint_answer w))
         | w : World.t |- _ =>
             progress (change (parse_positions (Http.json (mint_answer w)))
                         with (minted w))
         | |- context [LiquidityRequest (map ?f ?mint_positions)
                         (period_start ?w) (period_end ?w)] =>
             progress (change (LiquidityRequest (map f mint_positions)
                                 (period_start w) (period_end w))
                         with (liquidity_query w mint_positions))
         | |- context [liquidity_query ?w ?mint_positions] =>
             progress (change (Upstream.post_liquidity (World.upstream w)
                                 (World.trace w
                                  ++ [mint_query w; liquidity_query w mint_positions]))
                         with (liquidity_answer w mint_positions))
         | |- context [liquidity_answer ?w ?mint_positions] =>
             progress (change (if (Http.status_code (liquidity_answer w mint_positions)
                                   =? 200)%Z
                               then parse_liquidity_events
                                      (Http.json (liquidity_answer w mint_positions))
                               else Ok ∅)
                         with (tallied w mint_positions))
         end.

(** The refresh up to the answer to its first query. *)
Lemma refresh_fetch_failed (w : World.t) (price_lower price_upper : option Q) :
  Http.status_code (mint_answer w) <> 200%Z ->
  refresh price_lower price_upper w
  = (after 3 [mint_query w] w, Ok (ErrorDict "Failed to fetch mint positions")).
Proof.
  intros Hstatus. apply Z.eqb_neq in Hstatus.
  unfold mint_answer, mint_query, period_start, period_end in Hstatus.
  unfold refresh. cbv zeta.
  rewrite !bind_now, bind_fetch_mint_positions. cbv zeta.
  cbn [World.upstream World.trace World.ticks World.set_ticks World.set_trace
       World.heap World.cache].
  rewrite Hstatus. rewrite bind_now. rewrite Hstatus. reflexivity.
Qed.

(** Runs the refresh of the goal up to the parsing of the answer to its
    first query, which had status 200. *)
Ltac refresh_fetched Hstatus :=
  unfold refresh; cbv zeta;
  rewrite !bind_now, bind_fetch_mint_positions; cbv zeta;
  cbn [World.upstream World.trace World.ticks World.set_ticks World.set_trace
       World.heap World.cache];
  fold_refresh;
  rewrite Hstatus; rewrite bind_now; rewrite Hstatus; cbn [negb];
  rewrite bind_now, bind_lift;
  cbn [World.upstream World.trace World.ticks World.set_ticks World.set_trace
       World.heap World.cache];
  fold_refresh.

(** A record on which [extract_position_data] raises ends the refresh. *)
Lemma refresh_parse_raises (w : World.t) (price_lower price_upper : option Q) (e : Exn) :
  Http.status_code (mint_answer w) = 200%Z ->
  minted w = Raise e ->
  refresh price_lower price_upper w = (after 4 [mint_query w] w, Raise e).
Proof.
  intros Hstatus Hminted. apply Z.eqb_eq in Hstatus.
  refresh_fetched Hstatus.
  rewrite Hminted. reflexivity.
Qed.

(** Runs the refresh of the goal up to the positions parsed from the
    answer to its first query. *)
Ltac refresh_parsed Hstatus Hminted :=
  refresh_fetched Hstatus;
  rewrite Hminted; rewrite bind_now;
  cbn [World.upstream World.trace World.ticks World.set_ticks World.set_trace
       World.heap World.cache];
  fold_refresh.

Lemma refresh_no_positions (w : World.t) (price_lower price_upper : option Q) :
  Http.status_code (mint_answer w) = 200%Z ->
  minted w = Ok [] ->
  refresh price_lower price_upper w
  = (after 5 [mint_query w] w, Ok (ErrorDict "No mint positions found")).
Proof.
  intros Hstatus Hnone. apply Z.eqb_eq in Hstatus.
  refresh_parsed Hstatus Hnone.
  reflexivity.
Qed.

(** The tally of the events, from the answer to the second query. *)
Lemma bind_tally {A : Type} (response : Http.response ResponseData)
    (k : gmap Z Delta.t -> M A) (w : World.t) :
  (let '(liquidity_data, liquidity_status_code) :=
     if (Http.status_code response =? 200)%Z
     then (Some (Http.json response), Http.status_code response)
     else (None, Http.status_code response) in
   _ ← now;
   liquidity_event_counts ←
     (if (liquidity_status_code =? 200)%Z
      then lift (match liquidity_data with
                 | Some liquidity_data => parse_liquidity_events liquidity_data
                 | None => Ok ∅
                 end)
      else mret ∅);
   k liquidity_event_counts) w
  = match (if (Http.status_code response =? 200)%Z
           then parse_liquidity_events (Http.json response)
           else Ok ∅) with
    | Ok liquidity_event_counts =>
        k liquidity_event_counts (World.set_ticks (S (World.ticks w)) w)
    | Raise e => (World.set_ticks (S (World.ticks w)) w, Raise e)
    end.
Proof.
  destruct (Http.status_code response =? 200)%Z eqn:Hstatus; cbv beta iota;
    rewrite bind_now, Hstatus; [apply bind_lift | reflexivity].
Qed.

(** Runs the refresh of the goal up to the tally of the liquidity events,
    the positions, which are some, being parsed. *)
Ltac refresh_tallied Hstatus Hminted Hsome :=
  refresh_parsed Hstatus Hminted;
  rewrite bool_decide_eq_false_2 by exact Hsome;
  rewrite bind_now, bind_fetch_liquidity_events; cbv zeta;
  cbn [World.upstream World.trace World.ticks World.set_ticks World.set_trace
       World.heap World.cache];
  rewrite <- app_assoc; cbn [app]; fold_refresh;
  rewrite bind_tally; fold_refresh.

Lemma refresh_tally_raises (w : World.t) (price_lower price_upper : option Q)
    (mint_positions : list Mint.t) (e : Exn) :
  Http.status_code (mint_answer w) = 200%Z ->
  minted w = Ok mint_positions ->
  mint_positions <> [] ->
  tallied w mint_positions = Raise e ->
  refresh price_lower price_upper w
  = (after 7 [mint_query w; liquidity_query w mint_positions] w, Raise e).
Proof.
  intros Hstatus Hminted Hsome Htally. apply Z.eqb_eq in Hstatus.
  refresh_tallied Hstatus Hminted Hsome.
  rewrite Htally. reflexivity.
Qed.

(** A division of [create_final_summary] that overflows ends the
    refresh. *)
Lemma refresh_summary_raises (w : World.t) (price_lower price_upper : option Q)
    (mint_positions : list Mint.t) (tally : gmap Z Delta.t) (e : Exn) :
  Http.status_code (mint_answer w) = 200%Z ->
  minted w = Ok mint_positions ->
  mint_positions <> [] ->
  tallied w mint_positions = Ok tally ->
  create_final_summary mint_positions tally = Raise e ->
  refresh price_lower price_upper w
  = (after 8 [mint_query w; liquidity_query w mint_positions] w, Raise e).
Proof.
  intros Hstatus Hminted Hsome Htally Hsummary. apply Z.eqb_eq in Hstatus.
  refresh_tallied Hstatus Hminted Hsome.
  rewrite Htally. rewrite bind_now, bind_lift, Hsummary. reflexivity.
Qed.

Lemma refresh_nothing_accepted (w : World.t) (price_lower price_upper : option Q)
    (mint_positions : list Mint.t) (tally : gmap Z Delta.t) :
  Http.status_code (mint_answer w) = 200%Z ->
  minted w = Ok mint_positions ->
  mint_positions <> [] ->
  tallied w mint_positions = Ok tally ->
  create_final_summary mint_positions tally = Ok [] ->
  refresh price_lower price_upper w
  = (after 10 [mint_query w; liquidity_query w mint_positions] w,
     Raise (ValueError "No positions provided")).
Proof.
  intros Hstatus Hminted Hsome Htally Hnone. apply Z.eqb_eq in Hstatus.
  refresh_tallied Hstatus Hminted Hsome.
  rewrite Htally. rewrite bind_now, bind_lift, Hnone. rewrite !bind_now, bind_lift.
  reflexivity.
Qed.

(** Bins and bands with positive bounds: the ones for which the volume is
    asked. *)
Definition positive_bounds (b : Bin.t) : Prop :=
  0 < Bin.priceLower b /\ 0 < Bin.priceUpper b.

Lemma position_to_bin_bounds (position : Summary.t) (bin : Bin.t) :
  Bin.priceLower (position_to_bin position bin) = Bin.priceLower bin /\
  Bin.priceUpper (position_to_bin position bin) = Bin.priceUpper bin.
Proof.
  unfold position_to_bin.
  destruct (Summary.price_lower_afterdecimals position) as [lower|]; [|auto].
  destruct (Summary.price_upper_afterdecimals position) as [upper|]; [|auto].
  destruct (distribute_to_bin_bounds (get_or_zero (Summary.amount_weth position))
              (get_or_zero (Summary.amount_usdt position)) lower upper bin)
    as (_ & H1 & H2).
  auto.
Qed.

Lemma foldl_position_to_bin_bounds (positions : list Summary.t) (bin : Bin.t) :
  positive_bounds bin ->
  positive_bounds (foldl (fun bin position => position_to_bin position bin) bin positions).
Proof.
  revert bin. induction positions as [|position positions IH]; intros bin Hbin;
    [exact Hbin|].
  cbn [foldl]. apply IH. unfold positive_bounds in *.
  destruct (position_to_bin_bounds position bin) as [-> ->]. exact Hbin.
Qed.

Lemma grid_bin_positive (min_price max_price : Q) (num_bins i : Z) :
  0 < min_price -> min_price < max_price -> (0 < num_bins)%Z -> (0 <= i)%Z ->
  positive_bounds (grid_bin min_price max_price num_bins i).
Proof.
  intros Hmin Hlt Hn Hi. unfold positive_bounds, grid_bin.
  cbn [Bin.priceLower Bin.priceUpper].
  assert (0 < (max_price - min_price) / inject_Z num_bins) as Hsize.
  { apply Qlt_shift_div_l; [change 0 with (inject_Z 0); rewrite <- Zlt_Qlt; exact Hn|].
    lra. }
  assert (0 <= inject_Z i) as Hi'
    by (change 0 with (inject_Z 0); rewrite <- Zle_Qle; exact Hi).
  assert (0 <= inject_Z (i + 1)) as Hi''
    by (change 0 with (inject_Z 0); rewrite <- Zle_Qle; lia).
  set (size := (max_price - min_price) / inject_Z num_bins) in *. clearbody size.
  split; nra.
Qed.

(** The bins made of a final summary that has an entry: the engine never
    fails on one, and every bin lies above 0. *)
Lemma final_summary_bins (mint_positions : list Mint.t) (tally : gmap Z Delta.t)
    (final_summary : list Summary.t) :
  create_final_summary mint_positions tally = Ok final_summary ->
  final_summary <> [] ->
  exists new_bins,
    create_bins_from_data final_summary config.NUM_BINS None None = Ok new_bins /\
    length new_bins = 50%nat /\
    Forall positive_bounds new_bins.
Proof.
  intros Hsummary Hsome.
  assert (Forall accepted final_summary) as Hall.
  { pose proof (create_final_summary_cases mint_positions tally) as Hcases.
    rewrite Hsummary in Hcases. destruct Hcases as (entries & _ & ->).
    apply Forall_accepted_filter. }
  assert (filter accepted final_summary = final_summary) as Hkeep
    by (apply filter_all; exact Hall).
  destruct (create_bins_from_data_steps final_summary config.NUM_BINS)
    as (min_price & max_price & _ & Hmin & Hlt & _ & Hsteps);
    [rewrite Hkeep; exact Hsome|].
  rewrite Hsteps, create_bins_grid by (assumption || discriminate).
  cbn [mbind result_bind]. rewrite Hkeep, foldl_distribute_accepted by exact Hall.
  eexists. split; [reflexivity|]. split; [rewrite !length_map; reflexivity|].
  apply Forall_forall. intros bin Hbin.
  apply list_elem_of_fmap in Hbin as (grid & -> & Hgrid).
  apply list_elem_of_fmap in Hgrid as (i & -> & Hi).
  apply elem_of_seqZ in Hi.
  apply foldl_position_to_bin_bounds, grid_bin_positive;
    [unfold MIN_REASONABLE_PRICE in Hmin; lra | exact Hlt | reflexivity | lia].
Qed.




Lemma bind_store_if {A : Type} (c : bool) (g : Cache.t -> Cache.t) (k : unit -> M A)
    (w : World.t) :
  ((if c then update_cache g else mret tt) ≫= k) w
  = k tt (if c then World.set_cache (g (World.cache w)) w else w).
Proof. destruct c; reflexivity. Qed.

(** Whether a price filter is given. *)
Definition filtered (price_lower price_upper : option Q) : bool :=
  bool_decide (is_Some price_lower) || bool_decide (is_Some price_upper).

(** The contents of the bins that are ranked. *)
Definition ranked (price_lower price_upper : option Q) (contents : list Bin.t)
    : list Bin.t :=
  if filtered price_lower price_upper
  then filter (in_price_range price_lower price_upper) contents
  else contents.

Definition top_n_of (price_lower price_upper : option Q) : Z :=
  if filtered price_lower price_upper then 3%Z else 5%Z.

Lemma refresh_succeeds (w : World.t) (price_lower price_upper : option Q)
    (mint_positions : list Mint.t) (tally : gmap Z Delta.t)
    (final_summary : list Summary.t) :
  Http.status_code (mint_answer w) = 200%Z ->
  minted w = Ok mint_positions ->
  mint_positions <> [] ->
  tallied w mint_positions = Ok tally ->
  create_final_summary mint_positions tally = Ok final_summary ->
  final_summary <> [] ->
  let clock := Upstream.clock (World.upstream w) in
  let ticks := World.ticks w in
  let sent := World.trace w ++ [mint_query w; liquidity_query w mint_positions] in
  let volume_start := clock (12 + ticks)%nat - 24 * 3600 in
  let volume_end := clock (12 + ticks)%nat in
  exists new_bins w' bins bands,
    let contents := ranked price_lower price_upper new_bins in
    let selected := top_bands (top_n_of price_lower price_upper) contents in
    let volumes := volumes_of (World.upstream w) volume_start volume_end sent selected in
    let recommendations :=
      {| Recommendations.top_liquidity_bands := bands;
         Recommendations.metadata :=
           Some {| Metadata.total_positions := Z.of_nat (length mint_positions);
                   Metadata.total_bins := Z.of_nat (length contents);
                   Metadata.bins_with_positions := bins_with_positions contents;
                   Metadata.analysis_date := clock (14 + ticks)%nat;
                   Metadata.time_range_hours := 240;
                   Metadata.cache_timestamp := clock (15 + ticks)%nat;
                   Metadata.price_filter_lower := price_lower;
                   Metadata.price_filter_upper := price_upper |} |} in
    create_bins_from_data final_summary config.NUM_BINS None None = Ok new_bins /\
    length new_bins = 50%nat /\
    Forall positive_bounds new_bins /\
    refresh price_lower price_upper w = (w', Ok (Recommended recommendations)) /\
    World.upstream w' = World.upstream w /\
    World.ticks w' = (18 + ticks)%nat /\
    World.trace w' = sent ++ omap (volume_query volume_start volume_end) selected /\
    World.cache w'
    = {| Cache.bins := Some bins;
         Cache.data := if filtered price_lower price_upper
                       then Cache.data (World.cache w)
                       else Some recommendations;
         Cache.timestamp := Some (clock (17 + ticks)%nat);
         Cache.total_positions := Some (Z.of_nat (length mint_positions)) |} /\
    World.heap w ⊆ World.heap w' /\
    points_to w' bins new_bins /\
    points_to w' bands (zip_with with_volume volumes selected).
Proof.
  intros Hstatus Hminted Hsome Htally Hsummary Hentries
         clock ticks sent volume_start volume_end.
  apply Z.eqb_eq in Hstatus.
  destruct (final_summary_bins mint_positions tally final_summary Hsummary Hentries)
    as (new_bins & Hbins & Hlength & Hpositive).
  destruct (alloc_all_run
              (after 10 [mint_query w; liquidity_query w mint_positions] w) new_bins)
    as (w4 & bins & Hrun4 & [Hsub4 Hw4] & Hpoints4).
  assert (World.upstream w4 = World.upstream w /\ World.cache w4 = World.cache w /\
          World.trace w4 = sent /\ World.ticks w4 = (10 + ticks)%nat)
    as (Hup4 & Hcache4 & Htrace4 & Hticks4)
    by (rewrite Hw4; repeat split).
  set (w5 := World.set_cache
               (Cache.set_total_positions (Some (Z.of_nat (length mint_positions)))
                  (Cache.set_bins (Some bins) (World.cache w4)))
               (World.set_ticks (S (World.ticks w4)) w4)).
  assert (points_to w5 bins new_bins) as Hpoints5 by exact Hpoints4.
  assert (exists kept,
            (if filtered price_lower price_upper
             then filter_bins_by_price_range bins price_lower price_upper
             else mret bins) w5 = (w5, Ok kept) /\
            points_to w5 kept (ranked price_lower price_upper new_bins))
    as (kept & Hrun5 & Hkept5).
  { unfold ranked. destruct (filtered price_lower price_upper) eqn:Hfiltered.
    - apply filter_bins_by_price_range_run; [|exact Hpoints5].
      apply orb_true_iff in Hfiltered. rewrite !bool_decide_eq_true in Hfiltered.
      exact Hfiltered.
    - exists bins. split; [reflexivity | exact Hpoints5]. }
  set (w6 := World.set_ticks (S (World.ticks w5)) w5).
  destruct (recommend_top_bands_sent w6 kept (ranked price_lower price_upper new_bins)
              (top_n_of price_lower price_upper) Hkept5)
    as (w7 & bands & Hrun7 & Hup7 & Htrace7 & Hticks7 & Hcache7 & Hsub7 & _ & Hbands7).
  assert (points_to w7 kept (ranked price_lower price_upper new_bins)) as Hkept7.
  { eapply Forall2_impl; [exact Hkept5|]. intros l b Hl.
    eapply lookup_weaken; [exact Hl | exact Hsub7]. }
  exists new_bins. eexists. exists bins, bands. cbv zeta.
  split; [exact Hbins|]. split; [exact Hlength|]. split; [exact Hpositive|]. split.
  { refresh_tallied Hstatus Hminted Hsome.
    rewrite Htally. rewrite bind_now, bind_lift, Hsummary.
    rewrite !bind_now, bind_lift, Hbins.
    erewrite run_bind by exact Hrun4.
    rewrite bind_now.
    erewrite run_bind by (apply count_bins_with_positions_run; exact Hpoints4).
    rewrite !bind_update_cache.
    change (bool_decide (is_Some price_lower) || bool_decide (is_Some price_upper))
      with (filtered price_lower price_upper).
    erewrite run_bind by exact Hrun5.
    rewrite bind_now.
    fold (top_n_of price_lower price_upper).
    erewrite run_bind by exact Hrun7.
    rewrite bind_now.
    erewrite run_bind by (apply count_bins_with_positions_run; exact Hkept7).
    rewrite !bind_now, bind_update_cache, bind_store_if.
    rewrite (points_to_length w5 kept _ Hkept5).
    cbn [World.upstream World.ticks World.trace World.cache World.heap
         World.set_ticks World.set_cache Recommendations.top_liquidity_bands].
    rewrite Hup7, Hticks7. subst w6 w5.
    cbn [World.upstream World.ticks World.trace World.cache World.heap
         World.set_ticks World.set_cache].
    rewrite Hup4, Hticks4.
    reflexivity. }
  subst w6 w5.
  cbn [World.upstream World.ticks World.trace World.cache World.heap
       World.set_ticks World.set_cache] in Htrace7, Hcache7, Hsub7, Hbands7, Hup7.
  rewrite Hup4, Hticks4, Htrace4 in Htrace7, Hbands7.
  rewrite Hcache4 in Hcache7. rewrite Hup4 in Hup7.
  assert (World.heap w ⊆ World.heap w7) as Hsub
    by (etransitivity; [exact Hsub4 | exact Hsub7]).
  assert (points_to w7 bins new_bins) as Hpoints7.
  { eapply Forall2_impl; [exact Hpoints4|]. intros l b Hl.
    eapply lookup_weaken; [exact Hl | exact Hsub7]. }
  destruct (filtered price_lower price_upper);
    cbn [negb World.upstream World.ticks World.trace World.cache World.heap
         World.set_ticks World.set_cache];
    (split; [exact Hup7|]); (split; [reflexivity|]); (split; [exact Htrace7|]);
    (split; [rewrite Hcache7; reflexivity|]); (split; [exact Hsub|]);
    (split; [exact Hpoints7 | exact Hbands7]).
Qed.

(** The answers of the service make a summary with an entry at least. *)
Definition summarised (w : World.t) (mint_positions : list Mint.t)
    (tally : gmap Z Delta.t) (final_summary : list Summary.t) : Prop :=
  Http.status_code (mint_answer w) = 200%Z /\
  minted w = Ok mint_positions /\
  mint_positions <> [] /\
  tallied w mint_positions = Ok tally /\
  create_final_summary mint_positions tally = Ok final_summary /\
  final_summary <> [].

(** When they do not, the refresh ends in an error, returned or raised,
    and leaves the cache as it was. *)
Lemma refresh_fails_or_summarised (w : World.t) (price_lower price_upper : option Q) :
  (exists mint_positions tally final_summary,
     summarised w mint_positions tally final_summary) \/
  (exists w',
     World.cache w' = World.cache w /\
     ((exists error, refresh price_lower price_upper w = (w', Ok (ErrorDict error))) \/
      (exists e, refresh price_lower price_upper w = (w', Raise e)))).
Proof.
  destruct (decide (Http.status_code (mint_answer w) = 200%Z)) as [Hstatus|Hstatus].
  2:{ right. eexists. split; [|left; eexists; apply refresh_fetch_failed; exact Hstatus].
      reflexivity. }
  destruct (minted w) as [mint_positions|e] eqn:Hminted.
  2:{ right. eexists.
      split; [|right; exists e; apply refresh_parse_raises; assumption]. reflexivity. }
  destruct mint_positions as [|position positions].
  { right. eexists.
    split; [|left; eexists; apply refresh_no_positions; assumption]. reflexivity. }
  remember (position :: positions) as mint_positions eqn:Hpositions.
  assert (mint_positions <> []) as Hsome by (rewrite Hpositions; discriminate).
  destruct (tallied w mint_positions) as [tally|e] eqn:Htally.
  2:{ right. eexists.
      split; [|right; exists e; apply (refresh_tally_raises _ _ _ mint_positions); assumption]. reflexivity. }
  destruct (create_final_summary mint_positions tally) as [final_summary|e] eqn:Hsummary.
  2:{ right. eexists.
      split; [|right; exists e; apply (refresh_summary_raises _ _ _ mint_positions tally); assumption].
      reflexivity. }
  destruct final_summary as [|entry entries].
  { right. eexists.
    split; [|right; eexists; apply (refresh_nothing_accepted _ _ _ mint_positions tally); assumption].
    reflexivity. }
  left. exists mint_positions, tally, (entry :: entries).
  repeat split; try assumption. discriminate.
Qed.

(** *** A request that is refreshed *)

(** A request without price filter that asks for a refresh, or finds no
    recommendation in the cache. *)
Definition refreshing (w : World.t) (args : Args.t) : Prop :=
  price_filter (Args.price_lower args) = None /\
  price_filter (Args.price_upper args) = None /\
  (Args.refresh args = Some "true" \/
   Cache.data (World.cache w) = None \/
   Cache.timestamp (World.cache w) = None).

(** The world in which the refresh of such a request, received in [w],
    starts: the clock was read for the timer of the request and for the
    timer of the refresh. *)
Definition entered (w : World.t) : World.t := World.set_ticks (2 + World.ticks w) w.

(** The reply to a request that ended in an error. *)
Definition error_reply (error : string) : Reply.t :=
  {| Reply.body := ErrorDict error;
     Reply.status := if contains "fetching" (py_lower error) then 500 else 404 |}.

Lemma refreshing_request_run (w : World.t) (args : Args.t) :
  refreshing w args ->
  api_recommendations args w
  = match refresh None None (entered w) with
    | (w', Ok (Recommended recommendations)) =>
        (World.set_ticks (S (World.ticks w')) w',
         Ok {| Reply.body := Recommended recommendations; Reply.status := 200 |})
    | (w', Ok (ErrorDict error)) => (w', Ok (error_reply error))
    | (w', Raise e) =>
        (World.set_ticks (S (World.ticks w')) w', Ok (error_reply (py_str e)))
    end.
Proof.
  intros (Hlower & Hupper & Hcold).
  assert (get_recommendations_data
            (negb (bool_decide (Args.refresh args = Some "true"))) None None
            (World.set_ticks (S (World.ticks w)) w)
          = fetch_new_data None None (World.set_ticks (S (World.ticks w)) w)) as Hfetch.
  { unfold get_recommendations_data.
    replace (bool_decide (is_Some (@None Q))) with false
      by (symmetry; apply bool_decide_eq_false; intros [? H]; discriminate H).
    cbn [orb].
    destruct (bool_decide (Args.refresh args = Some "true")) eqn:Hrefresh;
      [reflexivity|]. cbn [negb].
    apply bool_decide_eq_false in Hrefresh.
    unfold get_cache at 1. unfold mbind at 1, M_bind at 1.
    cbn [World.cache World.set_ticks].
    destruct Hcold as [Hcold|[Hcold|Hcold]]; [contradiction| |].
    - rewrite Hcold. reflexivity.
    - rewrite Hcold. destruct (Cache.data (World.cache w)); reflexivity. }
  unfold api_recommendations. rewrite bind_now. cbv zeta.
  rewrite Hlower, Hupper. unfold try_except at 1.
  unfold mbind at 1, M_bind at 1. rewrite Hfetch.
  unfold fetch_new_data. rewrite bind_now. unfold try_except.
  change (World.set_ticks _ (World.set_ticks _ w)) with (entered w).
  destruct (refresh None None (entered w)) as [w' [[error|recommendations]|e]];
    reflexivity.
Qed.

(** What [parse_positions] raises is what [extract_position_data] raised
    on a record. *)
Lemma parse_positions_raises (response_data : ResponseData) (e : Exn) :
  parse_positions response_data = Raise e -> is_OverflowError e.
Proof.
  change (parse_positions response_data)
    with (parse_positions_from [] (calls_of response_data)).
  generalize (@nil Mint.t) as positions.
  induction (calls_of response_data) as [|position calls IH]; intros positions;
    unfold parse_positions_from in *; cbn [foldl_result]; [discriminate|].
  destruct (extract_position_data position) as [[parsed|]|e'] eqn:Hrun;
    cbn [mbind result_bind]; [apply IH | apply IH |].
  intros H. injection H as <-. apply (extract_position_data_raises position). exact Hrun.
Qed.

(** X21. A request that is refreshed and whose first query is answered
    with status 200 by records none of which yields a position, and on none
    of which [extract_position_data] raises, is answered with status 404 and
    the error [No mint positions found]: the liquidity events are not asked
    for, and the cache and the store are as they were. *)
Theorem refreshing_request_no_positions (w : World.t) (args : Args.t) :
  refreshing w args ->
  Http.status_code (mint_answer (entered w)) = 200%Z ->
  minted (entered w) = Ok [] ->
  api_recommendations args w
  = (after 7 [mint_query (entered w)] w,
     Ok {| Reply.body := ErrorDict "No mint positions found"; Reply.status := 404 |}).
Proof.
  intros Hrefreshing Hstatus Hnone.
  rewrite refreshing_request_run by exact Hrefreshing.
  rewrite refresh_no_positions by assumption. reflexivity.
Qed.

(** X22. A request that is refreshed and whose liquidity events cannot be
    tallied is answered with the text of the exception as error, under
    status 404 unless the text has the word [fetching]: a malformed record
    of the second answer fails the request, whereas a second answer with a
    status other than 200 counts as no event.  Two queries were sent, and
    the cache and the store are as they were. *)
Theorem refreshing_request_tally_raises (w : World.t) (args : Args.t)
    (mint_positions : list Mint.t) (e : Exn) :
  refreshing w args ->
  Http.status_code (mint_answer (entered w)) = 200%Z ->
  minted (entered w) = Ok mint_positions ->
  mint_positions <> [] ->
  tallied (entered w) mint_positions = Raise e ->
  api_recommendations args w
  = (after 10 [mint_query (entered w); liquidity_query (entered w) mint_positions] w,
     Ok {| Reply.body := ErrorDict (py_str e);
           Reply.status := if contains "fetching" (py_lower (py_str e))
                           then 500 else 404 |}).
Proof.
  intros Hrefreshing Hstatus Hminted Hsome Htally.
  rewrite refreshing_request_run by exact Hrefreshing.
  rewrite (refresh_tally_raises _ _ _ mint_positions e) by assumption. reflexivity.
Qed.

(** X23. A request that is refreshed and none of whose mint positions
    makes an entry of the final summary is answered with status 404 and the
    error [No positions provided].  Two queries were sent, the clock was
    read 13 times, and the cache and the store are as they were. *)
Theorem refreshing_request_nothing_accepted
    (w : World.t) (args : Args.t) (mint_positions : list Mint.t)
    (tally : gmap Z Delta.t) :
  refreshing w args ->
  Http.status_code (mint_answer (entered w)) = 200%Z ->
  minted (entered w) = Ok mint_positions ->
  mint_positions <> [] ->
  tallied (entered w) mint_positions = Ok tally ->
  create_final_summary mint_positions tally = Ok [] ->
  api_recommendations args w
  = (after 13 [mint_query (entered w); liquidity_query (entered w) mint_positions] w,
     Ok {| Reply.body := ErrorDict "No positions provided"; Reply.status := 404 |}).
Proof.
  intros Hrefreshing Hstatus Hminted Hsome Htally Hnone.
  rewrite refreshing_request_run by exact Hrefreshing.
  rewrite (refresh_nothing_accepted _ _ _ mint_positions tally) by assumption.
  reflexivity.
Qed.


(** A refresh that returns a recommendation has stored it. *)
Lemma refresh_returned_stored (w w' : World.t) (recommendations : Recommendations.t) :
  refresh None None w = (w', Ok (Recommended recommendations)) ->
  Cache.data (World.cache w') = Some recommendations /\
  Cache.timestamp (World.cache w')
  = Some (Upstream.clock (World.upstream w) (17 + World.ticks w)) /\
  World.upstream w' = World.upstream w /\
  World.ticks w' = (18 + World.ticks w)%nat.
Proof.
  intros Hrun.
  destruct (refresh_fails_or_summarised w None None)
    as [(mint_positions & tally & final_summary & Hstatus & Hminted & Hsome & Htally
         & Hsummary & Hentries)
       |(w1 & _ & [[error Hfails]|[e Hfails]])];
    [|rewrite Hfails in Hrun; discriminate..].
  destruct (refresh_succeeds w None None mint_positions tally final_summary
              Hstatus Hminted Hsome Htally Hsummary Hentries)
    as (new_bins & w1 & bins & bands & _ & _ & _ & Hrun1 & Hup & Hticks & _ & Hcache & _).
  rewrite Hrun1 in Hrun. injection Hrun as <- <-.
  rewrite Hcache. repeat split; assumption.
Qed.

(** A request without price filter that does not ask for a refresh and
    finds a recommendation younger than ten minutes. *)
Lemma cached_recommendation_run (w : World.t) (args : Args.t)
    (data : Recommendations.t) (timestamp : Time) :
  price_filter (Args.price_lower args) = None ->
  price_filter (Args.price_upper args) = None ->
  Args.refresh args <> Some "true" ->
  Cache.data (World.cache w) = Some data ->
  Cache.timestamp (World.cache w) = Some timestamp ->
  (Upstream.clock (World.upstream w) (S (World.ticks w)) - timestamp) / 60
    < CACHE_EXPIRATION_MINUTES ->
  api_recommendations args w
  = (World.set_ticks (3 + World.ticks w) w,
     Ok {| Reply.body := Recommended data; Reply.status := 200 |}).
Proof.
  intros Hlower Hupper Hrefresh Hdata Hstamp Hage.
  unfold api_recommendations. rewrite bind_now. cbv zeta.
  rewrite Hlower, Hupper. rewrite bool_decide_eq_false_2 by exact Hrefresh.
  cbn [negb]. unfold try_except, get_recommendations_data.
  replace (bool_decide (is_Some (@None Q))) with false
    by (symmetry; apply bool_decide_eq_false; intros [? H]; discriminate H).
  cbn [orb]. unfold mbind at 1, M_bind at 1.
  unfold get_cache at 1. unfold mbind at 1, M_bind at 1.
  cbn [World.cache World.set_ticks]. rewrite Hdata, Hstamp.
  rewrite bind_now. unfold cache_is_fresh.
  cbn [World.upstream World.ticks World.set_ticks].
  apply Qltb_lt in Hage. rewrite Hage. reflexivity.
Qed.

(** X25. The recommendation returned by a request that was refreshed is
    the one returned, as it is and without any query, to a following request
    without price filter that does not ask for a refresh, when less than
    ten minutes lie between the 20th reading of the clock by the first
    request, which stamped the cache, and the second reading by the
    following one. *)
Theorem refreshed_recommendation_served_again
    (w w' : World.t) (args again : Args.t) (recommendations : Recommendations.t) :
  refreshing w args ->
  api_recommendations args w
  = (w', Ok {| Reply.body := Recommended recommendations; Reply.status := 200 |}) ->
  price_filter (Args.price_lower again) = None ->
  price_filter (Args.price_upper again) = None ->
  Args.refresh again <> Some "true" ->
  let clock := Upstream.clock (World.upstream w) in
  (clock (22 + World.ticks w)%nat - clock (19 + World.ticks w)%nat) / 60
    < CACHE_EXPIRATION_MINUTES ->
  api_recommendations again w'
  = (World.set_ticks (3 + World.ticks w') w',
     Ok {| Reply.body := Recommended recommendations; Reply.status := 200 |}).
Proof.
  intros Hrefreshing Hrun Hlower Hupper Hagain clock Hage.
  rewrite refreshing_request_run in Hrun by exact Hrefreshing.
  destruct (refresh None None (entered w)) as [w1 [[error|returned]|e]] eqn:Hrefresh;
    unfold error_reply in Hrun; try discriminate.
  injection Hrun as <- <-.
  destruct (refresh_returned_stored _ _ _ Hrefresh) as (Hdata & Hstamp & Hup & Hticks).
  apply (cached_recommendation_run _ again returned
           (Upstream.clock (World.upstream w) (19 + World.ticks w)));
    try assumption.
  cbn [World.upstream World.ticks World.set_ticks World.cache].
  rewrite Hup, Hticks. exact Hage.
Qed.

(** X26. One record of the first answer on which [extract_position_data]
    raises, by the [OverflowError] of a float operation, fails a request
    that is refreshed, whatever the other records are: the reply carries the
    text of that error, under status 404 unless the text has the word
    [fetching].  One query was sent, the clock was read 7 times, and the
    cache and the store are as they were. *)
Theorem refreshing_request_parse_raises (w : World.t) (args : Args.t) (e : Exn) :
  refreshing w args ->
  Http.status_code (mint_answer (entered w)) = 200%Z ->
  minted (entered w) = Raise e ->
  is_OverflowError e /\
  api_recommendations args w
  = (after 7 [mint_query (entered w)] w,
     Ok {| Reply.body := ErrorDict (py_str e);
           Reply.status := if contains "fetching" (py_lower (py_str e))
                           then 500 else 404 |}).
Proof.
  intros Hrefreshing Hstatus Hminted.
  split; [apply (parse_positions_raises _ e Hminted)|].
  rewrite refreshing_request_run by exact Hrefreshing.
  rewrite (refresh_parse_raises _ _ _ e) by assumption. reflexivity.
Qed.

(** *** A price-filtered request that is refreshed *)





(** *** Sample requests *)

(** A service that gives the same answer to every query of a kind, and no
    volume; its clock advances by one second per reading. *)
Definition answering (mint liquidity : Http.response ResponseData) : Upstream.t :=
  {| Upstream.post_mint := fun _ => mint;
     Upstream.post_liquidity := fun _ => liquidity;
     Upstream.post_volume := fun _ => Http.mk 500 (VolumeResponse.mk []);
     Upstream.clock := fun n => inject_Z (Z.of_nat n) |}.

(** The application as it starts. *)
Definition started (upstream : Upstream.t) : World.t :=
  {| World.upstream := upstream;
     World.heap := ∅;
     World.cache := Cache.empty;
     World.trace := [];
     World.ticks := 0 |}.

Definition first_request : Args.t :=
  {| Args.price_lower := None; Args.price_upper := None; Args.refresh := None |}.

Lemma started_refreshing (upstream : Upstream.t) (args : Args.t) :
  price_filter (Args.price_lower args) = None ->
  price_filter (Args.price_upper args) = None ->
  refreshing (started upstream) args.
Proof. intros Hlower Hupper. split; [exact Hlower|]. split; [exact Hupper|]. auto. Qed.

(** A mint of a pair that is not tracked. *)
Definition dai_first_mint : Call.t :=
  {| Call.Arguments :=
       [address_arg 0 "0x6B175474E89094C44Da98b954EedeAC495271d0F";
        address_arg 1 "0xC02aaA39b223FE8D0A0e5C4F27eAD9083C756Cc2";
        integer_arg 2 3000; integer_arg 3 (-10); integer_arg 4 10];
     Call.Returns := [integer_return "tokenId" 5; integer_return "liquidity" 9;
                      integer_return "amount0" 1000; integer_return "amount1" 1];
     Call.Signature_Name := "mint";
     Call.Block_Time := Some "2024-03-01T00:00:00Z";
     Call.Transaction_Time := None;
     Call.Log := false |}.

Definition other_pairs : Upstream.t :=
  answering (Http.mk 200 (RespDict [] [dai_first_mint])) (Http.mk 500 (RespList [])).

Lemma refreshing_request_no_positions_witness :
  (api_recommendations first_request (started other_pairs)).2
  = Ok {| Reply.body := ErrorDict "No mint positions found"; Reply.status := 404 |}.
Proof.
  rewrite (refreshing_request_no_positions (started other_pairs) first_request).
  - reflexivity.
  - apply started_refreshing; reflexivity.
  - reflexivity.
  - vm_compute. reflexivity.
Defined.

(** An [increaseLiquidity] call whose position identifier is no decimal
    numeral. *)
Definition garbled_increase : Call.t :=
  {| Call.Arguments :=
       [{| Arg.Index := Some 0%Z;
           Arg.Value := {| AbiValue.address := None;
                           AbiValue.bigInteger := Some (BadLit "0x4d") |} |}];
     Call.Returns := [integer_return "liquidity" 1; integer_return "amount0" 10;
                      integer_return "amount1" 20];
     Call.Signature_Name := "increaseLiquidity";
     Call.Block_Time := None;
     Call.Transaction_Time := None;
     Call.Log := false |}.

Definition garbled_events : Upstream.t :=
  answering (Http.mk 200 (RespDict [] [usdt_first_mint]))
            (Http.mk 200 (RespDict [] [garbled_increase])).

Lemma refreshing_request_tally_raises_witness :
  (api_recommendations first_request (started garbled_events)).2
  = Ok {| Reply.body := ErrorDict "invalid literal for int() with base 10: '0x4d'";
          Reply.status := 404 |}.
Proof.
  rewrite (refreshing_request_tally_raises (started garbled_events) first_request
             [usdt_first_position]
             (ValueError "invalid literal for int() with base 10: '0x4d'")).
  - reflexivity.
  - apply started_refreshing; reflexivity.
  - reflexivity.
  - vm_compute. reflexivity.
  - discriminate.
  - vm_compute. reflexivity.
Defined.

(** The position of the mint without amounts, between the ticks 0 and 1:
    some [10 ** 12] USDT for one WETH. *)
Definition far_position : Mint.t :=
  {| Mint.nft_id := 42;
     Mint.tick_lower := 0;
     Mint.tick_upper := 1;
     Mint.timestamp := "2024-01-01T00:00:00Z";
     Mint.token0 := Some WETH_ADDRESS;
     Mint.token1 := Some USDT_ADDRESS;
     Mint.price_lower := Qpower (10001 # 10000) 0;
     Mint.price_upper := Qpower (10001 # 10000) 1;
     Mint.price_lower_afterdecimals := Qpower (10001 # 10000) 0 / Qpower 10 (6 - 18);
     Mint.price_upper_afterdecimals := Qpower (10001 # 10000) 1 / Qpower 10 (6 - 18);
     Mint.amount0 := None;
     Mint.amount1 := None;
     Mint.amount0_afterdecimals := None;
     Mint.amount1_afterdecimals := None;
     Mint.amount_weth := None;
     Mint.amount_usdt := None |}.


(** A service whose one mint, of the tracked pair, lies far outside the
    accepted prices. *)
Definition far_prices : Upstream.t :=
  answering (Http.mk 200 (RespDict [] [mint_without_amounts]))
            (Http.mk 500 (RespList [])).

Lemma refreshing_request_nothing_accepted_witness :
  (api_recommendations first_request (started far_prices)).2
  = Ok {| Reply.body := ErrorDict "No positions provided"; Reply.status := 404 |}.
Proof.
  rewrite (refreshing_request_nothing_accepted (started far_prices) first_request
             [far_position] ∅).
  - reflexivity.
  - apply started_refreshing; reflexivity.
  - reflexivity.
  - vm_compute. reflexivity.
  - discriminate.
  - reflexivity.
  - vm_compute. reflexivity.
Defined.

(** A service one of whose mints has an upper tick beyond the doubles. *)
Definition overflowing : Upstream.t :=
  answering (Http.mk 200 (RespDict [] [usdt_first_mint; overflowing_mint]))
            (Http.mk 500 (RespList [])).

Lemma refreshing_request_parse_raises_witness :
  (api_recommendations first_request (started overflowing)).2
  = Ok {| Reply.body := ErrorDict "(34, 'Numerical result out of range')";
          Reply.status := 404 |}.
Proof.
  destruct (refreshing_request_parse_raises (started overflowing) first_request
              (OverflowError "(34, 'Numerical result out of range')")
              (started_refreshing overflowing first_request eq_refl eq_refl)
              eq_refl
              ltac:(vm_compute; reflexivity)) as [_ Hrun].
  rewrite Hrun. reflexivity.
Defined.

(** A mint of the tracked pair, WETH first, between the ticks -201000 and
    -199000: some 1867 and 2280 USDT for one WETH. *)
Definition weth_first_mint : Call.t :=
  {| Call.Arguments :=
       [address_arg 0 "0xC02aaA39b223FE8D0A0e5C4F27eAD9083C756Cc2";
        address_arg 1 "0xdAC17F958D2ee523a2206206994597C13D831ec7";
        integer_arg 2 3000; integer_arg 3 (-201000); integer_arg 4 (-199000)];
     Call.Returns := [integer_return "tokenId" 1001; integer_return "liquidity" 9;
                      integer_return "amount0" 2000000000000000000;
                      integer_return "amount1" 4000000000];
     Call.Signature_Name := "mint";
     Call.Block_Time := Some "2024-03-01T00:00:00Z";
     Call.Transaction_Time := None;
     Call.Log := false |}.

Definition weth_first_position : Mint.t :=
  {| Mint.nft_id := 1001;
     Mint.tick_lower := -201000;
     Mint.tick_upper := -199000;
     Mint.timestamp := "2024-03-01T00:00:00Z";
     Mint.token0 := Some WETH_ADDRESS;
     Mint.token1 := Some USDT_ADDRESS;
     Mint.price_lower := Qpower (10001 # 10000) (-201000);
     Mint.price_upper := Qpower (10001 # 10000) (-199000);
     Mint.price_lower_afterdecimals := weth_price 201000;
     Mint.price_upper_afterdecimals := weth_price 199000;
     Mint.amount0 := Some 2000000000000000000%Z;
     Mint.amount1 := Some 4000000000%Z;
     Mint.amount0_afterdecimals := Some (nearest_double 2);
     Mint.amount1_afterdecimals := Some (nearest_double 4000);
     Mint.amount_weth := Some (nearest_double 2);
     Mint.amount_usdt := Some (nearest_double 4000) |}.

Lemma extract_weth_first :
  extract_position_data weth_first_mint = Ok (Some weth_first_position).
Proof. reflexivity. Qed.

(** Its entry of the final summary, without liquidity events. *)
Definition weth_first_entry : Summary.t :=
  {| Summary.nft_id := Some 1001%Z;
     Summary.create_time := "2024-03-01T00:00:00Z";
     Summary.number_of_positions := 1;
     Summary.price_lower_afterdecimals := Some (weth_price 201000);
     Summary.price_upper_afterdecimals := Some (weth_price 199000);
     Summary.amount_weth := Some (nearest_double 2);
     Summary.amount_usdt := Some (nearest_double 4000) |}.

Lemma summary_entry_weth_first :
  summary_entry ∅ weth_first_position = Ok weth_first_entry.
Proof. reflexivity. Qed.

Lemma weth_first_accepted : accepted weth_first_entry.
Proof.
  pose proof weth_price_at_minus_201000 as [Hlow Hlow'].
  pose proof weth_price_at_minus_199000 as [Hhigh Hhigh'].
  unfold accepted, validate_position_prices, weth_first_entry.
  cbn [Summary.price_lower_afterdecimals Summary.price_upper_afterdecimals
       Summary.amount_weth Summary.amount_usdt].
  set (low := weth_price 201000) in *.
  set (high := weth_price 199000) in *.
  clearbody low high.
  replace (validate_amounts _ _) with true by (vm_compute; reflexivity).
  unfold MIN_REASONABLE_PRICE, MAX_REASONABLE_PRICE, MIN_PRICE_THRESHOLD,
    MAX_PRICE_THRESHOLD.
  q_cases; try reflexivity; lra.
Qed.

(** A service that knows that one mint, and fails on the liquidity
    events. *)
Definition open_market : Upstream.t :=
  answering (Http.mk 200 (RespDict [] [weth_first_mint])) (Http.mk 500 (RespList [])).

Lemma open_market_summarised :
  summarised (entered (started open_market)) [weth_first_position] ∅ [weth_first_entry].
Proof.
  split; [reflexivity|].
  split.
  { change (minted (entered (started open_market)))
      with (parse_positions (RespDict [] [weth_first_mint])).
    unfold parse_positions. cbn [calls_of foldl_result].
    rewrite extract_weth_first. reflexivity. }
  split; [discriminate|].
  split; [reflexivity|].
  split; [|discriminate].
  rewrite create_final_summary_filter. unfold create_final_summary_from.
  cbn [mapM]. rewrite summary_entry_weth_first. cbn [mbind result_bind mret result_ret].
  rewrite filter_cons_True by exact weth_first_accepted. reflexivity.
Qed.


(** The first request to that service is served. *)
Lemma open_market_served :
  exists w' recommendations,
    api_recommendations first_request (started open_market)
    = (w', Ok {| Reply.body := Recommended recommendations; Reply.status := 200 |}).
Proof.
  destruct open_market_summarised
    as (Hstatus & Hminted & Hsome & Htally & Hsummary & Hentries).
  destruct (refresh_succeeds (entered (started open_market)) None None
              [weth_first_position] ∅ [weth_first_entry]
              Hstatus Hminted Hsome Htally Hsummary Hentries)
    as (new_bins & w1 & bins & bands & _ & _ & _ & Hrun & _).
  eexists _, _.
  rewrite refreshing_request_run
    by (apply started_refreshing; reflexivity).
  rewrite Hrun. reflexivity.
Qed.

Lemma refreshed_recommendation_served_again_witness :
  exists w' reply,
    api_recommendations first_request (started open_market) = (w', Ok reply) /\
    api_recommendations first_request w'
    = (World.set_ticks (3 + World.ticks w') w', Ok reply).
Proof.
  destruct open_market_served as (w' & recommendations & Hrun).
  exists w', {| Reply.body := Recommended recommendations; Reply.status := 200 |}.
  split; [exact Hrun|].
  apply (refreshed_recommendation_served_again (started open_market) w'
           first_request first_request recommendations
           (started_refreshing open_market first_request eq_refl eq_refl)
           Hrun eq_refl eq_refl).
  - discriminate.
  - reflexivity.
Defined.




End refresh_path.
